(** * Study tracker: streaks, consistency, persistence, validation, lockout

    A shallow embedding of the analytics, persistence, validation and
    authentication code of the study-tracking dashboard
    ([study_analyzer.py], [Neet.py], [data_manager.py], [auth_manager.py])
    together with the properties its specification states about them, and
    of the code around it: the statistics and the week of the analyzer, the
    log file, the timetable and the filters of the application, the backup,
    the management of the accounts, the notification queue
    ([notification_manager.py]) and the settings ([settings_manager.py]),
    with properties read off that code. *)

From Stdlib Require Import ZArith List Bool Lia Ascii String.
From Stdlib Require Import QArith Qround Qabs Qpower Lqa.
From Stdlib Require Import Floats.SpecFloat.
From stdpp Require Import base decidable option list sorting gmap strings pretty.

Local Open Scope Z_scope.

(** ** Python results

    A call either returns a value or raises one of the exceptions the
    modelled code can meet. *)

Inductive exn : Type :=
  | ValueError | TypeError | AttributeError | IndexError
  | KeyError | OverflowError | ZeroDivisionError | OSError.

Inductive res (A : Type) : Type :=
  | Ok (a : A)
  | Raise (e : exn).
Arguments Ok {A} a.
Arguments Raise {A} e.

#[global] Instance res_ret : MRet res := λ A a, Ok a.
#[global] Instance res_bind : MBind res := λ A B k r,
  match r with
  | Ok a => k a
  | Raise e => Raise e
  end.

(** ** Python floats

    IEEE 754 binary64 values with the operations of the Standard Library's
    [SpecFloat]: round-to-nearest-even division and multiplication, and the
    comparisons that are all false on NaN. *)

Module PyFloat.

Definition prec : Z := 53.
Definition emax : Z := 1024.
Definition float : Type := spec_float.

Definition nan : float := S754_nan.
Definition zero : float := S754_zero false.

(** [float(z)] for an integer. *)
Definition of_Z (z : Z) : float := binary_normalize prec emax z 0 false.

Definition mul (x y : float) : float := SFmul prec emax x y.
Definition truediv (x y : float) : float := SFdiv prec emax x y.
Definition ltb (x y : float) : bool := SFltb x y.

(** [x + y] and [x == y] *)
Definition add (x y : float) : float := SFadd prec emax x y.
Definition eqb (x y : float) : bool := SFeqb x y.


(** [a / b] on two Python integers: the quotient of the exact integers,
    rounded once. *)
Definition int_truediv (a b : Z) : res float :=
  match a, b with
  | _, Z0 => Raise ZeroDivisionError
  | Z0, _ => Ok (S754_zero (b <? 0))
  | _, _ =>
      match truediv (S754_finite (a <? 0) (Z.to_pos (Z.abs a)) 0)
                    (S754_finite (b <? 0) (Z.to_pos (Z.abs b)) 0) with
      | S754_infinity _ => Raise OverflowError
      | q => Ok q
      end
  end.

(** [int(x)]: truncation toward zero; infinities and NaN raise. *)
Definition to_int (x : float) : res Z :=
  match x with
  | S754_zero _ => Ok 0
  | S754_finite s m e =>
      let a := match e with
               | Zneg k => Z.shiftr (Zpos m) (Zpos k)
               | _ => Z.shiftl (Zpos m) e
               end in
      Ok (if s then - a else a)
  | S754_infinity _ => Raise OverflowError
  | S754_nan => Raise ValueError
  end.

(** [num / 2^k] rounded to the nearest integer, ties to even. *)
Definition rne_shift (num : Z) (k : positive) : Z :=
  let d := Z.shiftl 1 (Zpos k) in
  let q := num / d in
  let r := num mod d in
  match 2 * r ?= d with
  | Lt => q
  | Gt => q + 1
  | Eq => if Z.even q then q else q + 1
  end.

(** [round(x, ndigits)] for a float: the exact binary value is rounded to
    [ndigits] decimals, ties to even, and the decimal is converted back to
    the nearest float. *)
Definition round (x : float) (ndigits : nat) : float :=
  match x with
  | S754_finite s m e =>
      let p := 10 ^ Z.of_nat ndigits in
      let n := match e with
               | Zneg k => rne_shift (Zpos m * p) k
               | _ => Z.shiftl (Zpos m * p) e
               end in
      match n with
      | Zpos n' => truediv (S754_finite s n' 0) (of_Z p)
      | _ => S754_zero s
      end
  | _ => x
  end.


(** [np.rint(x)]: the nearest integer, ties to even, with the sign of
    [x]. *)
Definition rint (x : float) : float :=
  match x with
  | S754_finite s m (Zneg k) =>
      match rne_shift (Zpos m) k with
      | Zpos n => binary_normalize prec emax (if s then Zneg n else Zpos n) 0 s
      | _ => S754_zero s
      end
  | _ => x
  end.


(** A float that is zero, or finite, valid and above zero. *)
Definition not_negative (x : float) : Prop :=
  match x with
  | S754_zero _ => True
  | S754_finite s m e => s = false ∧ SpecFloat.bounded prec emax m e = true
  | _ => False
  end.



End PyFloat.




(** A Python number: an [int] or a [float]. *)
Inductive num : Type :=
  | NInt (z : Z)
  | NFloat (f : PyFloat.float).

Module PyNum.

Definition to_float (n : num) : PyFloat.float :=
  match n with
  | NInt z => PyFloat.of_Z z
  | NFloat f => f
  end.

(** [x > 0] *)
Definition gt0 (n : num) : bool :=
  match n with
  | NInt z => 0 <? z
  | NFloat f => PyFloat.ltb PyFloat.zero f
  end.

(** [x / y]; between two integers the exact quotient is rounded once,
    otherwise the integer operand is converted first. *)
Definition truediv (x y : num) : res PyFloat.float :=
  match x, y with
  | NInt a, NInt b => PyFloat.int_truediv a b
  | _, _ =>
      match to_float y with
      | S754_zero _ => Raise ZeroDivisionError
      | fy => Ok (PyFloat.truediv (to_float x) fy)
      end
  end.

(** [x * k] for a float [x] and an integer literal [k]. *)
Definition mul_int (x : PyFloat.float) (k : Z) : PyFloat.float :=
  PyFloat.mul x (PyFloat.of_Z k).

(** [int(x)] *)
Definition to_int (n : num) : res Z :=
  match n with
  | NInt z => Ok z
  | NFloat f => PyFloat.to_int f
  end.

(** [round(x, ndigits)] *)
Definition round (n : num) (ndigits : nat) : num :=
  match n with
  | NInt z => NInt z
  | NFloat f => NFloat (PyFloat.round f ndigits)
  end.

End PyNum.


(** ** Calendar dates

    The proleptic Gregorian calendar of Python's [datetime.date]. *)

Module Calendar.

Definition is_leap (y : Z) : bool :=
  (y mod 4 =? 0) && (negb (y mod 100 =? 0) || (y mod 400 =? 0)).

Definition days_in_month (y m : Z) : Z :=
  if (m =? 2) && is_leap y then 29
  else nth (Z.to_nat m) [0; 31; 28; 31; 30; 31; 30; 31; 31; 30; 31; 30; 31] 0.

Definition days_before_year (y : Z) : Z :=
  let p := y - 1 in p * 365 + p / 4 - p / 100 + p / 400.

Definition days_before_month (y m : Z) : Z :=
  nth (Z.to_nat m) [0; 0; 31; 59; 90; 120; 151; 181; 212; 243; 273; 304; 334] 0
  + (if (2 <? m) && is_leap y then 1 else 0).

(** [date(y, m, d).toordinal()] *)
Definition toordinal (y m d : Z) : Z :=
  days_before_year y + days_before_month y m + d.

(** The check of the [date] constructor. *)
Definition valid_date (y m d : Z) : bool :=
  (1 <=? y) && (y <=? 9999) && (1 <=? m) && (m <=? 12)
  && (1 <=? d) && (d <=? days_in_month y m).

End Calendar.


(** ** Python strings

    [str.split()], [float(str)] and [datetime.strptime(s, '%Y-%m-%d')] on
    strings of characters up to U+00FF, a character being its code
    point. *)

Module PyStr.

Definition code (c : ascii) : Z := Z.of_N (N_of_ascii c).

Definition digit_of (c : ascii) : option Z :=
  let n := code c in
  if (48 <=? n) && (n <=? 57) then Some (n - 48) else None.

(** [c.isspace()] for a character up to U+00FF: the ASCII white space, the
    separators U+001C to U+001F, NEL (U+0085) and the no-break space
    (U+00A0). *)
Definition is_space (c : ascii) : bool :=
  let n := code c in
  ((9 <=? n) && (n <=? 13)) || ((28 <=? n) && (n <=? 32))
  || (n =? 133) || (n =? 160).

(** ASCII lower-casing, for the case-insensitive literals of [float]. *)
Definition lower (c : ascii) : ascii :=
  let n := code c in
  if (65 <=? n) && (n <=? 90) then ascii_of_N (Z.to_N (n + 32)) else c.

Fixpoint lower_string (s : string) : string :=
  match s with
  | EmptyString => EmptyString
  | String c s' => String (lower c) (lower_string s')
  end.

Definition is_empty (s : string) : bool :=
  match s with
  | EmptyString => true
  | String _ _ => false
  end.

Fixpoint split_from (cur s : string) : list string :=
  match s with
  | EmptyString => if is_empty cur then [] else [cur]
  | String c s' =>
      if is_space c then
        if is_empty cur then split_from EmptyString s'
        else cur :: split_from EmptyString s'
      else split_from (cur +:+ String c EmptyString) s'
  end.

(** [s.split()]: the maximal runs of non-whitespace characters. *)
Definition split (s : string) : list string := split_from EmptyString s.

(** The rest of a [digitpart] after its first digit:
    [(["_"] digit)*], greedy. Returns the value, the number of digits read
    and the unread rest. *)
Fixpoint digits_from (s : string) (acc count : Z) : Z * Z * string :=
  match s with
  | EmptyString => (acc, count, s)
  | String c s' =>
      match digit_of c with
      | Some d => digits_from s' (10 * acc + d) (count + 1)
      | None =>
          if Ascii.eqb c "_" then
            match s' with
            | String c2 s'' =>
                match digit_of c2 with
                | Some d => digits_from s'' (10 * acc + d) (count + 1)
                | None => (acc, count, s)
                end
            | EmptyString => (acc, count, s)
            end
          else (acc, count, s)
      end
  end.

(** [digitpart ::= digit (["_"] digit)*] *)
Definition digitpart (s : string) (acc count : Z) : option (Z * Z * string) :=
  match s with
  | String c s' =>
      match digit_of c with
      | Some d => Some (digits_from s' (10 * acc + d) (count + 1))
      | None => None
      end
  | EmptyString => None
  end.

(** [exponent ::= ("e" | "E") [sign] digitpart], up to the end of the
    string; an empty rest is exponent 0. *)
Definition exponent (s : string) : option Z :=
  match s with
  | EmptyString => Some 0
  | String c s' =>
      if Ascii.eqb (lower c) "e" then
        let '(neg, body) :=
          match s' with
          | String "-" b => (true, b)
          | String "+" b => (false, b)
          | _ => (false, s')
          end in
        match digitpart body 0 0 with
        | Some (x, _, EmptyString) => Some (if neg then - x else x)
        | _ => None
        end
      else None
  end.

(** [number ::= [digitpart] "." digitpart | digitpart ["."]], followed by
    the optional exponent. Returns the decimal mantissa and exponent. *)
Definition floatnumber (s : string) : option (Z * Z) :=
  match s with
  | String "." s' =>
      match digitpart s' 0 0 with
      | Some (m, nf, rest) =>
          match exponent rest with
          | Some x => Some (m, x - nf)
          | None => None
          end
      | None => None
      end
  | _ =>
      match digitpart s 0 0 with
      | Some (i, _, String "." rest) =>
          let '(m, nf, rest') :=
            match digitpart rest i 0 with
            | Some r => r
            | None => (i, 0, rest)
            end in
          match exponent rest' with
          | Some x => Some (m, x - nf)
          | None => None
          end
      | Some (i, _, rest) =>
          match exponent rest with
          | Some x => Some (i, x)
          | None => None
          end
      | None => None
      end
  end.

(** The float nearest to [(-1)^neg * m * 10^x]. *)
Definition of_decimal (neg : bool) (m x : Z) : PyFloat.float :=
  match m with
  | Zpos p =>
      match x with
      | Zneg k =>
          PyFloat.truediv (S754_finite neg p 0)
            (S754_finite false (Z.to_pos (10 ^ Zpos k)) 0)
      | _ => binary_normalize PyFloat.prec PyFloat.emax
               (if neg then - (m * 10 ^ x) else m * 10 ^ x) 0 false
      end
  | _ => S754_zero neg
  end.

(** [float(s)] for a string without surrounding whitespace. *)
Definition to_float (s : string) : res PyFloat.float :=
  let '(neg, body) :=
    match s with
    | String "-" b => (true, b)
    | String "+" b => (false, b)
    | _ => (false, s)
    end in
  let low := lower_string body in
  if String.eqb low "inf" || String.eqb low "infinity" then Ok (S754_infinity neg)
  else if String.eqb low "nan" then Ok S754_nan
  else
    match floatnumber body with
    | Some (m, x) => Ok (of_decimal neg m x)
    | None => Raise ValueError
    end.

(** The alternatives of the [%m] directive, [1[0-2]|0[1-9]|[1-9]]. *)
Definition match_month (s : string) : option (Z * string) :=
  match s with
  | String c1 s1 =>
      let two :=
        match s1 with
        | String c2 s2 =>
            match digit_of c1, digit_of c2 with
            | Some 1, Some d => if d <=? 2 then Some (10 + d, s2) else None
            | Some 0, Some d => if 1 <=? d then Some (d, s2) else None
            | _, _ => None
            end
        | EmptyString => None
        end in
      match two with
      | Some r => Some r
      | None =>
          match digit_of c1 with
          | Some d => if 1 <=? d then Some (d, s1) else None
          | None => None
          end
      end
  | EmptyString => None
  end.

(** The alternatives of the [%d] directive,
    [3[0-1]|[1-2]\d|0[1-9]|[1-9]| [1-9]]. *)
Definition match_day (s : string) : option (Z * string) :=
  match s with
  | String c1 s1 =>
      let two :=
        match s1 with
        | String c2 s2 =>
            match digit_of c1, digit_of c2 with
            | Some 3, Some d => if d <=? 1 then Some (30 + d, s2) else None
            | Some 1, Some d => Some (10 + d, s2)
            | Some 2, Some d => Some (20 + d, s2)
            | Some 0, Some d => if 1 <=? d then Some (d, s2) else None
            | None, Some d =>
                if Ascii.eqb c1 " " && (1 <=? d) then Some (d, s2) else None
            | _, _ => None
            end
        | EmptyString => None
        end in
      match two with
      | Some r => Some r
      | None =>
          match digit_of c1 with
          | Some d => if 1 <=? d then Some (d, s1) else None
          | None => None
          end
      end
  | EmptyString => None
  end.

(** [datetime.strptime(s, '%Y-%m-%d')]: the pattern
    [\d\d\d\d-(month)-(day)] must match a prefix, nothing may remain, and
    the fields must form a date. *)
Definition strptime_ymd (s : string) : res (Z * Z * Z) :=
  match s with
  | String y1 (String y2 (String y3 (String y4 (String "-" r1)))) =>
      match digit_of y1, digit_of y2, digit_of y3, digit_of y4 with
      | Some a, Some b, Some c, Some d =>
          let y := 1000 * a + 100 * b + 10 * c + d in
          match match_month r1 with
          | Some (m, String "-" r2) =>
              match match_day r2 with
              | Some (dd, EmptyString) =>
                  if Calendar.valid_date y m dd then Ok (y, m, dd)
                  else Raise ValueError
              | _ => Raise ValueError
              end
          | _ => Raise ValueError
          end
      | _, _, _, _ => Raise ValueError
      end
  | _ => Raise ValueError
  end.

End PyStr.



(** ** The study log as a table

    A row of the data frame after [pd.to_datetime] and the numeric
    conversions: the date is kept as its proleptic Gregorian day number
    ([date.toordinal()]), so that [(d2 - d1).days] is the difference of two
    day numbers. The hours of a row are kept as an exact rational; the
    subject balance further down works on the [float64] hours. *)

Record row : Type := mk_row {
  Date : Z;
  Subject : string;
  Study_Hours : Q;
}.

(** [Series.unique()]: the distinct values in order of first appearance. *)
Definition unique {A} `{EqDecision A} (l : list A) : list A :=
  reverse (remove_dups (reverse l)).

(** [sorted(...)] on day numbers. *)
Definition sorted (l : list Z) : list Z := merge_sort Z.le l.

(** [range(n)] and [range(hi, lo, -1)]. *)
Definition range (n : nat) : list nat := seq 0 n.
Definition range_down (hi lo : nat) : list nat := reverse (seq (S lo) (hi - lo)).

(** A [for] loop over indices whose body is
    [if test(i): streak += 1 else: break]. *)
Fixpoint count_until_break (test : nat → bool) (idx : list nat) (streak : Z) : Z :=
  match idx with
  | [] => streak
  | i :: rest =>
      if test i then count_until_break test rest (streak + 1) else streak
  end.

(** [Series.max()] and [Series.min()] of a non-empty column. *)
Definition series_max (l : list Z) : Z := foldr Z.max (hd 0 l) l.
Definition series_min (l : list Z) : Z := foldr Z.min (hd 0 l) l.

(** [x.round(decimals)] of numpy on a float64 column, for [decimals > 0]:
    [rint(x * 10**decimals) / 10**decimals], every operation rounded to
    binary64. *)
Definition np_round (x : PyFloat.float) (decimals : nat) : PyFloat.float :=
  let p := PyFloat.of_Z (10 ^ Z.of_nat decimals) in
  PyFloat.truediv (PyFloat.rint (PyFloat.mul x p)) p.

(** The two columns of the frame that the subject balance reads: the
    subject of each row and its hours, a float64. *)
Definition hours_frame : Type := list (string * PyFloat.float).

(** [df.groupby('Subject')[hours].sum()]: one row per subject, the keys in
    sorted order. [group_sum] is the sum pandas makes of the hours of a
    group, in its own order and with its compensation of the rounding
    errors. *)
Definition groupby_subject_sum (group_sum : list PyFloat.float → PyFloat.float)
    (data : hours_frame) : list (string * PyFloat.float) :=
  (λ s, (s, group_sum (snd <$> filter (λ r, r.1 = s) data)))
    <$> merge_sort (λ a b, String.leb a b) (unique (fst <$> data)).

(** [(hours / total_hours * 100).round(decimals)] for one subject. *)
Definition share (decimals : nat) (hours total_hours : PyFloat.float)
    : PyFloat.float :=
  np_round (PyFloat.mul (PyFloat.truediv hours total_hours) (PyFloat.of_Z 100))
    decimals.

(** [(subject_hours / total_hours * 100).round(decimals)] *)
Definition percentages (decimals : nat)
    (subject_hours : list (string * PyFloat.float))
    (total_hours : PyFloat.float) : list (string * PyFloat.float) :=
  (λ p, (p.1, share decimals p.2 total_hours)) <$> subject_hours.

Module StudyAnalyzer.

(** [sorted(self.data['Date'].dt.date.unique())] *)
Definition dates_of (data : list row) : list Z := sorted (unique (Date <$> data)).

(** [_calculate_streak], study_analyzer.py lines 51-65. *)
Definition _calculate_streak (data : list row) : Z :=
  match data with
  | [] => 0
  | _ =>
      let dates := dates_of data in
      count_until_break
        (λ i, nth (i + 1) dates 0 - nth i dates 0 =? 1)
        (range (length dates - 1)) 1
  end.

(** [_calculate_consistency_score], study_analyzer.py lines 188-202. *)
Definition _calculate_consistency_score (data : list row) : res num :=
  match data with
  | [] => Ok (NFloat PyFloat.zero)
  | _ =>
      let days_studied := Z.of_nat (length (unique (Date <$> data))) in
      let date_range :=
        series_max (Date <$> data) - series_min (Date <$> data) + 1 in
      consistency ←
        (if 0 <? date_range then
           q ← PyNum.truediv (NInt days_studied) (NInt date_range);
           mret (NFloat (PyNum.mul_int q 100))
         else mret (NInt 0));
      mret (PyNum.round consistency 2)
  end.

(** [_analyze_subject_balance], study_analyzer.py lines 161-173, on the
    two columns it reads; [series_sum] is the [Series.sum()] of pandas. *)
Definition _analyze_subject_balance
    (group_sum series_sum : list PyFloat.float → PyFloat.float)
    (data : hours_frame) : list (string * PyFloat.float) :=
  match data with
  | [] => []
  | _ =>
      let subject_hours := groupby_subject_sum group_sum data in
      let total_hours := series_sum (snd <$> subject_hours) in
      if PyFloat.eqb total_hours PyFloat.zero then []
      else percentages 2 subject_hours total_hours
  end.

End StudyAnalyzer.

Module Neet.

(** The streak loop of [calculate_stats], Neet.py lines 125-132 and
    156-163, on the frame of a log of which every conversion of the [try]
    block returned; [NeetStats.calculate_stats_streak] below is the
    function on the stored log, with its [except]. *)
Definition calculate_stats_streak (data : list row) : Z :=
  match data with
  | [] => 0
  | _ =>
      let dates := sorted (unique (Date <$> data)) in
      count_until_break
        (λ i, nth i dates 0 - nth (i - 1) dates 0 =? 1)
        (range_down (length dates - 1) 0) 1
  end.

(** The [Percentage] column of [show_dashboard], Neet.py lines 240-244, on
    the two columns it reads; [None] when the column is not computed. *)
Definition subject_percentages
    (group_sum series_sum : list PyFloat.float → PyFloat.float)
    (data : hours_frame) : option (list (string * PyFloat.float)) :=
  match data with
  | [] => None
  | _ =>
      let subject_hours := groupby_subject_sum group_sum data in
      let total_hours := series_sum (snd <$> subject_hours) in
      if PyFloat.ltb PyFloat.zero total_hours
      then Some (percentages 1 subject_hours total_hours)
      else None
  end.

(** [min(100, int((current / target * 100) if target > 0 else 0))],
    Neet.py lines 905-906. *)
Definition percent (current target : num) : res Z :=
  value ←
    (if PyNum.gt0 target then
       q ← PyNum.truediv current target;
       mret (NFloat (PyNum.mul_int q 100))
     else mret (NInt 0));
  n ← PyNum.to_int value;
  mret (Z.min 100 n).

(** A weekly target, [st.session_state.weekly_targets[subject]]. *)
Record weekly_target : Type := mk_target {
  hours : num;
  questions : num;
}.

(** The two percentages of a progress card, Neet.py lines 899-906. *)
Definition progress (current_hours current_questions : num)
    (target : weekly_target) : res (Z * Z) :=
  hours_percent ← percent current_hours (hours target);
  questions_percent ← percent current_questions (questions target);
  mret (hours_percent, questions_percent).

End Neet.

(** ** Python values

    The values a decoded JSON document is made of. Lists and dictionaries
    are kept without their contents: the code below only asks whether a
    value is a string. *)

Inductive pyval : Type :=
  | VNone
  | VBool (b : bool)
  | VInt (z : Z)
  | VFloat (f : PyFloat.float)
  | VStr (s : string)
  | VList
  | VDict.

(** [try: body except (caught): handler] around a computation whose normal
    result is passed on to [k]. *)
Definition try_except {A B} (body : res A) (caught : exn → bool)
    (handler : res B) (k : A → res B) : res B :=
  match body with
  | Ok a => k a
  | Raise e => if caught e then handler else Raise e
  end.

Definition is_ValueError (e : exn) : bool :=
  match e with ValueError => true | _ => false end.

Definition is_ValueError_or_AttributeError (e : exn) : bool :=
  match e with ValueError | AttributeError => true | _ => false end.

(** ** The persistence store and the entry validator ([data_manager.py]) *)

Module DataManager.

Definition required_fields : list string :=
  ["Date"; "Subject"; "Study Duration"]%string.

Definition valid_subjects : list string :=
  ["Physics"; "Chemistry"; "Botany"; "Zoology"]%string.

(** [field in entry] *)
Definition has_key (entry : gmap string pyval) (field : string) : bool :=
  bool_decide (is_Some (entry !! field)).

(** [entry[field]] *)
Definition getitem (entry : gmap string pyval) (field : string) : res pyval :=
  match entry !! field with
  | Some v => Ok v
  | None => Raise KeyError
  end.

(** [datetime.strptime(v, '%Y-%m-%d')]: only a [str] is accepted. *)
Definition strptime (v : pyval) : res (Z * Z * Z) :=
  match v with
  | VStr s => PyStr.strptime_ymd s
  | _ => Raise TypeError
  end.

(** [v.split()]: only a [str] has the method. *)
Definition split (v : pyval) : res (list string) :=
  match v with
  | VStr s => Ok (PyStr.split s)
  | _ => Raise AttributeError
  end.

(** [tokens[0]] *)
Definition first (tokens : list string) : res string :=
  match tokens with
  | tok :: _ => Ok tok
  | [] => Raise IndexError
  end.

(** [v in valid_subjects] *)
Definition is_valid_subject (v : pyval) : bool :=
  match v with
  | VStr s => bool_decide (s ∈ valid_subjects)
  | _ => false
  end.

(** [float(entry['Study Duration'].split()[0])] *)
Definition duration_of (entry : gmap string pyval) : res PyFloat.float :=
  v ← getitem entry "Study Duration";
  tokens ← split v;
  tok ← first tokens;
  PyStr.to_float tok.

(** [validate_study_entry], data_manager.py lines 67-94. *)
Definition validate_study_entry (entry : gmap string pyval) : res bool :=
  if negb (forallb (has_key entry) required_fields) then Ok false
  else
    try_except (v ← getitem entry "Date"; strptime v)
      is_ValueError (Ok false) (λ _,
    subject ← getitem entry "Subject";
    if negb (is_valid_subject subject) then Ok false
    else
      try_except (duration_of entry)
        is_ValueError_or_AttributeError (Ok false) (λ duration,
      if PyFloat.ltb duration (PyFloat.of_Z 0)
         || PyFloat.ltb (PyFloat.of_Z 24) duration
      then Ok false
      else Ok true)).

(** *** Files

    The data directory is a finite map from paths to file contents. Every
    [os] call the store issues is appended to a trace, in the order of the
    calls. *)

Inductive fs_op : Type :=
  | OpReplace (src dst : string)
  | OpWrite (path : string)
  | OpRemove (path : string).

Record world : Type := mk_world {
  files : gmap string string;
  trace : list fs_op;
}.

(** What happens to [with open(path, 'w') as f: json.dump(data, f)]:
    it completes, [open] raises and the file is untouched, or an exception
    is raised after [open] truncated the file and [written] reached it. *)
Inductive write_fault : Type :=
  | NoFault
  | FailOpen
  | FailPartial (written : string).

(** Computations on the file system that may raise. *)
Definition io (A : Type) : Type := world → world * res A.

#[global] Instance io_ret : MRet io := λ A a w, (w, Ok a).
#[global] Instance io_bind : MBind io := λ A B k m w,
  match m w with
  | (w', Ok a) => k a w'
  | (w', Raise e) => (w', Raise e)
  end.

(** [os.path.exists(path)] *)
Definition stored (w : world) (path : string) : bool :=
  bool_decide (is_Some (files w !! path)).

Definition path_exists (path : string) : io bool :=
  λ w, (w, Ok (stored w path)).

Definition log (op : fs_op) (w : world) : world :=
  mk_world (files w) (trace w ++ [op]).

(** [os.replace(src, dst)] *)
Definition os_replace (src dst : string) : io unit :=
  λ w,
    let w := log (OpReplace src dst) w in
    match files w !! src with
    | Some content =>
        (mk_world (<[dst := content]> (delete src (files w))) (trace w), Ok ())
    | None => (w, Raise OSError)
    end.

(** [os.remove(path)] *)
Definition os_remove (path : string) : io unit :=
  λ w,
    let w := log (OpRemove path) w in
    match files w !! path with
    | Some _ => (mk_world (delete path (files w)) (trace w), Ok ())
    | None => (w, Raise OSError)
    end.

(** [with open(path, 'w') as f: json.dump(data, f, indent=4)], where
    [text] is the serialised data. *)
Definition write_text (fault : write_fault) (path text : string) : io unit :=
  λ w,
    let w := log (OpWrite path) w in
    match fault with
    | NoFault => (mk_world (<[path := text]> (files w)) (trace w), Ok ())
    | FailOpen => (w, Raise OSError)
    | FailPartial written =>
        (mk_world (<[path := written]> (files w)) (trace w), Raise OSError)
    end.

(** [os.path.join(a, b)] on POSIX paths. *)
Definition ends_with_slash (a : string) : bool :=
  match last (list_ascii_of_string a) with
  | Some c => Ascii.eqb c "/"
  | None => false
  end.

Definition os_path_join (a b : string) : string :=
  match b with
  | String "/" _ => b
  | _ =>
      if PyStr.is_empty a || ends_with_slash a then a +:+ b
      else a +:+ "/" +:+ b
  end.

(** [_get_file_path] *)
Definition _get_file_path (data_dir filename : string) : string :=
  os_path_join data_dir filename.

Definition backup_path_of (file_path : string) : string := file_path +:+ ".backup".

Section Persistence.

(** The records of a collection and the JSON codec: [json_dump data] is the
    text [json.dump(data, f, indent=4)] writes, [json_load text] what
    [json.load] returns, raising on text that is not JSON. *)
Context {record : Type}.
Variable json_dump : list record → string.
Variable json_load : string → res (list record).

(** [load_data], data_manager.py lines 29-39. *)
Definition load_data (data_dir filename : string) (w : world) : list record :=
  let file_path := _get_file_path data_dir filename in
  match files w !! file_path with
  | Some text =>
      match json_load text with
      | Ok data => data
      | Raise _ => []
      end
  | None => []
  end.

(** The [try] block of [save_data]. *)
Definition save_data_try (fault : write_fault) (file_path backup_path : string)
    (data : list record) : io bool :=
  present ← path_exists file_path;
  (if present : bool then os_replace file_path backup_path else mret ());;
  write_text fault file_path (json_dump data);;
  stale ← path_exists backup_path;
  (if stale : bool then os_remove backup_path else mret ());;
  mret true.

(** The [except Exception] block of [save_data]. *)
Definition save_data_except (file_path backup_path : string) : io bool :=
  saved ← path_exists backup_path;
  (if saved : bool then os_replace backup_path file_path else mret ());;
  mret false.

(** [save_data], data_manager.py lines 41-65. *)
Definition save_data (fault : write_fault) (data_dir filename : string)
    (data : list record) : io bool :=
  λ w,
    let file_path := _get_file_path data_dir filename in
    let backup_path := backup_path_of file_path in
    match save_data_try fault file_path backup_path data w with
    | (w', Ok b) => (w', Ok b)
    | (w', Raise _) => save_data_except file_path backup_path w'
    end.

End Persistence.


End DataManager.


(** ** Accounts and lockout ([auth_manager.py])

    Timestamps are microseconds on the clock [datetime.now()] reads; a call
    of [authenticate_user] reads the clock as [now]. The account map is the
    in-memory [self.users]; [_save_users] writes it out and its result is
    ignored by [authenticate_user]. *)

Module AuthManager.

Record user : Type := mk_user {
  password : string;
  email : string;
  created_at : Z;
  last_login : option Z;
  failed_attempts : Z;
  locked_until : option Z;
}.

(** The claims of an issued token. *)
Record token : Type := mk_token {
  token_username : string;
  token_exp : Z;
}.

(** [timedelta(minutes=n)] and [timedelta(days=n)] *)
Definition minutes (n : Z) : Z := n * 60 * 1000000.
Definition days (n : Z) : Z := n * 86400 * 1000000.

Definition msg_invalid : string := "Invalid username or password".
Definition msg_locked : string := "Account is locked. Please try again later.".
Definition msg_locked_now : string :=
  "Account locked due to too many failed attempts. Please try again in 30 minutes.".
Definition msg_success : string := "Authentication successful".

(** [user["locked_until"] and fromisoformat(user["locked_until"]) > now] *)
Definition is_locked (u : user) (now : Z) : bool :=
  match locked_until u with
  | Some t => now <? t
  | None => false
  end.

Definition set_failed_attempts (n : Z) (u : user) : user :=
  mk_user (password u) (email u) (created_at u) (last_login u) n (locked_until u).

Definition set_locked_until (t : option Z) (u : user) : user :=
  mk_user (password u) (email u) (created_at u) (last_login u) (failed_attempts u) t.

Definition set_last_login (t : option Z) (u : user) : user :=
  mk_user (password u) (email u) (created_at u) t (failed_attempts u) (locked_until u).

Section Auth.

(** [_hash_password]: the SHA-256 hex digest. *)
Variable _hash_password : string → string.

(** [create_user], auth_manager.py lines 53-70. *)
Definition create_user (now : Z) (users : gmap string user)
    (username pw mail : string) : gmap string user * (bool * string) :=
  match users !! username with
  | Some _ => (users, (false, "Username already exists"%string))
  | None =>
      (<[username := mk_user (_hash_password pw) mail now None 0 None]> users,
       (true, "User created successfully"%string))
  end.

(** [authenticate_user], auth_manager.py lines 72-107. *)
Definition authenticate_user (now : Z) (users : gmap string user)
    (username pw : string) : gmap string user * (bool * string * option token) :=
  match users !! username with
  | None => (users, (false, msg_invalid, None))
  | Some u =>
      if is_locked u now then (users, (false, msg_locked, None))
      else if negb (String.eqb (password u) (_hash_password pw)) then
        let u := set_failed_attempts (failed_attempts u + 1) u in
        if 5 <=? failed_attempts u then
          let u := set_locked_until (Some (now + minutes 30)) u in
          (<[username := u]> users, (false, msg_locked_now, None))
        else (<[username := u]> users, (false, msg_invalid, None))
      else
        let u := set_last_login (Some now) (set_failed_attempts 0 u) in
        (<[username := u]> users,
         (true, msg_success, Some (mk_token username (now + days 1))))
  end.

(** A run of [authenticate_user] calls for one username, each with its
    clock reading and password; returns the final account map and the
    results in call order. *)
Fixpoint authenticate_all (users : gmap string user) (username : string)
    (calls : list (Z * string))
    : gmap string user * list (bool * string * option token) :=
  match calls with
  | [] => (users, [])
  | (now, pw) :: rest =>
      let '(users', r) := authenticate_user now users username pw in
      let '(users'', rs) := authenticate_all users' username rest in
      (users'', r :: rs)
  end.

End Auth.

End AuthManager.


(** ** A JSON codec for the study log

    The entries [show_daily_entry] builds are flat dictionaries from strings
    to strings, so the study log is a list of such records. [dump] is the
    text [json.dump(data, f, indent=4)] writes for it (with the default
    [ensure_ascii]), [load] reads a JSON array of such objects back; text
    that is not of this shape is treated as undecodable. Characters are
    bytes; a [\uXXXX] escape above [ÿ] is not representable and is
    rejected. *)

Module FlatJson.

Definition record : Type := list (string * string).

Definition dquote : ascii := ascii_of_N 34.
Definition backslash : ascii := ascii_of_N 92.

Definition hex_digit (n : Z) : ascii :=
  ascii_of_N (Z.to_N (if n <? 10 then 48 + n else 87 + n)).

Definition hex_value (c : ascii) : option Z :=
  let n := PyStr.code c in
  if (48 <=? n) && (n <=? 57) then Some (n - 48)
  else if (97 <=? n) && (n <=? 102) then Some (n - 87)
  else if (65 <=? n) && (n <=? 70) then Some (n - 55)
  else None.

(** The escape of one character, [py_encode_basestring_ascii]. *)
Definition escape_char (c : ascii) : string :=
  let n := PyStr.code c in
  if n =? 34 then String backslash (String dquote EmptyString)
  else if n =? 92 then "\\"%string
  else if n =? 10 then "\n"%string
  else if n =? 13 then "\r"%string
  else if n =? 9 then "\t"%string
  else if n =? 8 then "\b"%string
  else if n =? 12 then "\f"%string
  else if (32 <=? n) && (n <=? 126) then String c EmptyString
  else "\u00" +:+ String (hex_digit (n / 16)) (String (hex_digit (n mod 16)) EmptyString).

Fixpoint escape (s : string) : string :=
  match s with
  | EmptyString => EmptyString
  | String c s' => escape_char c +:+ escape s'
  end.

Definition quote (s : string) : string :=
  String dquote (escape s +:+ String dquote EmptyString).

Definition newline : string := String (ascii_of_N 10) EmptyString.
Definition indent1 : string := "    ".
Definition indent2 : string := "        ".

Fixpoint join (sep : string) (parts : list string) : string :=
  match parts with
  | [] => EmptyString
  | [p] => p
  | p :: rest => p +:+ sep +:+ join sep rest
  end.

Definition dump_member (kv : string * string) : string :=
  indent2 +:+ quote kv.1 +:+ ": " +:+ quote kv.2.

Definition dump_record (r : record) : string :=
  match r with
  | [] => indent1 +:+ "{}"
  | _ =>
      indent1 +:+ "{" +:+ newline
      +:+ join ("," +:+ newline) (dump_member <$> r)
      +:+ newline +:+ indent1 +:+ "}"
  end.

(** [json.dump(data, f, indent=4)] *)
Definition dump (data : list record) : string :=
  match data with
  | [] => "[]"
  | _ =>
      "[" +:+ newline +:+ join ("," +:+ newline) (dump_record <$> data)
      +:+ newline +:+ "]"
  end.

(** JSON whitespace: space, tab, line feed, carriage return. *)
Definition is_ws (c : ascii) : bool :=
  let n := PyStr.code c in
  (n =? 32) || (n =? 9) || (n =? 10) || (n =? 13).

Fixpoint skip_ws (s : string) : string :=
  match s with
  | String c s' => if is_ws c then skip_ws s' else s
  | EmptyString => s
  end.

(** The body of a string literal after its opening quote; returns the
    decoded string and the text after the closing quote. *)
Fixpoint string_body (s : string) : option (string * string) :=
  match s with
  | EmptyString => None
  | String c s' =>
      let n := PyStr.code c in
      if n =? 34 then Some (EmptyString, s')
      else if n =? 92 then
        match s' with
        | String e s'' =>
            let simple (d : ascii) :=
              match string_body s'' with
              | Some (body, rest) => Some (String d body, rest)
              | None => None
              end in
            let m := PyStr.code e in
            if m =? 34 then simple e
            else if m =? 92 then simple e
            else if m =? 47 then simple e
            else if m =? 110 then simple (ascii_of_N 10)
            else if m =? 114 then simple (ascii_of_N 13)
            else if m =? 116 then simple (ascii_of_N 9)
            else if m =? 98 then simple (ascii_of_N 8)
            else if m =? 102 then simple (ascii_of_N 12)
            else if m =? 117 then
              match s'' with
              | String h1 (String h2 (String h3 (String h4 s4))) =>
                  match hex_value h1, hex_value h2, hex_value h3, hex_value h4 with
                  | Some 0, Some 0, Some a, Some b =>
                      match string_body s4 with
                      | Some (body, rest) =>
                          Some (String (ascii_of_N (Z.to_N (16 * a + b))) body, rest)
                      | None => None
                      end
                  | _, _, _, _ => None
                  end
              | _ => None
              end
            else None
        | EmptyString => None
        end
      else if n <? 32 then None
      else
        match string_body s' with
        | Some (body, rest) => Some (String c body, rest)
        | None => None
        end
  end.

(** A string literal, opening quote included. *)
Definition string_literal (s : string) : option (string * string) :=
  match s with
  | String c s' => if PyStr.code c =? 34 then string_body s' else None
  | EmptyString => None
  end.

(** The members of an object after ["{"]: [fuel] bounds the number of
    members. *)
Fixpoint members (fuel : nat) (s : string) : option (record * string) :=
  match fuel with
  | O => None
  | S fuel' =>
      match string_literal (skip_ws s) with
      | Some (key, s1) =>
          match skip_ws s1 with
          | String ":" s2 =>
              match string_literal (skip_ws s2) with
              | Some (value, s3) =>
                  match skip_ws s3 with
                  | String "," s4 =>
                      match members fuel' s4 with
                      | Some (r, rest) => Some ((key, value) :: r, rest)
                      | None => None
                      end
                  | String "}" s4 => Some ([(key, value)], s4)
                  | _ => None
                  end
              | None => None
              end
          | _ => None
          end
      | None => None
      end
  end.

Definition object (s : string) : option (record * string) :=
  match skip_ws s with
  | String "{" s1 =>
      match skip_ws s1 with
      | String "}" s2 => Some ([], s2)
      | _ => members (String.length s1) s1
      end
  | _ => None
  end.

(** The elements of an array after ["["]. *)
Fixpoint elements (fuel : nat) (s : string) : option (list record * string) :=
  match fuel with
  | O => None
  | S fuel' =>
      match object s with
      | Some (r, s1) =>
          match skip_ws s1 with
          | String "," s2 =>
              match elements fuel' s2 with
              | Some (rs, rest) => Some (r :: rs, rest)
              | None => None
              end
          | String "]" s2 => Some ([r], s2)
          | _ => None
          end
      | None => None
      end
  end.

(** [json.load(f)] *)
Definition load (text : string) : res (list record) :=
  match skip_ws text with
  | String "[" s1 =>
      let parsed :=
        match skip_ws s1 with
        | String "]" s2 => Some ([], s2)
        | _ => elements (String.length s1) s1
        end in
      match parsed with
      | Some (data, rest) =>
          match skip_ws rest with
          | EmptyString => Ok data
          | _ => Raise ValueError
          end
      | None => Raise ValueError
      end
  | _ => Raise ValueError
  end.

End FlatJson.



(** Leading run of a list: how many elements, from the head on, are each
    related to their successor by [rel]. *)
Fixpoint lead_run (rel : Z → Z → bool) (l : list Z) : Z :=
  match l with
  | [] => 1
  | a :: tl =>
      match tl with
      | [] => 1
      | b :: _ => if rel a b then 1 + lead_run rel tl else 1
      end
  end.

(** The streak of the glossary: the number of consecutive calendar days with
    at least one entry, ending at the most recent studied day. *)
Definition is_current_streak (days : gset Z) (k : Z) : Prop :=
  ∃ latest, latest ∈ days ∧ (∀ d, d ∈ days → d ≤ latest) ∧
    1 ≤ k ∧ (∀ j, 0 ≤ j < k → latest - j ∈ days) ∧ latest - k ∉ days.

(** The run of consecutive days that starts at the oldest studied day. *)
Definition is_oldest_run (days : gset Z) (k : Z) : Prop :=
  ∃ oldest, oldest ∈ days ∧ (∀ d, d ∈ days → oldest ≤ d) ∧
    1 ≤ k ∧ (∀ j, 0 ≤ j < k → oldest + j ∈ days) ∧ oldest + k ∉ days.

Definition study_days (data : list row) : gset Z := list_to_set (Date <$> data).

Definition on_days (ds : list Z) : list row := (λ d, mk_row d "Physics" 1) <$> ds.

(** ** Sample histories *)

Definition march_2025 (day : Z) : Z := Calendar.toordinal 2025 3 day.

Definition gap_before_latest : list row :=
  on_days [march_2025 1; march_2025 2; march_2025 4].

(** ** Sample entries *)

Definition mk_entry (date subject duration : pyval) : gmap string pyval :=
  <["Date"%string := date]>
    (<["Subject"%string := subject]>
       (<["Study Duration"%string := duration]> ∅)).

(** The example of the specification: 30 February. *)
Definition entry_30_february : gmap string pyval :=
  mk_entry (VStr "2025-02-30") (VStr "Physics") (VStr "2 hr").

Definition entry_unknown_subject : gmap string pyval :=
  mk_entry (VStr "2025-02-20") (VStr "Math") (VStr "2 hr").

Definition entry_two_hours : gmap string pyval :=
  mk_entry (VStr "2025-02-20") (VStr "Physics") (VStr "2 hr").

(** A duration whose leading token is the float literal [nan]. *)
Definition entry_nan_duration : gmap string pyval :=
  mk_entry (VStr "2025-02-20") (VStr "Physics") (VStr "nan hr").

(** The entry [show_daily_entry] builds for a subject with topics but zero
    hours: its duration is the formatted hours when [hours] is truthy and
    the empty string otherwise. *)
Definition entry_empty_duration : gmap string pyval :=
  mk_entry (VStr "2025-02-20") (VStr "Physics") (VStr EmptyString).

(** A date that is not a string. *)
Definition entry_date_not_str : gmap string pyval :=
  mk_entry (VInt 20250220) (VStr "Physics") (VStr "2 hr").

(** What the specification asks of a candidate: the three keys are there,
    the date parses, the subject is one of the four, and the leading token
    of the duration parses as a float in [0, 24]. *)
Definition date_parses (entry : gmap string pyval) : bool :=
  match entry !! "Date"%string with
  | Some (VStr s) =>
      match PyStr.strptime_ymd s with Ok _ => true | Raise _ => false end
  | _ => false
  end.

Definition subject_in_set (entry : gmap string pyval) : bool :=
  match entry !! "Subject"%string with
  | Some v => DataManager.is_valid_subject v
  | None => false
  end.

Definition float_in_0_24 (f : PyFloat.float) : bool :=
  SFleb (PyFloat.of_Z 0) f && SFleb f (PyFloat.of_Z 24).

Definition duration_in_range (entry : gmap string pyval) : bool :=
  match entry !! "Study Duration"%string with
  | Some (VStr s) =>
      match PyStr.split s with
      | tok :: _ =>
          match PyStr.to_float tok with
          | Ok f => float_in_0_24 f
          | Raise _ => false
          end
      | [] => false
      end
  | _ => false
  end.

Definition spec_validate (entry : gmap string pyval) : bool :=
  forallb (DataManager.has_key entry) DataManager.required_fields
  && date_parses entry && subject_in_set entry && duration_in_range entry.


(** ** A sample account *)

(** A stand-in digest for the sample account: the prefix keeps distinct
    passwords distinct. *)
Definition sample_hash (pw : string) : string := "sha256:" +:+ pw.

Definition sample_account : AuthManager.user :=
  AuthManager.mk_user (sample_hash "correct horse") "asha@example.org"
    1000 None 0 None.

Definition sample_users : gmap string AuthManager.user :=
  {[ "asha"%string := sample_account ]}.


(** ** A sample data directory *)

Definition sample_record : FlatJson.record :=
  [("Date", "2025-02-20"); ("Subject", "Physics");
   ("Study Duration", "2.5 hr")]%string.

Definition sample_log : list FlatJson.record :=
  [sample_record;
   [("Date", "2025-02-21"); ("Subject", "Botany"); ("Study Duration", "1.0 hr");
    ("Remarks", "revise: ch. 3/4")]%string].

(** A directory that already holds a study log of one entry. *)
Definition sample_world : DataManager.world :=
  DataManager.mk_world
    {[ "data/neet_study_data.json"%string := FlatJson.dump [sample_record] ]} [].


(** The oldest and the most recent studied day. *)
Definition is_oldest (days : gset Z) (d : Z) : Prop :=
  d ∈ days ∧ ∀ d', d' ∈ days → d ≤ d'.

Definition is_latest (days : gset Z) (d : Z) : Prop :=
  d ∈ days ∧ ∀ d', d' ∈ days → d' ≤ d.

(** All entries on one day, 1 March 2025. *)
Definition one_day_history : list row :=
  [mk_row (march_2025 1) "Physics" 2; mk_row (march_2025 1) "Botany" 1].

(** Entries on the first and the last of ten days, 1 and 10 March 2025. *)
Definition two_of_ten_days : list row :=
  on_days [march_2025 1; march_2025 10; march_2025 1].


(** A number that is not below zero: a non-negative integer, or a float
    [f] for which [f < 0] is false. *)
Definition not_negative (f : PyFloat.float) : Prop :=
  match f with
  | S754_finite true _ _ | S754_infinity true => False
  | _ => True
  end.

Definition nonneg (n : num) : Prop :=
  match n with
  | NInt z => 0 ≤ z
  | NFloat f => not_negative f
  end.

(** A float whose sign bit is clear, or NaN. *)
Definition sign_clear (f : PyFloat.float) : Prop :=
  match f with
  | S754_zero true | S754_finite true _ _ | S754_infinity true => False
  | _ => True
  end.

Definition float_5 : PyFloat.float := PyFloat.of_Z 5.
Definition float_20 : PyFloat.float := PyFloat.of_Z 20.

Definition target_10 : Neet.weekly_target := Neet.mk_target (NInt 10) (NInt 10).
Definition target_0 : Neet.weekly_target := Neet.mk_target (NInt 0) (NInt 0).





(** The additions in the order of the rows: the sum pandas returns
    whenever every sum of some of the values is a float, as for hours
    entered in quarters. *)
Definition plain_sum (values : list PyFloat.float) : PyFloat.float :=
  foldl PyFloat.add PyFloat.zero values.




(** Entries without any duration. *)
Definition no_hours : hours_frame :=
  [("Physics"%string, PyFloat.zero); ("Botany"%string, PyFloat.zero)].


(** A current value of ordinary size: an integer below [2^64], or a finite
    float of magnitude below [2^64]. *)
Definition bounded (n : num) : Prop :=
  match n with
  | NInt z => z < 2 ^ 64
  | NFloat (S754_zero _) => True
  | NFloat (S754_finite _ m e) => Z.pos (digits2_pos m) + e ≤ 64
  | NFloat _ => False
  end.



(** ** The statistics of the analyzer ([study_analyzer.py])

    A row of the frame after [_preprocess_data]: besides the date, the
    subject and the hours of a [row], the questions and the motivation are
    integers and the performance is a float, kept as an exact rational like
    the hours. *)

Record log_row : Type := mk_log_row {
  base : row;
  Questions_Attempted : Z;
  Performance : Q;
  Motivation : Z;
}.

(** [Series.sum()] of an integer and of a float column, [Series.mean()] of
    a non-empty column and [Series.nunique()]. *)
Definition sum_int (l : list Z) : Z := foldr Z.add 0 l.
Definition sum_float (l : list Q) : Q := foldr Qplus 0%Q l.
Definition mean (l : list Q) : Q :=
  (sum_float l / inject_Z (Z.of_nat (length l)))%Q.
Definition nunique {A} `{EqDecision A} (l : list A) : Z :=
  Z.of_nat (length (unique l)).

(** [date.weekday()] of a day number: Monday is 0 and Sunday is 6. *)
Definition weekday (ordinal : Z) : Z := (ordinal + 6) mod 7.

(** The raw ['Study Duration'] of an entry as a number: the conversion of
    [_preprocess_data], study_analyzer.py lines 16-18,
    [float(x.split()[0]) if isinstance(x, str) else 0]. *)
Definition study_duration (x : pyval) : res num :=
  match x with
  | VStr s =>
      tok ← DataManager.first (PyStr.split s);
      f ← PyStr.to_float tok;
      mret (NFloat f)
  | _ => mret (NInt 0)
  end.

(** The conversion of [calculate_stats], [show_dashboard] and the progress
    page, Neet.py lines 139, 191 and 882,
    [float(x.split()[0]) if isinstance(x, str) and x else 0]. *)
Definition study_hours (x : pyval) : res num :=
  match x with
  | VStr (String c s) =>
      tok ← DataManager.first (PyStr.split (String c s));
      f ← PyStr.to_float tok;
      mret (NFloat f)
  | _ => mret (NInt 0)
  end.

Module Analyzer.

Module Overall.
Record t : Type := mk {
  total_study_hours : Q;
  total_days : Z;
  total_questions : Z;
  avg_motivation : Q;
  avg_performance : Q;
  current_streak : Z;
}.
End Overall.

Module BySubject.
Record t : Type := mk {
  total_hours : Q;
  total_questions : Z;
  avg_performance : Q;
  avg_motivation : Q;
  study_days : Z;
}.
End BySubject.

Module Weekly.
Record t : Type := mk {
  total_hours : Q;
  total_questions : Z;
  days_studied : Z;
  subjects_studied : Z;
  avg_performance : Q;
  avg_motivation : Q;
}.
End Weekly.

Definition dates (data : list log_row) : list Z := Date ∘ base <$> data.
Definition subjects (data : list log_row) : list string := Subject ∘ base <$> data.
Definition durations (data : list log_row) : list Q := Study_Hours ∘ base <$> data.
Definition questions (data : list log_row) : list Z := Questions_Attempted <$> data.
Definition performances (data : list log_row) : list Q := Performance <$> data.
Definition motivations (data : list log_row) : list Q :=
  inject_Z ∘ Motivation <$> data.

(** [calculate_overall_stats], study_analyzer.py lines 35-49; [None] is the
    empty dictionary. *)
Definition calculate_overall_stats (data : list log_row) : option Overall.t :=
  match data with
  | [] => None
  | _ =>
      Some (Overall.mk
              (sum_float (durations data))
              (nunique (dates data))
              (sum_int (questions data))
              (mean (motivations data))
              (mean (performances data))
              (StudyAnalyzer._calculate_streak (base <$> data)))
  end.

(** [self.data[self.data['Subject'] == subject]] *)
Definition rows_of (subject : string) (data : list log_row) : list log_row :=
  filter (λ r, Subject (base r) = subject) data.

(** [get_subject_stats], study_analyzer.py lines 67-86: one item per
    subject, in the order of first appearance. *)
Definition get_subject_stats (data : list log_row) : list (string * BySubject.t) :=
  match data with
  | [] => []
  | _ =>
      (λ subject,
         let subject_data := rows_of subject data in
         (subject,
          BySubject.mk
            (sum_float (durations subject_data))
            (sum_int (questions subject_data))
            (mean (performances subject_data))
            (mean (motivations subject_data))
            (nunique (dates subject_data))))
        <$> unique (subjects data)
  end.

(** The rows of the week of [today], Monday to Sunday:
    [start_of_week = today - timedelta(days=today.weekday())] and
    [end_of_week = start_of_week + timedelta(days=6)], compared as dates. *)
Definition week_data (today : Z) (data : list log_row) : list log_row :=
  let start_of_week := today - weekday today in
  let end_of_week := start_of_week + 6 in
  filter (λ r, start_of_week ≤ Date (base r) ∧ Date (base r) ≤ end_of_week) data.

(** [get_weekly_summary], study_analyzer.py lines 102-128, on the day
    [today] that [datetime.now()] falls on. *)
Definition get_weekly_summary (today : Z) (data : list log_row) : option Weekly.t :=
  match data with
  | [] => None
  | _ =>
      match week_data today data with
      | [] => None
      | week =>
          Some (Weekly.mk
                  (sum_float (durations week))
                  (sum_int (questions week))
                  (nunique (dates week))
                  (nunique (subjects week))
                  (mean (performances week))
                  (mean (motivations week)))
      end
  end.

End Analyzer.

(** ** The week of the progress cards ([Neet.py])

    A [datetime] is a number of microseconds, [day_us] to the day, counted
    so that the day number of a timestamp is its quotient by [day_us]; the
    ['Date'] column holds the midnights of the entry dates. *)

Module NeetProgress.

Definition day_us : Z := 86400 * 1000000.

(** [pd.to_datetime] of an entry date: its midnight. *)
Definition midnight (ordinal : Z) : Z := ordinal * day_us.

(** [now.date().toordinal()] *)
Definition day_of (now : Z) : Z := now / day_us.

(** [week_df], Neet.py lines 873-878: [start_of_week] and [end_of_week]
    keep the time of day of [now], and the rows are compared with them as
    timestamps. *)
Definition week_df (now : Z) (data : list log_row) : list log_row :=
  let start_of_week := now - weekday (day_of now) * day_us in
  let end_of_week := start_of_week + 6 * day_us in
  filter (λ r, start_of_week ≤ midnight (Date (base r))
               ∧ midnight (Date (base r)) ≤ end_of_week) data.

End NeetProgress.

(** A sample log: Monday 3 March 2025 to Monday 10 March 2025. *)
Definition log_of_march : list log_row :=
  [mk_log_row (mk_row (march_2025 3) "Physics" 2) 40 7 8;
   mk_log_row (mk_row (march_2025 4) "Chemistry" (3 # 2)) 25 6 7;
   mk_log_row (mk_row (march_2025 4) "Physics" 1) 10 8 7;
   mk_log_row (mk_row (march_2025 9) "Botany" 2) 30 9 9;
   mk_log_row (mk_row (march_2025 10) "Physics" 3) 50 5 6].

(** ** The date of a new entry ([Neet.py])

    [entry_date.strftime("%Y-%m-%d")], Neet.py line 353, for a year of four
    digits: the year, the month and the day as zero-padded decimals. *)

Definition digit_char (d : Z) : ascii := ascii_of_N (Z.to_N (48 + d)).

Definition two_digits (n : Z) : string :=
  String (digit_char (n / 10)) (String (digit_char (n mod 10)) EmptyString).

Definition four_digits (n : Z) : string :=
  String (digit_char (n / 1000))
    (String (digit_char (n / 100 mod 10))
       (String (digit_char (n / 10 mod 10))
          (String (digit_char (n mod 10)) EmptyString))).

Definition strftime_ymd (y m d : Z) : string :=
  four_digits y +:+ "-" +:+ two_digits m +:+ "-" +:+ two_digits d.

(** ** The study log of the application ([Neet.py])

    The application keeps its own file, written by [json.dump] without
    indentation and read when a session starts. *)

Module NeetStore.

Import DataManager.

Definition data_file : string := "neet_study_data.json".

Definition dump_member (kv : string * string) : string :=
  FlatJson.quote kv.1 +:+ ": " +:+ FlatJson.quote kv.2.

Definition dump_record (r : FlatJson.record) : string :=
  "{" +:+ FlatJson.join ", " (dump_member <$> r) +:+ "}".

(** [json.dump(data, f)]: the default separators, on one line. *)
Definition dump (data : list FlatJson.record) : string :=
  "[" +:+ FlatJson.join ", " (dump_record <$> data) +:+ "]".

(** [save_data], Neet.py lines 120-122: the file is opened for writing and
    the log is dumped; an exception is not handled. *)
Definition save_data (fault : write_fault) (data : list FlatJson.record) : io unit :=
  write_text fault data_file (dump data).

(** The start of a session, Neet.py lines 25-31: the log is what the file
    holds, or empty without a file; a file that does not decode raises. *)
Definition load_session (w : world) : res (list FlatJson.record) :=
  match files w !! data_file with
  | Some text => FlatJson.load text
  | None => Ok []
  end.

(** The save button of [show_daily_entry], Neet.py lines 373-380, with the
    entries of the form: they are appended to the log of the session and
    the log is saved; nothing happens without entries. Returns the log of
    the session. *)
Definition save_study_entry (fault : write_fault)
    (session entries : list FlatJson.record) (w : world)
    : world * list FlatJson.record * res unit :=
  match entries with
  | [] => (w, session, Ok ())
  | _ =>
      let session := session ++ entries in
      let '(w', saved) := save_data fault session w in
      (w', session, saved)
  end.

End NeetStore.

(** A directory with the study log and a file of weekly targets. *)
Definition sample_world_with_targets : DataManager.world :=
  DataManager.mk_world
    (<["data/weekly_targets.json"%string := "{}"%string]>
       (DataManager.files sample_world)) [].

Definition empty_world : DataManager.world := DataManager.mk_world ∅ [].

(** ** The backup of the data directory ([data_manager.py]) *)

Module Backup.

(** [s.endswith(suffix)] *)
Definition endswith (s suffix : string) : bool :=
  let n := String.length s in
  let k := String.length suffix in
  (k <=? n)%nat && String.eqb (substring (n - k) k s) suffix.

(** [os.copy2(source, backup)]: the module [os] has no attribute [copy2]
    (the function of that name is in [shutil]), so the call raises before
    anything is copied. *)
Definition os_copy2 (source backup : string) : res unit := Raise AttributeError.

(** The loop over [os.listdir(self.data_dir)], data_manager.py lines
    104-108. *)
Fixpoint copy_each (data_dir backup_dir timestamp : string)
    (listing : list string) : res unit :=
  match listing with
  | [] => Ok ()
  | filename :: rest =>
      (if endswith filename ".json" then
         let source := DataManager._get_file_path data_dir filename in
         let backup :=
           DataManager.os_path_join backup_dir (filename +:+ "." +:+ timestamp) in
         os_copy2 source backup
       else mret ());;
      copy_each data_dir backup_dir timestamp rest
  end.

(** [backup_data], data_manager.py lines 96-112. [backup_dir_exists] is
    what [os.path.exists(backup_dir)] returns, [makedirs] the outcome of
    [os.makedirs(backup_dir)] when it is called, [listing] that of
    [os.listdir(self.data_dir)] and [timestamp] the formatted time. Returns
    the directories created and the result. *)
Definition backup_data (data_dir timestamp : string) (backup_dir_exists : bool)
    (makedirs : res unit) (listing : res (list string)) : list string * bool :=
  let backup_dir := DataManager.os_path_join data_dir "backups" in
  let attempt : list string * res unit :=
    match (if backup_dir_exists then Ok () else makedirs) with
    | Raise e => ([], Raise e)
    | Ok _ =>
        (if backup_dir_exists then [] else [backup_dir],
         names ← listing;
         copy_each data_dir backup_dir timestamp names)
    end in
  match attempt with
  | (made, Ok _) => (made, true)
  | (made, Raise _) => (made, false)
  end.

End Backup.

(** ** The management of the accounts ([auth_manager.py])

    The other methods of [AuthManager]. Each changes the account map in
    memory and then calls [_save_users]; [saved] is what that call
    returns, true unless the file could not be written. *)

Module Accounts.

Import AuthManager.

Definition set_password (h : string) (u : user) : user :=
  mk_user h (email u) (created_at u) (last_login u) (failed_attempts u)
    (locked_until u).

Definition set_email (mail : string) (u : user) : user :=
  mk_user (password u) mail (created_at u) (last_login u) (failed_attempts u)
    (locked_until u).

(** What [get_user_info] returns: the account without its password. *)
Record user_info : Type := mk_user_info {
  info_email : string;
  info_created_at : Z;
  info_last_login : option Z;
  info_failed_attempts : Z;
  info_locked_until : option Z;
}.

Section Accounts.

Variable _hash_password : string → string.

(** [create_user], auth_manager.py lines 53-70, with the result of
    [_save_users]. *)
Definition create_user (now : Z) (saved : bool) (users : gmap string user)
    (username pw mail : string) : gmap string user * (bool * string) :=
  match users !! username with
  | Some _ => (users, (false, "Username already exists"%string))
  | None =>
      (<[username := mk_user (_hash_password pw) mail now None 0 None]> users,
       if saved then (true, "User created successfully"%string)
       else (false, "Error saving user data"%string))
  end.

(** [change_password], auth_manager.py lines 124-138. *)
Definition change_password (saved : bool) (users : gmap string user)
    (username old_password new_password : string)
    : gmap string user * (bool * string) :=
  match users !! username with
  | None => (users, (false, "User not found"%string))
  | Some u =>
      if negb (String.eqb (password u) (_hash_password old_password)) then
        (users, (false, "Invalid current password"%string))
      else
        (<[username := set_password (_hash_password new_password) u]> users,
         if saved then (true, "Password changed successfully"%string)
         else (false, "Error saving password"%string))
  end.

(** [reset_password], auth_manager.py lines 140-156; [temp_password] is
    what [secrets.token_urlsafe(8)] returns. *)
Definition reset_password (saved : bool) (temp_password : string)
    (users : gmap string user) (username mail : string)
    : gmap string user * (bool * string) :=
  match users !! username with
  | None => (users, (false, "User not found"%string))
  | Some u =>
      if negb (String.eqb (email u) mail) then
        (users, (false, "Invalid email address"%string))
      else
        (<[username := set_password (_hash_password temp_password) u]> users,
         if saved then (true, temp_password)
         else (false, "Error resetting password"%string))
  end.

(** [update_user_profile], auth_manager.py lines 158-168. *)
Definition update_user_profile (saved : bool) (users : gmap string user)
    (username mail : string) : gmap string user * (bool * string) :=
  match users !! username with
  | None => (users, (false, "User not found"%string))
  | Some u =>
      (<[username := set_email mail u]> users,
       if saved then (true, "Profile updated successfully"%string)
       else (false, "Error updating profile"%string))
  end.

(** [delete_user], auth_manager.py lines 170-179. *)
Definition delete_user (saved : bool) (users : gmap string user)
    (username : string) : gmap string user * (bool * string) :=
  match users !! username with
  | None => (users, (false, "User not found"%string))
  | Some _ =>
      (delete username users,
       if saved then (true, "User deleted successfully"%string)
       else (false, "Error deleting user"%string))
  end.

(** [get_user_info], auth_manager.py lines 181-189. *)
Definition get_user_info (users : gmap string user) (username : string)
    : option user_info :=
  match users !! username with
  | None => None
  | Some u =>
      Some (mk_user_info (email u) (created_at u) (last_login u)
              (failed_attempts u) (locked_until u))
  end.

End Accounts.

End Accounts.

(** The sample account after a lockout that ends at time 5000. *)
Definition locked_account : AuthManager.user :=
  AuthManager.set_locked_until (Some 5000)
    (AuthManager.set_failed_attempts 5 sample_account).

Definition locked_users : gmap string AuthManager.user :=
  {[ "asha"%string := locked_account ]}.

(** ** More of Python's strings

    [str.strip()], [str.split(sep)] and [int(str)] on strings of characters
    up to U+00FF. *)

Module PyText.

Fixpoint lstrip (l : list ascii) : list ascii :=
  match l with
  | c :: l' => if PyStr.is_space c then lstrip l' else l
  | [] => []
  end.

(** [s.strip()] *)
Definition strip (s : string) : string :=
  string_of_list_ascii
    (reverse (lstrip (reverse (lstrip (list_ascii_of_string s))))).

Fixpoint split_from (sep : ascii) (cur s : string) : list string :=
  match s with
  | EmptyString => [cur]
  | String c s' =>
      if Ascii.eqb c sep then cur :: split_from sep EmptyString s'
      else split_from sep (cur +:+ String c EmptyString) s'
  end.

(** [s.split(sep)] for a separator of one character: the parts between
    the separators, at least one. *)
Definition split (sep : ascii) (s : string) : list string :=
  split_from sep EmptyString s.

(** [int(s)] in base 10: white space around, an optional sign, and digits
    with single underscores between them. *)
Definition int (s : string) : res Z :=
  let t := strip s in
  let '(neg, body) :=
    match t with
    | String "-" b => (true, b)
    | String "+" b => (false, b)
    | _ => (false, t)
    end in
  match PyStr.digitpart body 0 0 with
  | Some (v, _, EmptyString) => Ok (if neg : bool then - v else v)
  | _ => Raise ValueError
  end.

End PyText.

(** ** The weekly timetable ([Neet.py])

    The grid of [show_target_setting], Neet.py lines 793-816: one row per
    day and one cell per hour from 8 to 22, empty or holding the subject
    of a session. *)

Module Timetable.

(** A session of the daily schedule. *)
Record session : Type := mk_session {
  subject : string;
  start_time : string;
  end_time : string;
  enabled : bool;
}.

(** [hours = list(range(8, 23))] *)
Definition hours : list Z := seqZ 8 15.





Definition days : list string :=
  ["Monday"; "Tuesday"; "Wednesday"; "Thursday"; "Friday"; "Saturday";
   "Sunday"]%string.








End Timetable.

(** ** Scheduled notifications ([notification_manager.py])

    A [datetime] is a number of microseconds as in [NeetProgress]: the day
    number of a timestamp is its quotient by [day_us] and its time of day
    the remainder. *)

Module NotificationManager.

Record notification : Type := mk_notification {
  user_email : string;
  subject : string;
  message : string;
  scheduled_time : Z;
}.

#[global] Instance notification_eq_dec : EqDecision notification.
Proof. solve_decision. Defined.

(** [queue.remove(x)]: the first element equal to [x] is removed;
    [ValueError] without one. *)
Fixpoint list_remove (x : notification) (queue : list notification)
    : res (list notification) :=
  match queue with
  | [] => Raise ValueError
  | y :: rest =>
      if decide (y = x) then Ok rest
      else (rest' ← list_remove x rest; mret (y :: rest'))
  end.

(** The loop of [_process_notification_queue] over the copy
    [self.notification_queue[:]]; [sent] collects the notifications handed
    to [_send_notification], whose result is not looked at. *)
Fixpoint process_each (current_time : Z) (copy queue sent : list notification)
    : res (list notification * list notification) :=
  match copy with
  | [] => Ok (queue, sent)
  | n :: rest =>
      if scheduled_time n <=? current_time then
        queue' ← list_remove n queue;
        process_each current_time rest queue' (sent ++ [n])
      else process_each current_time rest queue sent
  end.

(** [_process_notification_queue], notification_manager.py lines 48-55:
    returns the queue it leaves and the notifications it sent. *)
Definition _process_notification_queue (current_time : Z)
    (queue : list notification) : res (list notification * list notification) :=
  process_each current_time queue queue [].

(** [schedule_notification], lines 57-71. *)
Definition schedule_notification (queue : list notification)
    (user_email subject message : string) (scheduled_time : Z)
    : list notification * bool :=
  (queue ++ [mk_notification user_email subject message scheduled_time], true).


(** [t.replace(hour=hour, minute=minute, second=0, microsecond=0)] *)
Definition replace_time (t hour minute : Z) : res Z :=
  if (0 <=? hour) && (hour <=? 23) && (0 <=? minute) && (minute <=? 59)
  then Ok (NeetProgress.day_of t * NeetProgress.day_us
           + (hour * 3600 + minute * 60) * 1000000)
  else Raise ValueError.

Definition daily_message : string :=
  "Don't forget to log your study session today!".


(** [schedule_weekly_summary], lines 112-127; [formatted] is the outcome
    of [_format_weekly_summary(summary_data)]. *)
Definition schedule_weekly_summary (now : Z) (queue : list notification)
    (user_email : string) (formatted : res string) : list notification * bool :=
  let attempt :=
    let days_until_sunday := (6 - weekday (NeetProgress.day_of now)) mod 7 in
    scheduled_time ←
      replace_time (now + days_until_sunday * NeetProgress.day_us) 20 0;
    message ← formatted;
    mret (schedule_notification queue user_email "Weekly Study Summary"
            message scheduled_time) in
  match attempt with
  | Ok r => r
  | Raise _ => (queue, false)
  end.

End NotificationManager.

(** A queue with a reminder that is due at time 100, twice, and one that is
    due at time 900. *)
Definition sample_queue : list NotificationManager.notification :=
  [NotificationManager.mk_notification "asha@example.org" "Daily Study Reminder"
     NotificationManager.daily_message 100;
   NotificationManager.mk_notification "asha@example.org" "Weekly Study Summary"
     "Weekly Study Summary" 900;
   NotificationManager.mk_notification "asha@example.org" "Daily Study Reminder"
     NotificationManager.daily_message 100].

(** ** The settings ([settings_manager.py])

    The settings are a decoded JSON document. A dictionary is the list of
    its items in insertion order, with one item per key. *)

Module SettingsManager.

#[warnings="-register-all"] Inductive json : Type :=
  | JNull
  | JBool (b : bool)
  | JInt (z : Z)
  | JFloat (f : PyFloat.float)
  | JStr (s : string)
  | JList (items : list json)
  | JDict (members : list (string * json)).

Fixpoint dict_get (d : list (string * json)) (key : string) : option json :=
  match d with
  | [] => None
  | (k, v) :: rest => if String.eqb k key then Some v else dict_get rest key
  end.

(** [d[key] = value]: the value of an existing key is replaced in place, a
    new key goes to the end. *)
Fixpoint dict_set (d : list (string * json)) (key : string) (value : json)
    : list (string * json) :=
  match d with
  | [] => [(key, value)]
  | (k, v) :: rest =>
      if String.eqb k key then (k, value) :: rest
      else (k, v) :: dict_set rest key value
  end.

(** [value[key]] for a string [key]: only a dictionary can be indexed by
    it. *)
Definition getitem (value : json) (key : string) : res json :=
  match value with
  | JDict d =>
      match dict_get d key with
      | Some v => Ok v
      | None => Raise KeyError
      end
  | _ => Raise TypeError
  end.

(** [for key in keys: value = value[key]] *)
Fixpoint get_in (keys : list string) (value : json) : res json :=
  match keys with
  | [] => Ok value
  | key :: rest => v ← getitem value key; get_in rest v
  end.

(** [get_setting], settings_manager.py lines 61-71; [JNull] is [None]. *)
Definition get_setting (settings : json) (key_path : string) : res json :=
  match get_in (PyText.split "." key_path) settings with
  | Ok v => Ok v
  | Raise KeyError | Raise TypeError => Ok JNull
  | Raise e => Raise e
  end.

(** The body of the [try] of [set_setting]: the walk over [keys[:-1]],
    which creates the dictionaries that are missing, and the assignment to
    [keys[-1]]. What is not a dictionary supports neither the test
    [key not in current] followed by an item assignment or access with a
    string, nor the final assignment. *)
Fixpoint set_in (init : list string) (last : string) (value : json)
    (current : json) : res json :=
  match init with
  | [] =>
      match current with
      | JDict d => Ok (JDict (dict_set d last value))
      | _ => Raise TypeError
      end
  | key :: rest =>
      match current with
      | JDict d =>
          let child :=
            match dict_get d key with
            | Some c => c
            | None => JDict []
            end in
          child' ← set_in rest last value child;
          mret (JDict (dict_set d key child'))
      | _ => Raise TypeError
      end
  end.

(** [set_setting], settings_manager.py lines 73-87; [saved] is what
    [save_settings] returns. Returns the settings in memory and the
    result. *)
Definition set_setting (saved : bool) (settings : json) (key_path : string)
    (value : json) : json * bool :=
  let keys := PyText.split "." key_path in
  match set_in (removelast keys) (List.last keys EmptyString) value settings with
  | Ok settings' => (settings', saved)
  | Raise _ => (settings, false)
  end.

(** [isinstance(value, dict)] *)
Definition is_dict (value : json) : bool :=
  match value with
  | JDict _ => true
  | _ => false
  end.

(** The walk of [set_setting] over [keys[:-1]] meets a value that is not a
    dictionary: the keys walked so far, none of them or all of them
    included, lead from the settings to such a value. *)
Definition meets_non_dict (init : list string) (settings : json) : Prop :=
  ∃ walked v,
    walked `prefix_of` init ∧ get_in walked settings = Ok v ∧ is_dict v = false.

(** The settings of a first start, lines 14-38. *)
Definition default_settings : json :=
  JDict
    [("notifications",
      JDict [("enabled", JBool true); ("daily_reminder", JBool true);
             ("weekly_summary", JBool true); ("reminder_time", JStr "20:00")]);
     ("study_goals",
      JDict [("daily_hours", JInt 6); ("weekly_hours", JInt 42);
             ("daily_questions", JInt 50); ("weekly_questions", JInt 350)]);
     ("preferences",
      JDict [("theme", JStr "light"); ("language", JStr "en");
             ("timezone", JStr "UTC"); ("date_format", JStr "%Y-%m-%d")]);
     ("data_management",
      JDict [("auto_backup", JBool true); ("backup_frequency", JStr "daily");
             ("last_backup", JNull)])]%string.

End SettingsManager.

(** ** The performance filter of the study log ([Neet.py])

    The ['Performance'] of an entry is the string the entry form stored. *)

Module StudyLog.

(** [float(x)] for a string: white space around the number is allowed. *)
Definition float (x : string) : res PyFloat.float :=
  PyStr.to_float (PyText.strip x).

(** The fields [Performance] and [Result] of a new entry, Neet.py lines
    351 and 364, for the [performance] of the slider. *)
Definition performance_field (performance : Z) : string :=
  if performance =? 0 then EmptyString else pretty performance.

Definition result_field (performance : Z) : string :=
  if 7 <=? performance then "GOOD" else "BAD".

(** Whether a row stays under the selected performance, Neet.py lines
    546-552; under ["All"] nothing is filtered. *)
Definition keeps (selected_performance x : string) : res bool :=
  if String.eqb selected_performance "All" then Ok true
  else if String.eqb selected_performance "Good (7-10)" then
    if PyStr.is_empty x then Ok false
    else (f ← float x; mret (SFleb (PyFloat.of_Z 7) f))
  else if String.eqb selected_performance "Average (4-6)" then
    if PyStr.is_empty x then Ok false
    else (f ← float x;
          mret (SFleb (PyFloat.of_Z 4) f && SFleb f (PyFloat.of_Z 6)))
  else if String.eqb selected_performance "Poor (1-3)" then
    if PyStr.is_empty x then Ok false
    else (f ← float x; mret (SFleb f (PyFloat.of_Z 3)))
  else Ok true.

End StudyLog.

(** ** The statistics and the progress page on the stored log ([Neet.py])

    The log of the session is the list of records the store holds, every
    value a string. [pd.DataFrame(data)] has a column for every key of some
    record; a record without the key holds NaN there. *)

Module NeetStats.

(** [record[key]] in the dictionary that [json.load] builds: of a key that
    is repeated, the last value. *)
Fixpoint get (r : FlatJson.record) (key : string) : option string :=
  match r with
  | [] => None
  | (k, v) :: rest =>
      match get rest key with
      | Some v' => Some v'
      | None => if String.eqb k key then Some v else None
      end
  end.

Definition present (x : option string) : bool :=
  match x with
  | Some _ => true
  | None => false
  end.

(** [df[name]]: the column, [None] for NaN; a [KeyError] where no record
    has the key. *)
Definition column (name : string) (data : list FlatJson.record)
    : res (list (option string)) :=
  let values := (λ r, get r name) <$> data in
  if existsb present values then Ok values else Raise KeyError.

(** A cell as a Python value: the string, or the float NaN. *)
Definition cell (x : option string) : pyval :=
  match x with
  | Some s => VStr s
  | None => VFloat PyFloat.nan
  end.

(** [int(x) if pd.notna(x) and x != '' else 0], Neet.py line 142. *)
Definition questions_of (x : option string) : res Z :=
  match x with
  | Some s => if PyStr.is_empty s then Ok 0 else PyText.int s
  | None => Ok 0
  end.

(** [float(x) if pd.notna(x) and x != '' else 0], Neet.py line 145. *)
Definition performance_score (x : option string) : res num :=
  match x with
  | Some s =>
      if PyStr.is_empty s then Ok (NInt 0)
      else (f ← StudyLog.float s; mret (NFloat f))
  | None => Ok (NInt 0)
  end.

(** The loop of [calculate_stats], Neet.py lines 156-162, on the days of
    the entries. *)
Definition streak_loop (days : list Z) : Z :=
  let dates := sorted (unique days) in
  count_until_break
    (λ i, nth i dates 0 - nth (i - 1) dates 0 =? 1)
    (range_down (length dates - 1) 0) 1.

(** What [show_progress_analysis] ends in: the notice that there is no
    data, the analysis, or the error message of its [except]. *)
Inductive page : Type :=
  | NoData
  | Shown
  | Failed (e : exn).

(** The dictionary the entry form builds for a subject, Neet.py lines
    352-369, from the strings of its sixteen values. *)
Definition form_entry (date day subject topics goal duration questions doubts
    motivation reflection next_focus performance result test_name test_result
    remarks : string) : FlatJson.record :=
  [("Date", date); ("Day", day); ("Subject", subject);
   ("Topics Covered", topics); ("Goal/Target", goal);
   ("Study Duration", duration); ("Questions Attempted", questions);
   ("Doubts", doubts); ("Motivation", motivation);
   ("Self Reflection", reflection); ("Next Day Focus", next_focus);
   ("Performance", performance); ("Result", result);
   ("Test Name", test_name); ("Test Result", test_result);
   ("Remarks", remarks)]%string.

Section frame.

(** [pd.to_datetime] of the date column with the [.dt.date] of its values:
    the day of every entry, or the exception of a column that is not read
    as days. *)
Variable to_datetime : list (option string) → res (list Z).

(** The tabs of the progress page, Neet.py lines 395-498, on the frame. *)
Variable show_tabs : list FlatJson.record → res unit.

(** The [try] block of [calculate_stats] up to the three sums, Neet.py
    lines 134-145: the days of the entries when every conversion
    returns. *)
Definition converted (data : list FlatJson.record) : res (list Z) :=
  dates ← column "Date" data;
  days ← to_datetime dates;
  durations ← column "Study Duration" data;
  _ ← mapM (λ x, study_hours (cell x)) durations;
  questions ← column "Questions Attempted" data;
  _ ← mapM questions_of questions;
  performances ← column "Performance" data;
  _ ← mapM performance_score performances;
  mret days.

(** The streak of [calculate_stats], Neet.py lines 125-178: 0 without
    entries and 0 from the [except] of the function. *)
Definition calculate_stats_streak (data : list FlatJson.record) : Z :=
  match data with
  | [] => 0
  | _ =>
      match converted data with
      | Ok days => streak_loop days
      | Raise _ => 0
      end
  end.

(** [show_progress_analysis], Neet.py lines 383-500: the three columns it
    reads at lines 391-393 are ['Study Hours'], ['Questions'] and
    ['Performance Score']. *)
Definition show_progress_analysis (data : list FlatJson.record) : page :=
  match data with
  | [] => NoData
  | _ =>
      match
        dates ← column "Date" data;
        _ ← to_datetime dates;
        _ ← column "Study Hours" data;
        _ ← column "Questions" data;
        _ ← column "Performance Score" data;
        show_tabs data
      with
      | Ok _ => Shown
      | Raise e => Failed e
      end
  end.

End frame.

End NeetStats.

(** A reading of the dates the entry form writes, year-month-day. *)
Definition read_ymd (dates : list (option string)) : res (list Z) :=
  mapM (λ x,
          match x with
          | Some s =>
              ymd ← PyStr.strptime_ymd s;
              mret (Calendar.toordinal ymd.1.1 ymd.1.2 ymd.2)
          | None => Raise ValueError
          end) dates.

(** An entry of the form with its date, subject and duration, the other
    values left empty. *)
Definition short_entry (date subject duration : string) : FlatJson.record :=
  NeetStats.form_entry date "" subject "" "" duration "" "" "" "" "" "" "BAD"
    "" "" "".

(** Entries on 1, 2 and 4 March 2025; the same days out of order with a
    second entry on 2 March; and a log with a duration that is no
    number. *)
Definition log_with_gap : list FlatJson.record :=
  [short_entry "2025-03-01" "Physics" "2.0 hr";
   short_entry "2025-03-02" "Botany" "1.5 hr";
   short_entry "2025-03-04" "Physics" "3.0 hr"]%string.



(* ================================================================== *)
(** * Properties *)

(** ** Sorting and deduplication *)

Lemma elem_of_unique {A} `{EqDecision A} (x : A) (l : list A) :
  x ∈ unique l ↔ x ∈ l.
Proof.
  unfold unique. by rewrite elem_of_reverse, elem_of_remove_dups, elem_of_reverse.
Qed.

Lemma NoDup_unique {A} `{EqDecision A} (l : list A) : NoDup (unique l).
Proof. unfold unique. rewrite reverse_Permutation. apply NoDup_remove_dups. Qed.

Lemma elem_of_sorted (x : Z) (l : list Z) : x ∈ sorted l ↔ x ∈ l.
Proof. unfold sorted. by rewrite merge_sort_Permutation. Qed.

Lemma sorted_NoDup_increasing (l : list Z) :
  NoDup l → StronglySorted Z.lt (sorted l).
Proof.
  intros Hnd.
  assert (Hnd' : NoDup (sorted l)) by (unfold sorted; by rewrite merge_sort_Permutation).
  assert (Hs : StronglySorted Z.le (sorted l)) by (apply StronglySorted_merge_sort; apply _).
  induction Hs as [|a tl Hs IH Hall]; [constructor|].
  apply NoDup_cons in Hnd' as [Hnotin Hnd'].
  constructor; [by apply IH|].
  rewrite Forall_forall in Hall |- *. intros x Hx.
  specialize (Hall x Hx). assert (a ≠ x) by (intros ->; done). lia.
Qed.

Lemma StronglySorted_reverse_flip (R : relation Z) (l : list Z) :
  StronglySorted R l → StronglySorted (flip R) (reverse l).
Proof.
  induction 1 as [|a tl Hs IH Hall]; [constructor|].
  rewrite reverse_cons. apply StronglySorted_app_2.
  - intros x y Hx Hy. apply list_elem_of_singleton in Hy as ->.
    rewrite elem_of_reverse in Hx. rewrite Forall_forall in Hall. unfold flip. by apply Hall.
  - exact IH.
  - repeat constructor.
Qed.

(** ** The two index loops as leading runs *)

Lemma count_until_break_shift test idx acc c :
  count_until_break test idx (acc + c) = count_until_break test idx acc + c.
Proof.
  revert acc. induction idx as [|i idx IH]; intros acc; simpl; [done|].
  destruct (test i); [|done].
  replace (acc + c + 1) with (acc + 1 + c) by lia. apply IH.
Qed.

Lemma count_until_break_fmap (f : nat → nat) test idx acc :
  count_until_break test (f <$> idx) acc = count_until_break (test ∘ f) idx acc.
Proof.
  revert acc. induction idx as [|i idx IH]; intros acc; simpl; [done|].
  destruct (test (f i)); [apply IH|done].
Qed.

Lemma count_until_break_ext test1 test2 idx acc :
  Forall (λ i, test1 i = test2 i) idx →
  count_until_break test1 idx acc = count_until_break test2 idx acc.
Proof.
  intros H. revert acc. induction H as [|i idx Hi _ IH]; intros acc; simpl; [done|].
  rewrite Hi. destruct (test2 i); [apply IH|done].
Qed.

Lemma walk_is_lead_run rel (l : list Z) :
  count_until_break (λ i, rel (nth i l 0) (nth (S i) l 0)) (seq 0 (length l - 1)) 1
  = lead_run rel l.
Proof.
  induction l as [|a tl IH]; [done|].
  destruct tl as [|b tl]; [done|].
  replace (length (a :: b :: tl) - 1)%nat with (S (length (b :: tl) - 1))
    by (simpl; lia).
  cbn [seq count_until_break nth lead_run].
  destruct (rel a b); [|done].
  rewrite <- fmap_S_seq, count_until_break_fmap.
  rewrite (count_until_break_shift _ _ 1 1). rewrite Z.add_comm. f_equal.
  exact IH.
Qed.

Lemma range_down_flip (m : nat) :
  range_down m 0 = (λ j, (m - j)%nat) <$> seq 0 m.
Proof.
  unfold range_down. rewrite Nat.sub_0_r.
  induction m as [|m IH]; [done|].
  rewrite seq_S, reverse_app, reverse_singleton. cbn [app Nat.add].
  rewrite IH. cbn [seq fmap list_fmap]. f_equal.
  rewrite <- fmap_S_seq, <- list_fmap_compose. done.
Qed.

Lemma nth_reverse (l : list Z) (j : nat) :
  (j < length l)%nat → nth j (reverse l) 0 = nth (length l - S j) l 0.
Proof. intros Hj. by rewrite !nth_lookup, reverse_lookup. Qed.

Lemma forward_walk (dates : list Z) :
  count_until_break (λ i, nth (i + 1) dates 0 - nth i dates 0 =? 1)
    (range (length dates - 1)) 1
  = lead_run (λ a b, b - a =? 1) dates.
Proof.
  rewrite <- walk_is_lead_run. apply count_until_break_ext, Forall_forall.
  intros i _. by rewrite Nat.add_1_r.
Qed.

Lemma backward_walk (dates : list Z) :
  count_until_break (λ i, nth i dates 0 - nth (i - 1) dates 0 =? 1)
    (range_down (length dates - 1) 0) 1
  = lead_run (λ a b, a - b =? 1) (reverse dates).
Proof.
  rewrite <- walk_is_lead_run, length_reverse, range_down_flip, count_until_break_fmap.
  apply count_until_break_ext, Forall_forall. intros j Hj.
  apply elem_of_seq in Hj. unfold compose.
  rewrite !nth_reverse by lia.
  replace (length dates - 1 - j)%nat with (length dates - S j)%nat by lia.
  replace (length dates - S j - 1)%nat with (length dates - S (S j))%nat by lia.
  done.
Qed.

(** ** What a leading run counts on a strictly monotone list *)

Lemma lead_run_ext rel1 rel2 (l : list Z) :
  (∀ a b, rel1 a b = rel2 a b) → lead_run rel1 l = lead_run rel2 l.
Proof.
  intros H. induction l as [|a [|b tl] IH]; [done..|].
  cbn [lead_run] in *. rewrite H, IH. done.
Qed.

Lemma lead_run_cons rel (a b : Z) (tl : list Z) :
  lead_run rel (a :: b :: tl) = if rel a b then 1 + lead_run rel (b :: tl) else 1.
Proof. reflexivity. Qed.

Lemma lead_run_monotone_spec (s a : Z) (l : list Z) :
  s = 1 ∨ s = -1 →
  StronglySorted (λ x y, s * x < s * y) (a :: l) →
  let k := lead_run (λ x y, y - x =? s) (a :: l) in
  1 ≤ k ∧ (∀ j, 0 ≤ j < k → a + s * j ∈ a :: l) ∧ a + s * k ∉ a :: l.
Proof.
  intros Hs. revert a. induction l as [|b tl IH]; intros a Hsorted.
  - cbn. split; [lia|]. split.
    + intros j Hj. replace (a + s * j) with a by lia. left.
    + rewrite list_elem_of_singleton. lia.
  - apply StronglySorted_cons in Hsorted as [Hall Htl].
    rewrite lead_run_cons. destruct (b - a =? s) eqn:Hstep.
    + apply Z.eqb_eq in Hstep.
      destruct (IH b Htl) as (Hk & Hin & Hout).
      set (k := lead_run _ (b :: tl)) in *.
      split; [lia|]. split.
      * intros j Hj. destruct (decide (j = 0)) as [->|Hj0].
        { replace (a + s * 0) with a by lia. left. }
        apply elem_of_cons. right.
        replace (a + s * j) with (b + s * (j - 1)) by lia. apply Hin. lia.
      * rewrite elem_of_cons. intros [Heq|Hmem]; [lia|].
        apply Hout. by replace (b + s * k) with (a + s * (1 + k)) by lia.
    + apply Z.eqb_neq in Hstep. split; [lia|]. split.
      * intros j Hj. replace (a + s * j) with a by lia. left.
      * rewrite elem_of_cons. intros [Heq|Hmem]; [lia|].
        rewrite Forall_forall in Hall.
        assert (Hb : s * a < s * b) by (apply Hall; left).
        apply elem_of_cons in Hmem as [Hmem|Hmem]; [lia|].
        apply StronglySorted_cons in Htl as [Hall' _].
        rewrite Forall_forall in Hall'. specialize (Hall' _ Hmem). lia.
Qed.

Lemma StronglySorted_weaken (R1 R2 : relation Z) (l : list Z) :
  (∀ x y, R1 x y → R2 x y) → StronglySorted R1 l → StronglySorted R2 l.
Proof.
  intros HR. induction 1 as [|a tl Hs IH Hall]; constructor; [done|].
  eapply Forall_impl; [exact Hall|]. intros y. apply HR.
Qed.

Lemma dates_increasing (data : list row) :
  StronglySorted Z.lt (sorted (unique (Date <$> data))).
Proof. apply sorted_NoDup_increasing, NoDup_unique. Qed.

Lemma elem_of_dates (data : list row) (d : Z) :
  d ∈ sorted (unique (Date <$> data)) ↔ d ∈ study_days data.
Proof.
  unfold study_days. by rewrite elem_of_sorted, elem_of_unique, elem_of_list_to_set.
Qed.

Lemma dates_nonempty (data : list row) :
  data ≠ [] → sorted (unique (Date <$> data)) ≠ [].
Proof.
  destruct data as [|r data]; [done|]. intros _ Hnil.
  assert (Hin : Date r ∈ sorted (unique (Date <$> r :: data))).
  { rewrite elem_of_sorted, elem_of_unique. left. }
  rewrite Hnil in Hin. by apply elem_of_nil in Hin.
Qed.

(** The backward walk of [calculate_stats] returns the current streak. *)
Lemma Neet_streak_is_current (data : list row) :
  data ≠ [] →
  is_current_streak (study_days data) (Neet.calculate_stats_streak data).
Proof.
  intros Hne. unfold Neet.calculate_stats_streak.
  destruct data as [|r0 data0] eqn:Hdata; [done|]. rewrite <- Hdata in *. clear Hdata.
  cbv zeta. rewrite backward_walk.
  pose proof (dates_increasing data) as Hinc.
  pose proof (dates_nonempty data Hne) as Hnil.
  pose proof (elem_of_dates data) as Hmem.
  set (dates := sorted (unique (Date <$> data))) in *.
  assert (Hrev : StronglySorted (λ x y, -1 * x < -1 * y) (reverse dates)).
  { eapply StronglySorted_weaken; [|apply StronglySorted_reverse_flip, Hinc].
    unfold flip. intros x y. lia. }
  destruct (reverse dates) as [|latest rest] eqn:Hr.
  { apply (f_equal reverse) in Hr. rewrite reverse_involutive in Hr. done. }
  assert (Hmem' : ∀ d, d ∈ latest :: rest ↔ d ∈ study_days data).
  { intros d. rewrite <- Hr, elem_of_reverse. apply Hmem. }
  rewrite (lead_run_ext _ (λ x y, y - x =? -1)) by (intros a b; lia).
  destruct (lead_run_monotone_spec (-1) latest rest (or_intror eq_refl) Hrev)
    as (Hk & Hin & Hout).
  exists latest. split; [apply Hmem'; left|]. split.
  { intros d Hd. apply Hmem' in Hd. apply elem_of_cons in Hd as [->|Hd]; [lia|].
    apply StronglySorted_cons in Hrev as [Hall _].
    rewrite Forall_forall in Hall. specialize (Hall _ Hd). lia. }
  split; [done|]. split.
  - intros j Hj. apply Hmem'. replace (latest - j) with (latest + -1 * j) by lia.
    by apply Hin.
  - rewrite <- Hmem'.
    by replace (latest - lead_run (λ x y, y - x =? -1) (latest :: rest))
      with (latest + -1 * lead_run (λ x y, y - x =? -1) (latest :: rest)) by lia.
Qed.

(** The forward walk of [_calculate_streak] returns the run that starts at
    the oldest studied day. *)
Lemma StudyAnalyzer_streak_is_oldest_run (data : list row) :
  data ≠ [] →
  is_oldest_run (study_days data) (StudyAnalyzer._calculate_streak data).
Proof.
  intros Hne. unfold StudyAnalyzer._calculate_streak, StudyAnalyzer.dates_of.
  destruct data as [|r0 data0] eqn:Hdata; [done|]. rewrite <- Hdata in *. clear Hdata.
  cbv zeta. rewrite forward_walk.
  pose proof (dates_increasing data) as Hinc.
  pose proof (dates_nonempty data Hne) as Hnil.
  pose proof (elem_of_dates data) as Hmem.
  set (dates := sorted (unique (Date <$> data))) in *.
  assert (Hasc : StronglySorted (λ x y, 1 * x < 1 * y) dates).
  { eapply StronglySorted_weaken; [|exact Hinc]. intros x y. lia. }
  destruct dates as [|oldest rest]; [done|].
  destruct (lead_run_monotone_spec 1 oldest rest (or_introl eq_refl) Hasc)
    as (Hk & Hin & Hout).
  exists oldest. split; [apply Hmem; left|]. split.
  { intros d Hd. apply Hmem in Hd. apply elem_of_cons in Hd as [->|Hd]; [lia|].
    apply StronglySorted_cons in Hasc as [Hall _].
    rewrite Forall_forall in Hall. specialize (Hall _ Hd). lia. }
  split; [done|]. split.
  - intros j Hj. apply Hmem. replace (oldest + j) with (oldest + 1 * j) by lia.
    by apply Hin.
  - rewrite <- Hmem.
    by replace (oldest + lead_run (λ x y, y - x =? 1) (oldest :: rest))
      with (oldest + 1 * lead_run (λ x y, y - x =? 1) (oldest :: rest)) by lia.
Qed.

Lemma is_current_streak_unique (days : gset Z) (k1 k2 : Z) :
  is_current_streak days k1 → is_current_streak days k2 → k1 = k2.
Proof.
  intros (m1 & Hm1 & Hmax1 & Hk1 & Hin1 & Hout1) (m2 & Hm2 & Hmax2 & Hk2 & Hin2 & Hout2).
  assert (m1 = m2) as -> by (specialize (Hmax1 _ Hm2); specialize (Hmax2 _ Hm1); lia).
  destruct (Z.lt_trichotomy k1 k2) as [Hlt|[Heq|Hgt]]; [|done|].
  - exfalso. apply Hout1, Hin2. lia.
  - exfalso. apply Hout2, Hin1. lia.
Qed.

Lemma is_oldest_run_unique (days : gset Z) (k1 k2 : Z) :
  is_oldest_run days k1 → is_oldest_run days k2 → k1 = k2.
Proof.
  intros (m1 & Hm1 & Hmin1 & Hk1 & Hin1 & Hout1) (m2 & Hm2 & Hmin2 & Hk2 & Hin2 & Hout2).
  assert (m1 = m2) as -> by (specialize (Hmin1 _ Hm2); specialize (Hmin2 _ Hm1); lia).
  destruct (Z.lt_trichotomy k1 k2) as [Hlt|[Heq|Hgt]]; [|done|].
  - exfalso. apply Hout1, Hin2. lia.
  - exfalso. apply Hout2, Hin1. lia.
Qed.

(** ** The streak examples of the specification

    On the four histories the specification lists, the forward and the
    backward walk agree. *)

Lemma streak_of_empty_history :
  StudyAnalyzer._calculate_streak [] = 0 ∧ Neet.calculate_stats_streak [] = 0.
Proof. done. Qed.

Lemma streak_by_days (data : list row) (k : Z) :
  data ≠ [] →
  (is_current_streak (study_days data) k → Neet.calculate_stats_streak data = k)
  ∧ (is_oldest_run (study_days data) k → StudyAnalyzer._calculate_streak data = k).
Proof.
  intros Hne. split; intros Hk.
  - eapply is_current_streak_unique; [by apply Neet_streak_is_current|done].
  - eapply is_oldest_run_unique; [by apply StudyAnalyzer_streak_is_oldest_run|done].
Qed.

Lemma streak_of_single_day (data : list row) (d : Z) :
  study_days data = {[ d ]} →
  StudyAnalyzer._calculate_streak data = 1 ∧ Neet.calculate_stats_streak data = 1.
Proof.
  intros Hdays.
  assert (Hne : data ≠ []) by (intros ->; set_solver).
  destruct (streak_by_days data 1 Hne) as [Hcur Hold]. rewrite Hdays in Hcur, Hold. clear Hdays Hne.
  split.
  - apply Hold. exists d. split; [set_solver|].
    split; [intros d' Hd'; set_unfold in Hd'; lia|]. split; [lia|]. split.
    + intros j Hj. assert (j = 0) as -> by lia. set_unfold; lia.
    + set_unfold. lia.
  - apply Hcur. exists d. split; [set_solver|].
    split; [intros d' Hd'; set_unfold in Hd'; lia|]. split; [lia|]. split.
    + intros j Hj. assert (j = 0) as -> by lia. set_unfold; lia.
    + set_unfold. lia.
Qed.

Lemma streak_of_three_consecutive_days (data : list row) (d : Z) :
  study_days data = {[ d; d - 1; d - 2 ]} →
  StudyAnalyzer._calculate_streak data = 3 ∧ Neet.calculate_stats_streak data = 3.
Proof.
  intros Hdays.
  assert (Hne : data ≠ []) by (intros ->; set_solver).
  destruct (streak_by_days data 3 Hne) as [Hcur Hold]. rewrite Hdays in Hcur, Hold. clear Hdays Hne.
  split.
  - apply Hold. exists (d - 2). split; [set_solver|].
    split; [intros d' Hd'; set_unfold in Hd'; lia|]. split; [lia|]. split.
    + intros j Hj. assert (j = 0 ∨ j = 1 ∨ j = 2) as [-> | [-> | ->]] by lia;
        set_unfold; lia.
    + set_unfold. lia.
  - apply Hcur. exists d. split; [set_solver|].
    split; [intros d' Hd'; set_unfold in Hd'; lia|]. split; [lia|]. split.
    + intros j Hj. assert (j = 0 ∨ j = 1 ∨ j = 2) as [-> | [-> | ->]] by lia;
        set_unfold; lia.
    + set_unfold. lia.
Qed.

Lemma streak_broken_by_gap (data : list row) (d : Z) :
  study_days data = {[ d; d - 2 ]} →
  StudyAnalyzer._calculate_streak data = 1 ∧ Neet.calculate_stats_streak data = 1.
Proof.
  intros Hdays.
  assert (Hne : data ≠ []) by (intros ->; set_solver).
  destruct (streak_by_days data 1 Hne) as [Hcur Hold]. rewrite Hdays in Hcur, Hold. clear Hdays Hne.
  split.
  - apply Hold. exists (d - 2). split; [set_solver|].
    split; [intros d' Hd'; set_unfold in Hd'; lia|]. split; [lia|]. split.
    + intros j Hj. assert (j = 0) as -> by lia. set_unfold; lia.
    + set_unfold. lia.
  - apply Hcur. exists d. split; [set_solver|].
    split; [intros d' Hd'; set_unfold in Hd'; lia|]. split; [lia|]. split.
    + intros j Hj. assert (j = 0) as -> by lia. set_unfold; lia.
    + set_unfold. lia.
Qed.

(** ** A history on which the two walks differ

    Entries on 1, 2 and 4 March 2025: the most recent studied day follows a
    gap, so the current streak is 1, which the backward walk returns; the
    forward walk returns 2, the length of the run that starts on the oldest
    day. *)

(** C1: [_calculate_streak] does not walk back from the most recent day.
    On the history with entries on 1, 2 and 4 March 2025 the current streak
    is 1 and [calculate_stats] returns 1, while [_calculate_streak]
    returns 2, which is not the current streak. *)
Theorem streak_forward_walk_is_not_current :
  Neet.calculate_stats_streak gap_before_latest = 1
  ∧ is_current_streak (study_days gap_before_latest) 1
  ∧ StudyAnalyzer._calculate_streak gap_before_latest = 2
  ∧ ¬ is_current_streak (study_days gap_before_latest) 2.
Proof.
  assert (Hne : gap_before_latest ≠ []) by done.
  assert (Hneet : Neet.calculate_stats_streak gap_before_latest = 1)
    by (vm_compute; reflexivity).
  pose proof (Neet_streak_is_current _ Hne) as Hcur. rewrite Hneet in Hcur.
  split; [done|]. split; [done|]. split; [vm_compute; reflexivity|].
  intros H2. by pose proof (is_current_streak_unique _ _ _ Hcur H2).
Qed.

(** C10: the two streak implementations do not return the same value on
    every history: on entries dated 1, 2 and 4 March 2025 the forward walk
    of [_calculate_streak] gives 2 and the backward walk of
    [calculate_stats] gives 1. *)
Theorem streak_implementations_differ :
  StudyAnalyzer._calculate_streak gap_before_latest
  ≠ Neet.calculate_stats_streak gap_before_latest.
Proof. vm_compute. discriminate. Qed.

(** ** The entry validator *)

Lemma validate_30_february :
  DataManager.validate_study_entry entry_30_february = Ok false.
Proof. vm_compute. reflexivity. Qed.

Lemma validate_unknown_subject :
  DataManager.validate_study_entry entry_unknown_subject = Ok false.
Proof. vm_compute. reflexivity. Qed.

Lemma validate_two_hours :
  DataManager.validate_study_entry entry_two_hours = Ok true.
Proof. vm_compute. reflexivity. Qed.

Lemma validate_date_not_str :
  DataManager.validate_study_entry entry_date_not_str = Raise TypeError.
Proof. vm_compute. reflexivity. Qed.

(** C6: the validator does not return false on every entry whose duration
    token fails to parse as a float in [0, 24]: the leading token [nan] of
    the duration ["nan hr"] parses as the float NaN, which is not in
    [0, 24], and [validate_study_entry] returns true, because both
    [duration < 0] and [duration > 24] are false on NaN. *)
Theorem validate_accepts_nan_duration :
  DataManager.duration_of entry_nan_duration = Ok PyFloat.nan
  ∧ float_in_0_24 PyFloat.nan = false
  ∧ spec_validate entry_nan_duration = false
  ∧ DataManager.validate_study_entry entry_nan_duration = Ok true.
Proof. repeat split; vm_compute; reflexivity. Qed.

(** C7: the validator is not total: on an entry whose ['Study Duration'] is
    the empty string, [split()] yields no token, [[0]] raises [IndexError],
    which the handler for [ValueError] and [AttributeError] does not catch,
    so [validate_study_entry] raises instead of returning a boolean. *)
Theorem validate_raises_on_empty_duration :
  PyStr.split EmptyString = []
  ∧ DataManager.validate_study_entry entry_empty_duration = Raise IndexError.
Proof. split; vm_compute; reflexivity. Qed.

(** *** Where the validator and the specification agree *)

Lemma SFcompare_antisym (x y : spec_float) :
  SFcompare y x = CompOpp <$> SFcompare x y.
Proof.
  destruct x as [[]|[]| |[] mx ex], y as [[]|[]| |[] my ey]; cbn; try reflexivity.
  - rewrite (Z.compare_antisym ex ey).
    destruct (ex ?= ey); cbn; try reflexivity.
    by rewrite (Pos.compare_cont_antisym mx my Eq).
  - rewrite (Z.compare_antisym ex ey).
    destruct (ex ?= ey); cbn; try reflexivity.
    by rewrite (Pos.compare_cont_antisym mx my Eq).
Qed.

(** On a float that is not NaN, the range test of the validator is the
    membership in [0, 24]. *)
Lemma range_test_in_0_24 (f : PyFloat.float) :
  f ≠ PyFloat.nan →
  negb (PyFloat.ltb f (PyFloat.of_Z 0) || PyFloat.ltb (PyFloat.of_Z 24) f)
  = float_in_0_24 f.
Proof.
  intros Hnan. unfold float_in_0_24, PyFloat.ltb, SFltb, SFleb.
  rewrite (SFcompare_antisym f (PyFloat.of_Z 0)).
  rewrite (SFcompare_antisym (PyFloat.of_Z 24) f).
  destruct (SFcompare f (PyFloat.of_Z 0)) as [[]|] eqn:H0;
    destruct (SFcompare (PyFloat.of_Z 24) f) as [[]|] eqn:H24; try reflexivity;
    destruct f; try done; discriminate.
Qed.

Lemma has_key_lookup (entry : gmap string pyval) (field : string) :
  DataManager.has_key entry field
  = match entry !! field with Some _ => true | None => false end.
Proof.
  unfold DataManager.has_key. destruct (entry !! field) eqn:H.
  - apply bool_decide_eq_true_2. by eexists.
  - apply bool_decide_eq_false_2. by intros [? ?].
Qed.

Lemma strptime_ymd_raises (s : string) (e : exn) :
  PyStr.strptime_ymd s = Raise e → e = ValueError.
Proof.
  unfold PyStr.strptime_ymd. intros H.
  repeat (match type of H with
          | context [match ?x with _ => _ end] => destruct x
          end; try discriminate); congruence.
Qed.

Lemma to_float_raises (s : string) (e : exn) :
  PyStr.to_float s = Raise e → e = ValueError.
Proof.
  unfold PyStr.to_float. intros H.
  repeat (match type of H with
          | context [match ?x with _ => _ end] => destruct x
          | context [if ?x then _ else _] => destruct x
          end; try discriminate); congruence.
Qed.

Lemma validate_agrees_with_spec (entry : gmap string pyval) :
  (∀ v, entry !! "Date"%string = Some v → ∃ s, v = VStr s) →
  (∀ s, entry !! "Study Duration"%string = Some (VStr s) → PyStr.split s ≠ []) →
  DataManager.duration_of entry ≠ Ok PyFloat.nan →
  DataManager.validate_study_entry entry = Ok (spec_validate entry).
Proof.
  intros Hdate Htok Hnan.
  unfold DataManager.validate_study_entry, spec_validate, date_parses,
    subject_in_set, duration_in_range, DataManager.duration_of,
    DataManager.getitem in *.
  cbn [forallb DataManager.required_fields]. rewrite !has_key_lookup.
  destruct (entry !! "Date"%string) as [vd|] eqn:Hd; [|reflexivity].
  destruct (entry !! "Subject"%string) as [vs|] eqn:Hs; [|reflexivity].
  destruct (entry !! "Study Duration"%string) as [vu|] eqn:Hu; [|reflexivity].
  destruct (Hdate vd eq_refl) as [ds ->].
  cbn. destruct (PyStr.strptime_ymd ds) as [ymd|e] eqn:Hparse; cbn.
  2:{ by rewrite (strptime_ymd_raises _ _ Hparse). }
  destruct (DataManager.is_valid_subject vs); cbn; [|reflexivity].
  destruct vu as [| | | |us| |]; cbn; try reflexivity.
  specialize (Htok us eq_refl).
  destruct (PyStr.split us) as [|tok rest] eqn:Hsplit; [done|].
  cbn in Hnan. rewrite Hsplit in Hnan. cbn in Hnan |- *.
  destruct (PyStr.to_float tok) as [f|e] eqn:Hf; cbn.
  2:{ by rewrite (to_float_raises _ _ Hf). }
  assert (Hf' : f ≠ PyFloat.nan) by (intros ->; done).
  rewrite <- (range_test_in_0_24 f Hf').
  change (S754_zero false) with (PyFloat.of_Z 0).
  change (binary_round PyFloat.prec PyFloat.emax false 24 0) with (PyFloat.of_Z 24).
  by destruct (PyFloat.ltb f _ || PyFloat.ltb _ f).
Qed.

(** ** Account lockout *)

Section Lockout.

Import AuthManager.

Variable _hash_password : string → string.


Lemma authenticate_locked now users username a pw :
  users !! username = Some a → is_locked a now = true →
  authenticate_user _hash_password now users username pw = (users, (false, msg_locked, None)).
Proof. intros Hu Hl. unfold authenticate_user. by rewrite Hu, Hl. Qed.

Lemma authenticate_wrong_password now users username a pw :
  users !! username = Some a → is_locked a now = false →
  _hash_password pw ≠ password a →
  authenticate_user _hash_password now users username pw =
    if 5 <=? failed_attempts a + 1 then
      (<[username := set_locked_until (Some (now + minutes 30))
                       (set_failed_attempts (failed_attempts a + 1) a)]> users,
       (false, msg_locked_now, None))
    else
      (<[username := set_failed_attempts (failed_attempts a + 1) a]> users,
       (false, msg_invalid, None)).
Proof.
  intros Hu Hl Hpw. unfold authenticate_user. rewrite Hu, Hl.
  assert ((password a =? _hash_password pw)%string = false) as ->
    by (apply String.eqb_neq; congruence).
  reflexivity.
Qed.

Lemma authenticate_failure_counted now users username a pw :
  users !! username = Some a → is_locked a now = false →
  _hash_password pw ≠ password a → failed_attempts a + 1 < 5 →
  authenticate_user _hash_password now users username pw =
    (<[username := set_failed_attempts (failed_attempts a + 1) a]> users,
     (false, msg_invalid, None)).
Proof.
  intros Hu Hl Hpw Hfa. rewrite (authenticate_wrong_password _ _ _ a) by done.
  by apply Z.leb_gt in Hfa as ->.
Qed.

Lemma authenticate_failure_locks now users username a pw :
  users !! username = Some a → is_locked a now = false →
  _hash_password pw ≠ password a → 5 ≤ failed_attempts a + 1 →
  authenticate_user _hash_password now users username pw =
    (<[username := set_locked_until (Some (now + minutes 30))
                     (set_failed_attempts (failed_attempts a + 1) a)]> users,
     (false, msg_locked_now, None)).
Proof.
  intros Hu Hl Hpw Hfa. rewrite (authenticate_wrong_password _ _ _ a) by done.
  by apply Z.leb_le in Hfa as ->.
Qed.

Lemma authenticate_success now users username a pw :
  users !! username = Some a → is_locked a now = false →
  _hash_password pw = password a →
  authenticate_user _hash_password now users username pw =
    (<[username := set_last_login (Some now) (set_failed_attempts 0 a)]> users,
     (true, msg_success, Some (mk_token username (now + days 1)))).
Proof.
  intros Hu Hl Hpw. unfold authenticate_user. rewrite Hu, Hl.
  assert ((password a =? _hash_password pw)%string = true) as ->
    by (apply String.eqb_eq; congruence).
  reflexivity.
Qed.


End Lockout.


(** ** The persistence store *)

Lemma string_app_length (s1 s2 : string) :
  String.length (s1 +:+ s2) = (String.length s1 + String.length s2)%nat.
Proof.
  induction s1 as [|c s1 IH]; [done|].
  change (String c s1 +:+ s2) with (String c (s1 +:+ s2)).
  cbn [String.length Nat.add]. by rewrite IH.
Qed.

Lemma backup_path_ne (file_path : string) :
  DataManager.backup_path_of file_path ≠ file_path.
Proof.
  intros H. apply (f_equal String.length) in H.
  unfold DataManager.backup_path_of in H. rewrite string_app_length in H.
  cbn in H. lia.
Qed.

Lemma is_Some_lookup_bool {A} (m : gmap string A) (k : string) :
  bool_decide (is_Some (m !! k)) = match m !! k with Some _ => true | None => false end.
Proof.
  destruct (m !! k) eqn:H.
  - apply bool_decide_eq_true_2. by eexists.
  - apply bool_decide_eq_false_2. by intros [? ?].
Qed.

Section PersistenceProperties.

Import DataManager.

Context {record : Type}.
Variable json_dump : list record → string.
Variable json_load : string → res (list record).

(** What [save_data] does when the write completes. *)
Lemma save_data_success (w : world) (data_dir filename : string) (data : list record) :
  let file_path := _get_file_path data_dir filename in
  let backup_path := backup_path_of file_path in
  ∃ w',
    save_data json_dump NoFault data_dir filename data w = (w', Ok true)
    ∧ files w' = <[file_path := json_dump data]> (delete backup_path (files w))
    ∧ trace w' =
        trace w
        ++ (if stored w file_path then [OpReplace file_path backup_path] else [])
        ++ [OpWrite file_path]
        ++ (if stored w file_path || stored w backup_path
            then [OpRemove backup_path] else []).
Proof.
  intros file_path backup_path.
  pose proof (backup_path_ne file_path) as Hne. fold backup_path in Hne.
  unfold save_data, save_data_try, mbind, io_bind, mret, io_ret,
    path_exists, os_replace, os_remove, write_text, log, stored.
  fold file_path backup_path. cbn.
  rewrite !is_Some_lookup_bool.
  destruct (files w !! file_path) as [old|] eqn:Hfile; cbn.
  - rewrite Hfile. cbn. rewrite !is_Some_lookup_bool.
    rewrite lookup_insert_ne, lookup_insert_eq by done. cbn.
    rewrite lookup_insert_ne, lookup_insert_eq by done.
    eexists. split; [reflexivity|]. cbn. split.
    + apply map_eq. intros p.
      destruct (decide (p = file_path)) as [->|Hp];
        [by rewrite lookup_delete_ne, !lookup_insert_eq|].
      destruct (decide (p = backup_path)) as [->|Hb].
      * by rewrite lookup_delete_eq, lookup_insert_ne, lookup_delete_eq.
      * by rewrite lookup_delete_ne, !lookup_insert_ne, !lookup_delete_ne by done.
    + by rewrite <- !app_assoc.
  - rewrite !is_Some_lookup_bool. rewrite lookup_insert_ne by done.
    destruct (files w !! backup_path) as [stale|] eqn:Hbackup; cbn.
    + rewrite lookup_insert_ne, Hbackup by done.
      eexists. split; [reflexivity|]. cbn. split.
      * by rewrite delete_insert_ne.
      * by rewrite <- !app_assoc.
    + eexists. split; [reflexivity|]. cbn. split.
      * by rewrite delete_id.
      * done.
Qed.

(** What [save_data] does when the write raises: the [except] block runs,
    and a file that was there before the call is there again, unchanged. *)
Lemma save_data_failure (w : world) (data_dir filename : string)
    (data : list record) (fault : write_fault) :
  let file_path := _get_file_path data_dir filename in
  let backup_path := backup_path_of file_path in
  fault ≠ NoFault →
  ∃ w',
    save_data json_dump fault data_dir filename data w = (w', Ok false)
    ∧ (∀ old, files w !! file_path = Some old →
         files w' = <[file_path := old]> (delete backup_path (files w))
         ∧ trace w' = trace w ++ [OpReplace file_path backup_path;
                                   OpWrite file_path;
                                   OpReplace backup_path file_path]).
Proof.
  intros file_path backup_path Hfault.
  pose proof (backup_path_ne file_path) as Hne. fold backup_path in Hne.
  unfold save_data, save_data_try, save_data_except, mbind, io_bind, mret, io_ret,
    path_exists, os_replace, os_remove, write_text, log, stored.
  fold file_path backup_path. cbn.
  rewrite !is_Some_lookup_bool.
  assert (Hmap : ∀ (m : gmap string string) old junk,
    <[file_path := old]> (delete backup_path (<[file_path := junk]> m))
    = <[file_path := old]> (delete backup_path m)).
  { intros m old junk. apply map_eq. intros p.
    destruct (decide (p = file_path)) as [->|Hp]; [by rewrite !lookup_insert_eq|].
    rewrite !lookup_insert_ne by done.
    destruct (decide (p = backup_path)) as [->|Hb]; [by rewrite !lookup_delete_eq|].
    by rewrite !lookup_delete_ne, lookup_insert_ne by done. }
  assert (Hmap' : ∀ (m : gmap string string) old,
    <[file_path := old]> (delete backup_path (<[backup_path := old]> (delete file_path m)))
    = <[file_path := old]> (delete backup_path m)).
  { intros m old. apply map_eq. intros p.
    destruct (decide (p = file_path)) as [->|Hp]; [by rewrite !lookup_insert_eq|].
    rewrite !lookup_insert_ne by done.
    destruct (decide (p = backup_path)) as [->|Hb]; [by rewrite !lookup_delete_eq|].
    by rewrite !lookup_delete_ne, lookup_insert_ne, lookup_delete_ne by done. }
  destruct (files w !! file_path) as [old|] eqn:Hfile; cbn.
  - rewrite Hfile. cbn.
    destruct fault as [|  |written]; [done| |]; cbn; rewrite !is_Some_lookup_bool.
    + rewrite lookup_insert_eq. cbn. rewrite lookup_insert_eq.
      eexists. split; [reflexivity|]. intros old' [= <-]. cbn. split.
      * apply Hmap'.
      * by rewrite <- !app_assoc.
    + rewrite lookup_insert_ne, lookup_insert_eq by done. cbn.
      rewrite lookup_insert_ne, lookup_insert_eq by done.
      eexists. split; [reflexivity|]. intros old' [= <-]. cbn. split.
      * rewrite Hmap. apply Hmap'.
      * by rewrite <- !app_assoc.
  - destruct fault as [|  |written]; [done| |]; cbn; rewrite !is_Some_lookup_bool.
    + destruct (files w !! backup_path) eqn:Hb; cbn; [rewrite Hb|];
        (eexists; split; [reflexivity|]; intros old' [=]).
    + rewrite lookup_insert_ne by done.
      destruct (files w !! backup_path) eqn:Hb; cbn;
        [rewrite lookup_insert_ne, Hb by done|];
        (eexists; split; [reflexivity|]; intros old' [=]).
Qed.

(** C3: [save_data] renames an existing file to the [.backup] path, writes
    the new content and removes the backup, in this order, and returns true;
    when the write raises it returns false, and a file that was stored
    before the call is restored from the backup: its content, and so the
    collection [load_data] returns, are what they were, and no backup is
    left. *)
Theorem save_data_backup_protocol (w : world) (data_dir filename : string)
    (data : list record) (fault : write_fault) :
  let file_path := _get_file_path data_dir filename in
  let backup_path := backup_path_of file_path in
  ∃ w',
    save_data json_dump fault data_dir filename data w
    = (w', Ok (match fault with NoFault => true | _ => false end))
    ∧ match fault with
      | NoFault =>
          files w' !! file_path = Some (json_dump data)
          ∧ files w' !! backup_path = None
          ∧ trace w' =
              trace w
              ++ (if stored w file_path then [OpReplace file_path backup_path] else [])
              ++ [OpWrite file_path]
              ++ (if stored w file_path || stored w backup_path
                  then [OpRemove backup_path] else [])
      | _ =>
          ∀ old, files w !! file_path = Some old →
            files w' !! file_path = Some old
            ∧ files w' !! backup_path = None
            ∧ load_data json_load data_dir filename w'
              = load_data json_load data_dir filename w
            ∧ trace w' = trace w ++ [OpReplace file_path backup_path;
                                      OpWrite file_path;
                                      OpReplace backup_path file_path]
      end.
Proof.
  intros file_path backup_path.
  pose proof (backup_path_ne file_path) as Hne. fold backup_path in Hne.
  assert (Hcases : fault = NoFault ∨ fault ≠ NoFault)
    by (destruct fault; [by left|by right..]).
  destruct Hcases as [->|Hfault].
  - destruct (save_data_success w data_dir filename data) as (w' & Hrun & Hfiles & Htrace).
    exists w'. split; [exact Hrun|]. fold file_path backup_path in Hfiles, Htrace.
    rewrite Hfiles. split; [apply lookup_insert_eq|]. split; [|exact Htrace].
    rewrite lookup_insert_ne by done. apply lookup_delete_eq.
  - destruct (save_data_failure w data_dir filename data fault Hfault)
      as (w' & Hrun & Hrestore).
    exists w'. fold file_path backup_path in Hrestore.
    assert (Hrun' : save_data json_dump fault data_dir filename data w = (w', Ok false))
      by exact Hrun.
    destruct fault; [done| |]; (split; [exact Hrun'|]);
      intros old Hold; destruct (Hrestore old Hold) as [Hfiles Htrace];
      (assert (Hfile : files w' !! file_path = Some old)
         by (rewrite Hfiles; apply lookup_insert_eq));
      (split; [exact Hfile|]);
      (split; [rewrite Hfiles, lookup_insert_ne by done; apply lookup_delete_eq|]);
      (split; [|exact Htrace]);
      unfold load_data; fold file_path; by rewrite Hfile, Hold.
Qed.

(** C4: for a collection that the JSON codec takes back to itself, a save
    whose write completes returns true, and a load of the same name then
    returns the collection. *)
Theorem save_then_load_round_trip (w : world) (data_dir filename : string)
    (data : list record) :
  json_load (json_dump data) = Ok data →
  ∃ w',
    save_data json_dump NoFault data_dir filename data w = (w', Ok true)
    ∧ load_data json_load data_dir filename w' = data.
Proof.
  intros Hcodec.
  destruct (save_data_success w data_dir filename data) as (w' & Hrun & Hfiles & _).
  exists w'. split; [exact Hrun|].
  unfold load_data. rewrite Hfiles, lookup_insert_eq. by rewrite Hcodec.
Qed.

End PersistenceProperties.

(** A write that fails half-way over the sample directory: the stored log
    is restored. *)
Lemma save_data_backup_protocol_witness :
  ∃ w',
    DataManager.save_data FlatJson.dump (DataManager.FailPartial "[")
      "data" "neet_study_data.json" sample_log sample_world
    = (w', Ok false)
    ∧ DataManager.files w' !! "data/neet_study_data.json"%string
      = Some (FlatJson.dump [sample_record])
    ∧ DataManager.load_data FlatJson.load "data" "neet_study_data.json" w'
      = [sample_record].
Proof.
  destruct (save_data_backup_protocol FlatJson.dump FlatJson.load sample_world
              "data" "neet_study_data.json" sample_log (DataManager.FailPartial "["))
    as (w' & Hrun & Hrestore).
  destruct (Hrestore (FlatJson.dump [sample_record]) eq_refl)
    as (Hfile & _ & Hload & _).
  exists w'. split; [exact Hrun|]. split; [exact Hfile|].
  rewrite Hload. vm_compute. reflexivity.
Defined.

(** The sample log survives a save and a load. *)
Lemma save_then_load_round_trip_witness :
  FlatJson.load (FlatJson.dump sample_log) = Ok sample_log
  ∧ ∃ w',
      DataManager.save_data FlatJson.dump DataManager.NoFault
        "data" "neet_study_data.json" sample_log sample_world
      = (w', Ok true)
      ∧ DataManager.load_data FlatJson.load "data" "neet_study_data.json" w'
        = sample_log.
Proof.
  split; [vm_compute; reflexivity|].
  apply (save_then_load_round_trip FlatJson.dump FlatJson.load sample_world
           "data" "neet_study_data.json" sample_log).
  vm_compute. reflexivity.
Defined.

(** ** The JSON text of a study log

    [FlatJson.load] reads back what [FlatJson.dump] writes, for every list
    of records with string values. *)

Section FlatJsonProperties.
Import FlatJson.

Lemma hex_value_digit (k : Z) : 0 ≤ k < 16 → hex_value (hex_digit k) = Some k.
Proof.
  intros Hk.
  assert (k = 0 ∨ k = 1 ∨ k = 2 ∨ k = 3 ∨ k = 4 ∨ k = 5 ∨ k = 6 ∨ k = 7 ∨ k = 8
          ∨ k = 9 ∨ k = 10 ∨ k = 11 ∨ k = 12 ∨ k = 13 ∨ k = 14 ∨ k = 15) as Hcases by lia.
  repeat (destruct Hcases as [->|Hcases]; [reflexivity|]). by subst.
Qed.

Lemma code_range (c : ascii) : 0 ≤ PyStr.code c < 256.
Proof.
  unfold PyStr.code. pose proof (N_ascii_bounded c). lia.
Qed.

Lemma ascii_of_code (c : ascii) : ascii_of_N (Z.to_N (PyStr.code c)) = c.
Proof. unfold PyStr.code. by rewrite N2Z.id, ascii_N_embedding. Qed.

Lemma code_inj (c : ascii) (n : Z) : PyStr.code c = n → c = ascii_of_N (Z.to_N n).
Proof. intros <-. by rewrite ascii_of_code. Qed.

Lemma string_body_plain (c : ascii) (s : string) :
  PyStr.code c ≠ 34 → PyStr.code c ≠ 92 → 32 ≤ PyStr.code c →
  string_body (String c s)
  = match string_body s with
    | Some (body, rest) => Some (String c body, rest)
    | None => None
    end.
Proof.
  intros H34 H92 H32. cbn [string_body].
  apply Z.eqb_neq in H34 as ->. apply Z.eqb_neq in H92 as ->.
  by apply Z.ltb_ge in H32 as ->.
Qed.

Lemma string_body_simple (e : ascii) (s : string) :
  string_body (String backslash (String e s))
  = (let simple (d : ascii) :=
       match string_body s with
       | Some (body, rest) => Some (String d body, rest)
       | None => None
       end in
     let m := PyStr.code e in
     if m =? 34 then simple e
     else if m =? 92 then simple e
     else if m =? 47 then simple e
     else if m =? 110 then simple (ascii_of_N 10)
     else if m =? 114 then simple (ascii_of_N 13)
     else if m =? 116 then simple (ascii_of_N 9)
     else if m =? 98 then simple (ascii_of_N 8)
     else if m =? 102 then simple (ascii_of_N 12)
     else if m =? 117 then
       match s with
       | String h1 (String h2 (String h3 (String h4 s4))) =>
           match hex_value h1, hex_value h2, hex_value h3, hex_value h4 with
           | Some 0, Some 0, Some a, Some b =>
               match string_body s4 with
               | Some (body, rest) =>
                   Some (String (ascii_of_N (Z.to_N (16 * a + b))) body, rest)
               | None => None
               end
           | _, _, _, _ => None
           end
       | _ => None
       end
     else None).
Proof. reflexivity. Qed.

Lemma string_body_escape (s rest : string) :
  string_body (escape s +:+ String dquote rest) = Some (s, rest).
Proof.
  induction s as [|c s IH]; [reflexivity|].
  cbn [escape]. unfold escape_char.
  pose proof (code_range c) as Hc.
  destruct (Z.eqb_spec (PyStr.code c) 34) as [Heq|H34].
  { apply code_inj in Heq. subst c. 
    change (string_body (String backslash (String dquote (escape s +:+ String dquote rest))) = Some (String (ascii_of_N (Z.to_N 34)) s, rest)).
    rewrite string_body_simple; cbv zeta; rewrite IH; reflexivity. }
  destruct (Z.eqb_spec (PyStr.code c) 92) as [Heq|H92].
  { apply code_inj in Heq. subst c. 
    change (string_body (String backslash (String backslash (escape s +:+ String dquote rest))) = Some (String (ascii_of_N (Z.to_N 92)) s, rest)).
    rewrite string_body_simple; cbv zeta; rewrite IH; reflexivity. }
  destruct (Z.eqb_spec (PyStr.code c) 10) as [Heq|H10].
  { apply code_inj in Heq. subst c. 
    change (string_body (String backslash (String "n" (escape s +:+ String dquote rest))) = Some (String (ascii_of_N (Z.to_N 10)) s, rest)).
    rewrite string_body_simple; cbv zeta; rewrite IH; reflexivity. }
  destruct (Z.eqb_spec (PyStr.code c) 13) as [Heq|H13].
  { apply code_inj in Heq. subst c. 
    change (string_body (String backslash (String "r" (escape s +:+ String dquote rest))) = Some (String (ascii_of_N (Z.to_N 13)) s, rest)).
    rewrite string_body_simple; cbv zeta; rewrite IH; reflexivity. }
  destruct (Z.eqb_spec (PyStr.code c) 9) as [Heq|H9].
  { apply code_inj in Heq. subst c. 
    change (string_body (String backslash (String "t" (escape s +:+ String dquote rest))) = Some (String (ascii_of_N (Z.to_N 9)) s, rest)).
    rewrite string_body_simple; cbv zeta; rewrite IH; reflexivity. }
  destruct (Z.eqb_spec (PyStr.code c) 8) as [Heq|H8].
  { apply code_inj in Heq. subst c. 
    change (string_body (String backslash (String "b" (escape s +:+ String dquote rest))) = Some (String (ascii_of_N (Z.to_N 8)) s, rest)).
    rewrite string_body_simple; cbv zeta; rewrite IH; reflexivity. }
  destruct (Z.eqb_spec (PyStr.code c) 12) as [Heq|H12].
  { apply code_inj in Heq. subst c. 
    change (string_body (String backslash (String "f" (escape s +:+ String dquote rest))) = Some (String (ascii_of_N (Z.to_N 12)) s, rest)).
    rewrite string_body_simple; cbv zeta; rewrite IH; reflexivity. }
  destruct ((32 <=? PyStr.code c) && (PyStr.code c <=? 126)) eqn:Hprint.
  { apply andb_true_iff in Hprint as [H32 H126]. apply Z.leb_le in H32.
    change (string_body (String c (escape s +:+ String dquote rest)) = Some (String c s, rest)).
    rewrite string_body_plain, IH by done. reflexivity. }
  change (string_body (String backslash (String "u" (String "0" (String "0"
            (String (hex_digit (PyStr.code c `div` 16))
               (String (hex_digit (PyStr.code c `mod` 16))
                  (escape s +:+ String dquote rest)))))))
          = Some (String c s, rest)).
  rewrite string_body_simple. cbv zeta.
  change (PyStr.code "u") with 117. cbn [Z.eqb Pos.eqb].
  change (hex_value "0") with (Some 0).
  rewrite !hex_value_digit, IH.
  2:{ apply Z.mod_pos_bound. lia. }
  2:{ split; [apply Z.div_pos; lia|apply Z.div_lt_upper_bound; lia]. }
  rewrite <- Z.div_mod by lia. by rewrite ascii_of_code.
Qed.

Lemma string_app_assoc (a b c : string) : (a +:+ b) +:+ c = a +:+ (b +:+ c).
Proof.
  induction a as [|x a IH]; [done|].
  change (String x ((a +:+ b) +:+ c) = String x (a +:+ b +:+ c)). by rewrite IH.
Qed.

Lemma string_literal_quote (s rest : string) :
  string_literal (quote s +:+ rest) = Some (s, rest).
Proof.
  unfold quote.
  change (string_literal (String dquote ((escape s +:+ String dquote EmptyString) +:+ rest))
          = Some (s, rest)).
  rewrite string_app_assoc.
  change (string_body (escape s +:+ String dquote rest) = Some (s, rest)).
  apply string_body_escape.
Qed.

Lemma members_member (fuel : nat) (kv : string * string) (rest : string) :
  members (S fuel) (newline +:+ dump_member kv +:+ rest)
  = match skip_ws rest with
    | String "," s4 =>
        match members fuel s4 with
        | Some (r, rest') => Some (kv :: r, rest')
        | None => None
        end
    | String "}" s4 => Some ([kv], s4)
    | _ => None
    end.
Proof.
  destruct kv as [k v]. unfold dump_member. cbn [fst snd members].
  rewrite !string_app_assoc.
  change (skip_ws (newline +:+ indent2 +:+ quote k +:+ ": " +:+ quote v +:+ rest))
    with (quote k +:+ ": " +:+ quote v +:+ rest).
  rewrite string_literal_quote.
  change (skip_ws (": " +:+ quote v +:+ rest)) with (String ":" (" " +:+ quote v +:+ rest)).
  cbv iota beta.
  change (skip_ws (" " +:+ quote v +:+ rest)) with (quote v +:+ rest).
  by rewrite string_literal_quote.
Qed.

Lemma members_dump (r : record) (kv : string * string) (fuel : nat) (rest : string) :
  (length r < fuel)%nat →
  members fuel (newline +:+ join ("," +:+ newline) (dump_member <$> kv :: r)
                +:+ newline +:+ indent1 +:+ "}" +:+ rest)
  = Some (kv :: r, rest).
Proof.
  revert kv fuel. induction r as [|kv' r IH]; intros kv fuel Hfuel.
  - destruct fuel as [|fuel]; [cbn in Hfuel; lia|].
    cbn [fmap list_fmap join]. by rewrite members_member.
  - destruct fuel as [|fuel]; [cbn in Hfuel; lia|].
    change (join ("," +:+ newline) (dump_member <$> kv :: kv' :: r))
      with (dump_member kv +:+ ("," +:+ newline)
            +:+ join ("," +:+ newline) (dump_member <$> kv' :: r)).
    rewrite !string_app_assoc. rewrite members_member.
    change (skip_ws ("," +:+ ?s)) with (String "," s).
    cbv iota beta.
    change ("," +:+ newline +:+ ?s) with (String "," (newline +:+ s)).
    rewrite IH by (cbn in Hfuel |- *; lia). done.
Qed.

Lemma join_length (sep : string) (parts : list string) :
  (∀ p, p ∈ parts → (0 < String.length p)%nat) →
  (length parts ≤ String.length (join sep parts))%nat.
Proof.
  induction parts as [|p parts IH]; intros Hparts; [done|].
  assert (0 < String.length p)%nat as Hp by (apply Hparts; left).
  destruct parts as [|q parts]; [cbn [join length]; lia|].
  change (join sep (p :: q :: parts)) with (p +:+ sep +:+ join sep (q :: parts)).
  rewrite !string_app_length. cbn [length] in IH |- *.
  assert (S (length parts) ≤ String.length (join sep (q :: parts)))%nat
    by (apply IH; intros p' Hp'; apply Hparts; by right).
  lia.
Qed.

Lemma dump_member_length (kv : string * string) : (0 < String.length (dump_member kv))%nat.
Proof. unfold dump_member. rewrite string_app_length. cbn. lia. Qed.

Lemma dump_record_length (r : record) : (0 < String.length (dump_record r))%nat.
Proof. destruct r; unfold dump_record; rewrite string_app_length; cbn; lia. Qed.

Lemma object_dump (r : record) (rest : string) :
  object (newline +:+ dump_record r +:+ rest) = Some (r, rest).
Proof.
  destruct r as [|kv r]; [reflexivity|].
  unfold dump_record, object. rewrite !string_app_assoc.
  change (skip_ws (newline +:+ indent1 +:+ "{" +:+ ?s)) with (String "{" s).
  cbv iota beta.
  set (body := join ("," +:+ newline) (dump_member <$> kv :: r)).
  change (skip_ws (newline +:+ body +:+ ?s)) with (skip_ws (body +:+ s)).
  assert (Hbody : ∃ s, body = indent2 +:+ String dquote s).
  { unfold body. cbn [fmap list_fmap]. destruct (dump_member <$> r).
    - eexists. reflexivity.
    - unfold join; fold join. unfold dump_member at 1. rewrite !string_app_assoc.
      eexists. reflexivity. }
  destruct Hbody as [s Hs]. rewrite Hs at 1.
  rewrite !string_app_assoc.
  change (skip_ws (indent2 +:+ String dquote ?t)) with (String dquote t).
  cbv iota beta. unfold body.
  apply members_dump.
  rewrite !string_app_length.
  pose proof (join_length ("," +:+ newline) (dump_member <$> kv :: r)) as Hlen.
  rewrite length_fmap in Hlen. cbn [length] in Hlen.
  assert (S (length r) ≤ String.length (join ("," +:+ newline) (dump_member <$> kv :: r)))%nat.
  { apply Hlen. intros p (kv' & -> & _)%list_elem_of_fmap. apply dump_member_length. }
  lia.
Qed.

Lemma elements_dump (data : list record) (r : record) (fuel : nat) (rest : string) :
  (length data < fuel)%nat →
  elements fuel (newline +:+ join ("," +:+ newline) (dump_record <$> r :: data)
                 +:+ newline +:+ "]" +:+ rest)
  = Some (r :: data, rest).
Proof.
  revert r fuel. induction data as [|r' data IH]; intros r fuel Hfuel.
  - destruct fuel as [|fuel]; [cbn in Hfuel; lia|].
    cbn [fmap list_fmap join elements]. by rewrite object_dump.
  - destruct fuel as [|fuel]; [cbn in Hfuel; lia|].
    change (join ("," +:+ newline) (dump_record <$> r :: r' :: data))
      with (dump_record r +:+ ("," +:+ newline)
            +:+ join ("," +:+ newline) (dump_record <$> r' :: data)).
    rewrite !string_app_assoc. cbn [elements]. rewrite object_dump.
    change (skip_ws ("," +:+ ?s)) with (String "," s).
    cbv iota beta.
    change ("," +:+ newline +:+ ?s) with (String "," (newline +:+ s)).
    rewrite IH by (cbn in Hfuel |- *; lia). done.
Qed.

(** [json.load] reads back what [json.dump] wrote, for every list of flat
    string records. *)
Lemma load_dump (data : list record) : load (dump data) = Ok data.
Proof.
  destruct data as [|r data]; [reflexivity|].
  unfold dump, load.
  change (skip_ws ("[" +:+ ?s)) with (String "[" s).
  cbv iota beta zeta.
  set (body := join ("," +:+ newline) (dump_record <$> r :: data)).
  assert (Hbody : ∃ s, body = indent1 +:+ String "{" s).
  { unfold body. cbn [fmap list_fmap]. destruct (dump_record <$> data).
    - destruct r; eexists; unfold join, dump_record; reflexivity.
    - unfold join; fold join. destruct r; unfold dump_record;
        rewrite ?string_app_assoc; eexists; reflexivity. }
  destruct Hbody as [s Hs].
  change (skip_ws (newline +:+ body +:+ ?t)) with (skip_ws (body +:+ t)).
  rewrite Hs at 1. rewrite !string_app_assoc.
  change (skip_ws (indent1 +:+ String "{" ?t)) with (String "{" t).
  cbv iota beta.
  replace (newline +:+ body +:+ newline +:+ "]")
    with (newline +:+ body +:+ newline +:+ "]" +:+ EmptyString) by reflexivity.
  unfold body. rewrite elements_dump; [reflexivity|].
  rewrite !string_app_length.
  pose proof (join_length ("," +:+ newline) (dump_record <$> r :: data)) as Hlen.
  rewrite length_fmap in Hlen. cbn [length] in Hlen.
  assert (S (length data)
          ≤ String.length (join ("," +:+ newline) (dump_record <$> r :: data)))%nat.
  { apply Hlen. intros p (r' & -> & _)%list_elem_of_fmap. apply dump_record_length. }
  lia.
Qed.
End FlatJsonProperties.

(** Every list of flat string records survives a save and a load. *)
Lemma save_then_load_flat_records (w : DataManager.world)
    (data_dir filename : string) (data : list FlatJson.record) :
  ∃ w',
    DataManager.save_data FlatJson.dump DataManager.NoFault data_dir filename data w
    = (w', Ok true)
    ∧ DataManager.load_data FlatJson.load data_dir filename w' = data.
Proof.
  destruct (save_data_success FlatJson.dump w data_dir filename data)
    as (w' & Hrun & Hfiles & _).
  exists w'. split; [exact Hrun|].
  unfold DataManager.load_data. rewrite Hfiles, lookup_insert_eq.
  by rewrite load_dump.
Qed.

(** ** Consistency score *)

Lemma div_eucl_div_mod (a b : Z) : Z.div_eucl a b = (a / b, a mod b).
Proof. unfold Z.div, Z.modulo. by destruct (Z.div_eucl a b). Qed.

Lemma SFdiv_core_self (p : positive) :
  SFdiv_core_binary PyFloat.prec PyFloat.emax (Zpos p) 0 (Zpos p) 0
  = (2 ^ 53, -53, loc_Exact).
Proof.
  unfold SFdiv_core_binary. cbn [Zdigits2].
  replace (Z.pos (digits2_pos p) + 0 - (Z.pos (digits2_pos p) + 0)) with 0 by lia.
  change (Z.min (fexp PyFloat.prec PyFloat.emax 0) (0 - 0)) with (-53).
  change (0 - 0 - -53) with 53. cbv beta iota zeta.
  rewrite div_eucl_div_mod, Z.shiftl_mul_pow2 by lia.
  rewrite (Z.mul_comm (Z.pos p)), Z.div_mul, Z.mod_mul by lia.
  unfold new_location, new_location_even, new_location_odd.
  by destruct (Z.even (Z.pos p)).
Qed.

(** A positive integer divided by itself is the float 1.0. *)
Lemma int_truediv_self (n : Z) :
  0 < n → PyFloat.int_truediv n n = Ok (PyFloat.of_Z 1).
Proof.
  intros Hn. destruct n as [|p|p]; [lia| |lia].
  unfold PyFloat.int_truediv, PyFloat.truediv, SFdiv.
  change (Z.to_pos (Z.abs (Z.pos p))) with p.
  change (Z.pos p <? 0) with false.
  rewrite SFdiv_core_self. vm_compute. reflexivity.
Qed.

Lemma foldr_max_spec (k : list Z) (s : Z) :
  s ≤ foldr Z.max s k
  ∧ (foldr Z.max s k = s ∨ foldr Z.max s k ∈ k)
  ∧ ∀ x, x ∈ k → x ≤ foldr Z.max s k.
Proof.
  induction k as [|c k IHk]; cbn.
  - split; [lia|]. split; [by left|]. intros x Hx. by apply elem_of_nil in Hx.
  - destruct IHk as (H1 & H2 & H3). split; [lia|]. split.
    + destruct (Z.max_spec c (foldr Z.max s k)) as [[_ ->]|[_ ->]].
      * destruct H2 as [->|H2]; [by left|]. right. by right.
      * right. left.
    + intros x Hx. apply elem_of_cons in Hx as [->|Hx]; [lia|].
      specialize (H3 x Hx). lia.
Qed.

Lemma series_max_spec (l : list Z) :
  l ≠ [] → series_max l ∈ l ∧ ∀ x, x ∈ l → x ≤ series_max l.
Proof.
  unfold series_max. destruct l as [|a l]; [done|]. intros _. cbn [hd].
  destruct (foldr_max_spec (a :: l) a) as (H1 & H2 & H3). split; [|exact H3].
  destruct H2 as [->|H2]; [left|exact H2].
Qed.

Lemma foldr_min_max (k : list Z) (s : Z) :
  foldr Z.min s k = - foldr Z.max (- s) (Z.opp <$> k).
Proof. induction k as [|c k IH]; cbn; [lia|]. rewrite IH. lia. Qed.

Lemma series_min_spec (l : list Z) :
  l ≠ [] → series_min l ∈ l ∧ ∀ x, x ∈ l → series_min l ≤ x.
Proof.
  intros Hl.
  assert (Hopp : series_min l = - series_max (Z.opp <$> l)).
  { unfold series_min, series_max. rewrite foldr_min_max. by destruct l. }
  destruct (series_max_spec (Z.opp <$> l)) as [Hin Hle].
  { by destruct l. }
  rewrite Hopp. split.
  - apply list_elem_of_fmap in Hin as (y & Hy & Hyin). rewrite Hy.
    by replace (- - y) with y by lia.
  - intros x Hx. assert (- x ≤ series_max (Z.opp <$> l)); [|lia].
    apply Hle. apply list_elem_of_fmap. by exists x.
Qed.

Lemma nunique_is_size (data : list row) :
  length (unique (Date <$> data)) = size (study_days data).
Proof.
  unfold study_days.
  rewrite <- (size_list_to_set (C := gset Z) (unique (Date <$> data)))
    by apply NoDup_unique.
  f_equal. apply set_eq. intros d.
  by rewrite !elem_of_list_to_set, elem_of_unique.
Qed.

Lemma days_span (days : gset Z) (oldest latest : Z) :
  is_oldest days oldest → is_latest days latest →
  (∀ d, oldest ≤ d ≤ latest → d ∈ days) →
  Z.of_nat (size days) = latest - oldest + 1.
Proof.
  intros [Hin Hmin] [_ Hmax] Hfull.
  assert (Hle : oldest ≤ latest) by by apply Hmax.
  assert (Heq : days = list_to_set (seqZ oldest (latest - oldest + 1))).
  { apply set_eq. intros d. rewrite elem_of_list_to_set, elem_of_seqZ. split.
    - intros Hd. specialize (Hmin d Hd). specialize (Hmax d Hd). lia.
    - intros Hd. apply Hfull. lia. }
  rewrite Heq, size_list_to_set by apply NoDup_seqZ.
  rewrite length_seqZ. lia.
Qed.

Lemma oldest_latest_of (data : list row) :
  data ≠ [] →
  is_oldest (study_days data) (series_min (Date <$> data))
  ∧ is_latest (study_days data) (series_max (Date <$> data)).
Proof.
  intros Hne.
  assert (Hne' : Date <$> data ≠ []) by by destruct data.
  destruct (series_min_spec _ Hne') as [Hmin_in Hmin].
  destruct (series_max_spec _ Hne') as [Hmax_in Hmax].
  unfold is_oldest, is_latest, study_days.
  setoid_rewrite elem_of_list_to_set. done.
Qed.

(** The score of a non-empty history, in terms of its set of studied
    days. *)
Lemma consistency_score_formula (data : list row) :
  data ≠ [] →
  ∃ oldest latest,
    is_oldest (study_days data) oldest ∧ is_latest (study_days data) latest
    ∧ StudyAnalyzer._calculate_consistency_score data =
        (q ← PyFloat.int_truediv (Z.of_nat (size (study_days data)))
               (latest - oldest + 1);
         mret (NFloat (PyFloat.round (PyNum.mul_int q 100) 2))).
Proof.
  intros Hne. destruct (oldest_latest_of data Hne) as [Hold Hlat].
  exists (series_min (Date <$> data)), (series_max (Date <$> data)).
  split; [exact Hold|]. split; [exact Hlat|].
  unfold StudyAnalyzer._calculate_consistency_score.
  destruct data as [|r0 data0] eqn:Hdata; [done|]. rewrite <- Hdata in *.
  cbv zeta. rewrite nunique_is_size.
  assert (Hspan : 0 < series_max (Date <$> data) - series_min (Date <$> data) + 1).
  { destruct Hold as [Hin _]. destruct Hlat as [_ Hmax]. specialize (Hmax _ Hin). lia. }
  apply Z.ltb_lt in Hspan as ->.
  cbn [PyNum.truediv]. by destruct (PyFloat.int_truediv _ _).
Qed.

(** *** The quotient of the score never overflows *)

Lemma digits2_pos_lower (p : positive) :
  2 ^ (Z.pos (digits2_pos p) - 1) ≤ Z.pos p.
Proof.
  induction p as [p IH|p IH|]; cbn [digits2_pos]; [| |done].
  - rewrite Pos2Z.inj_succ.
    replace (Z.succ (Z.pos (digits2_pos p)) - 1) with (Z.succ (Z.pos (digits2_pos p) - 1)) by lia.
    rewrite Z.pow_succ_r by lia. lia.
  - rewrite Pos2Z.inj_succ.
    replace (Z.succ (Z.pos (digits2_pos p)) - 1) with (Z.succ (Z.pos (digits2_pos p) - 1)) by lia.
    rewrite Z.pow_succ_r by lia. lia.
Qed.

Lemma Zdigits2_le (m k : Z) : 0 ≤ m → 0 ≤ k → m < 2 ^ k → Zdigits2 m ≤ k.
Proof.
  intros Hm Hk Hlt. destruct m as [|p|p]; cbn [Zdigits2]; [lia| |lia].
  pose proof (digits2_pos_lower p) as Hlow.
  destruct (Z_le_gt_dec (Z.pos (digits2_pos p)) k) as [|Hgt]; [done|].
  assert (2 ^ k ≤ 2 ^ (Z.pos (digits2_pos p) - 1)) by (apply Z.pow_le_mono_r; lia).
  lia.
Qed.

Lemma shr_1_m (mrs : shr_record) :
  0 ≤ shr_m mrs → shr_m (shr_1 mrs) = shr_m mrs / 2.
Proof.
  destruct mrs as [m r s]. cbn [shr_m]. intros Hm.
  destruct m as [|p|p]; [reflexivity| |lia].
  destruct p as [p|p|]; cbn [shr_1 shr_m].
  - apply Z.div_unique with 1; lia.
  - apply Z.div_unique with 0; lia.
  - reflexivity.
Qed.

Lemma iter_shr_1_m (p : positive) (mrs : shr_record) :
  0 ≤ shr_m mrs →
  shr_m (SpecFloat.iter_pos shr_1 p mrs) = shr_m mrs / 2 ^ Z.pos p.
Proof.
  revert mrs. induction p as [p IH|p IH|]; intros mrs Hm; cbn [SpecFloat.iter_pos].
  - assert (H1 : 0 ≤ shr_m (shr_1 mrs))
      by (rewrite shr_1_m by done; apply Z.div_pos; lia).
    assert (H2 : 0 ≤ shr_m (SpecFloat.iter_pos shr_1 p (shr_1 mrs)))
      by (rewrite IH by done; apply Z.div_pos; lia).
    rewrite IH, IH, shr_1_m by done.
    rewrite !Z.div_div by lia. f_equal.
    rewrite Pos2Z.inj_xI, Z.pow_add_r, Z.pow_mul_r, Z.pow_1_r by lia.
    replace (2 ^ 2) with 4 by done.
    assert (Hsq : (2 ^ Z.pos p) * (2 ^ Z.pos p) = 4 ^ Z.pos p).
    { rewrite <- Z.pow_mul_l. done. }
    lia.
  - assert (H2 : 0 ≤ shr_m (SpecFloat.iter_pos shr_1 p mrs))
      by (rewrite IH by done; apply Z.div_pos; lia).
    rewrite IH, IH by done.
    rewrite !Z.div_div by lia. f_equal.
    rewrite <- Z.pow_add_r by lia. f_equal. lia.
  - rewrite shr_1_m by done. done.
Qed.

Lemma shr_record_of_loc_m (m : Z) (l : location) :
  shr_m (shr_record_of_loc m l) = m.
Proof. by destruct l as [|[]]. Qed.

Lemma round_nearest_even_bounds (m : Z) (l : location) :
  m ≤ round_nearest_even m l ≤ m + 1.
Proof.
  unfold round_nearest_even. destruct l as [|[]]; try lia.
  destruct (Z.even m); lia.
Qed.

Lemma fexp_binary64 (x : Z) :
  fexp PyFloat.prec PyFloat.emax x = Z.max (x - 53) (-1074).
Proof. reflexivity. Qed.

(** One [shr_fexp] step keeps a mantissa below [2^(k - e)] and does not
    raise the exponent above [max e (k - 53)]. *)
Lemma shr_fexp_bound (m e k : Z) (l : location) :
  0 ≤ m → m < 2 ^ (k - e) → 0 ≤ k - e → -1021 ≤ k →
  let '(mrs, e') := shr_fexp PyFloat.prec PyFloat.emax m e l in
  0 ≤ shr_m mrs ∧ shr_m mrs < 2 ^ (k - e') ∧ 0 ≤ k - e'
  ∧ e' ≤ Z.max e (k - 53).
Proof.
  intros Hm Hlt Hke Hk. unfold shr_fexp, shr.
  assert (Hd : Zdigits2 m + e ≤ k).
  { assert (Zdigits2 m ≤ k - e) by by apply Zdigits2_le. lia. }
  rewrite fexp_binary64.
  destruct (Z.max (Zdigits2 m + e - 53) (-1074) - e) as [|n|n] eqn:Hn;
    rewrite ?shr_record_of_loc_m; try (repeat split; lia).
  rewrite iter_shr_1_m, shr_record_of_loc_m by (rewrite shr_record_of_loc_m; lia).
  split; [apply Z.div_pos; lia|].
  assert (Hexp : k - e = (k - (e + Z.pos n)) + Z.pos n) by lia.
  split; [|split; lia].
  apply Z.div_lt_upper_bound; [lia|].
  rewrite <- Z.pow_add_r by lia.
  by replace (Z.pos n + (k - (e + Z.pos n))) with (k - e) by lia.
Qed.

Lemma binary_round_aux_finite (s : bool) (m e : Z) (l : location) :
  0 ≤ m → m < 2 ^ (1 - e) → e ≤ 0 →
  match binary_round_aux PyFloat.prec PyFloat.emax s m e l with
  | S754_infinity _ => False
  | _ => True
  end.
Proof.
  intros Hm Hlt He. unfold binary_round_aux.
  pose proof (shr_fexp_bound m e 1 l Hm Hlt ltac:(lia) ltac:(lia)) as H1.
  destruct (shr_fexp PyFloat.prec PyFloat.emax m e l) as [mrs' e'].
  destruct H1 as (Hm' & Hlt' & Hke' & He').
  pose proof (round_nearest_even_bounds (shr_m mrs') (loc_of_shr_record mrs')) as Hr.
  set (m1 := round_nearest_even (shr_m mrs') (loc_of_shr_record mrs')) in *.
  assert (Hlt1 : m1 < 2 ^ (2 - e')).
  { replace (2 - e') with (Z.succ (1 - e')) by lia. rewrite Z.pow_succ_r by lia. lia. }
  pose proof (shr_fexp_bound m1 e' 2 loc_Exact ltac:(lia) Hlt1 ltac:(lia) ltac:(lia)) as H2.
  destruct (shr_fexp PyFloat.prec PyFloat.emax m1 e' loc_Exact) as [mrs'' e''].
  destruct H2 as (_ & _ & _ & He'').
  destruct (shr_m mrs''); [done| |done].
  assert (Hle : (e'' <=? PyFloat.emax - PyFloat.prec) = true).
  { apply Z.leb_le. unfold PyFloat.emax, PyFloat.prec. lia. }
  by rewrite Hle.
Qed.

(** The quotient of two positive integers, the first not above the second,
    is a float: the division does not raise. *)
Lemma int_truediv_le (a b : Z) :
  0 < a → a ≤ b → ∃ q, PyFloat.int_truediv a b = Ok q.
Proof.
  intros Ha Hab. destruct a as [|a|a]; [lia| |lia]. destruct b as [|b|b]; [lia| |lia].
  unfold PyFloat.int_truediv, PyFloat.truediv, SFdiv.
  change (Z.to_pos (Z.abs (Z.pos a))) with a.
  change (Z.to_pos (Z.abs (Z.pos b))) with b.
  destruct (SFdiv_core_binary PyFloat.prec PyFloat.emax (Z.pos a) 0 (Z.pos b) 0)
    as [[mz ez] lz] eqn:Hcore.
  assert (Hbound : 0 ≤ mz ∧ mz < 2 ^ (1 - ez) ∧ ez ≤ 0).
  { unfold SFdiv_core_binary in Hcore. rewrite div_eucl_div_mod in Hcore.
    injection Hcore as <- <- _.
    set (E := Z.min _ (0 - 0)).
    assert (HE : E ≤ 0) by (unfold E; lia).
    assert (Hquot : ∀ k, 0 ≤ k → 0 ≤ Z.pos a * 2 ^ k / Z.pos b
                           ∧ Z.pos a * 2 ^ k / Z.pos b < 2 ^ (1 + k)).
    { intros k Hk. split; [apply Z.div_pos; lia|].
      apply Z.div_lt_upper_bound; [lia|].
      rewrite Z.pow_add_r, Z.pow_1_r by lia.
      assert (0 < 2 ^ k) by (apply Z.pow_pos_nonneg; lia). nia. }
    destruct (0 - 0 - E) as [|n|n] eqn:Hs; [|split; [|split; [|lia]]..].
    - assert (E = 0) as -> by lia.
      destruct (Hquot 0 ltac:(lia)) as [H1 H2].
      rewrite Z.pow_0_r, Z.mul_1_r in H1, H2. done.
    - rewrite Z.shiftl_mul_pow2 by lia. apply Hquot. lia.
    - rewrite Z.shiftl_mul_pow2 by lia.
      replace (1 - E) with (1 + Z.pos n) by lia. apply Hquot. lia.
    - lia.
    - lia. }
  destruct Hbound as (H1 & H2 & H3).
  pose proof (binary_round_aux_finite (xorb (Z.pos a <? 0) (Z.pos b <? 0)) mz ez lz H1 H2 H3) as Hfin.
  destruct (binary_round_aux _ _ _ _ _ _); [by eexists|done|by eexists..].
Qed.

Lemma days_within_span (days : gset Z) (oldest latest : Z) :
  is_oldest days oldest → is_latest days latest →
  0 < Z.of_nat (size days) ≤ latest - oldest + 1.
Proof.
  intros [Hin Hmin] [_ Hmax].
  assert (Hle : oldest ≤ latest) by by apply Hmax.
  split.
  - assert (size days ≠ 0%nat); [|lia].
    intros Hz. apply size_empty_inv in Hz. set_solver.
  - assert (Hsub : days ⊆ list_to_set (seqZ oldest (latest - oldest + 1))).
    { intros d Hd. rewrite elem_of_list_to_set, elem_of_seqZ.
      specialize (Hmin d Hd). specialize (Hmax d Hd). lia. }
    apply subseteq_size in Hsub.
    rewrite size_list_to_set, length_seqZ in Hsub by apply NoDup_seqZ. lia.
Qed.

(** With a single studied day the observed range is that one day. *)
Lemma single_day_span (days : gset Z) (oldest latest : Z) :
  is_oldest days oldest → is_latest days latest →
  size days = 1%nat → latest - oldest + 1 = 1.
Proof.
  intros [Hin Hmin] [Hin' Hmax] Hsize.
  apply size_1_elem_of in Hsize as [d Hd].
  assert (days = {[ d ]}) as -> by by apply leibniz_equiv.
  set_unfold. lia.
Qed.

(** C2 (amended): the consistency score of the empty history is 0.0; for a
    non-empty history it is the number of distinct studied days divided by
    the number of days from the oldest to the most recent studied day,
    times 100, rounded to 2 decimals, and the computation does not raise;
    entries on every day of that range give 100.0. The range is the
    observed one, so entries on the first and the last of ten days give
    20.0. *)
Theorem consistency_score_spec :
  StudyAnalyzer._calculate_consistency_score [] = Ok (NFloat PyFloat.zero)
  ∧ (∀ data, data ≠ [] →
       ∃ oldest latest q,
         is_oldest (study_days data) oldest ∧ is_latest (study_days data) latest
         ∧ PyFloat.int_truediv (Z.of_nat (size (study_days data)))
             (latest - oldest + 1) = Ok q
         ∧ StudyAnalyzer._calculate_consistency_score data
           = Ok (NFloat (PyFloat.round (PyNum.mul_int q 100) 2))
         ∧ ((∀ d, oldest ≤ d ≤ latest → d ∈ study_days data) →
            StudyAnalyzer._calculate_consistency_score data
            = Ok (NFloat (PyFloat.of_Z 100))))
  ∧ StudyAnalyzer._calculate_consistency_score two_of_ten_days
    = Ok (NFloat (PyFloat.of_Z 20)).
Proof.
  split; [reflexivity|]. split; [|vm_compute; reflexivity].
  intros data Hne.
  destruct (consistency_score_formula data Hne) as (oldest & latest & Hold & Hlat & Hscore).
  destruct (days_within_span _ _ _ Hold Hlat) as [Hpos Hle].
  destruct (int_truediv_le _ _ Hpos Hle) as [q Hq].
  exists oldest, latest, q. split; [exact Hold|]. split; [exact Hlat|].
  split; [exact Hq|]. rewrite Hscore.
  split; [by rewrite Hq|].
  intros Hfull. rewrite (days_span _ _ _ Hold Hlat Hfull).
  rewrite int_truediv_self by lia. vm_compute. reflexivity.
Qed.

(** The score of the history with all entries on 1 March 2025. *)
Lemma consistency_score_spec_witness :
  one_day_history ≠ []
  ∧ StudyAnalyzer._calculate_consistency_score one_day_history
    = Ok (NFloat (PyFloat.of_Z 100)).
Proof.
  split; [discriminate|].
  destruct consistency_score_spec as (_ & Hspec & _).
  destruct (Hspec one_day_history ltac:(discriminate))
    as (oldest & latest & q & Hold & Hlat & _ & _ & Hfull).
  apply Hfull. intros d Hd.
  pose proof (single_day_span _ _ _ Hold Hlat ltac:(vm_compute; reflexivity)) as Hspan.
  destruct Hold as [Hin _]. by replace d with oldest by lia.
Defined.

(** C2, as stated, fails: entries on one day only, whatever ten-day window
    one has in mind, score 100.0 and not 10.0, because the range is taken
    from the entries themselves. *)
Lemma consistency_of_one_day_is_not_10 :
  StudyAnalyzer._calculate_consistency_score one_day_history
  = Ok (NFloat (PyFloat.of_Z 100))
  ∧ StudyAnalyzer._calculate_consistency_score one_day_history
    ≠ Ok (NFloat (PyFloat.of_Z 10)).
Proof. split; [vm_compute; reflexivity|vm_compute; discriminate]. Qed.

(** ** Target progress *)

Lemma binary_round_aux_sign (s : bool) (m e : Z) (l : location) :
  match binary_round_aux PyFloat.prec PyFloat.emax s m e l with
  | S754_zero s' | S754_infinity s' | S754_finite s' _ _ => s' = s
  | S754_nan => True
  end.
Proof.
  unfold binary_round_aux.
  destruct (shr_fexp PyFloat.prec PyFloat.emax m e l) as [mrs' e'].
  destruct (shr_fexp PyFloat.prec PyFloat.emax _ e' loc_Exact) as [mrs'' e''].
  destruct (shr_m mrs''); [done| |done].
  by destruct (e'' <=? PyFloat.emax - PyFloat.prec).
Qed.

Lemma binary_round_aux_not_negative (m e : Z) (l : location) :
  not_negative (binary_round_aux PyFloat.prec PyFloat.emax false m e l).
Proof.
  pose proof (binary_round_aux_sign false m e l) as H.
  destruct (binary_round_aux _ _ _ _ _ _) as [| s | | s ? ?]; cbn; try done;
    by subst s.
Qed.

Lemma truediv_not_negative (x y : PyFloat.float) :
  not_negative x → sign_clear y → not_negative (PyFloat.truediv x y).
Proof.
  intros Hx Hy. unfold PyFloat.truediv, SFdiv.
  destruct x as [sx|[]| |[] mx ex]; try done;
    destruct y as [sy|[]| |[] my ey]; try done; cbn [xorb].
  destruct (SFdiv_core_binary _ _ _ _ _ _) as [[mz ez] lz].
  apply binary_round_aux_not_negative.
Qed.

Lemma mul_not_negative (x y : PyFloat.float) :
  not_negative x → sign_clear y → not_negative (PyFloat.mul x y).
Proof.
  intros Hx Hy. unfold PyFloat.mul, SFmul.
  destruct x as [sx|[]| |[] mx ex]; try done;
    destruct y as [sy|[]| |[] my ey]; try done; cbn [xorb].
  apply binary_round_aux_not_negative.
Qed.

Lemma to_int_not_negative (f : PyFloat.float) (r : Z) :
  not_negative f → PyFloat.to_int f = Ok r → 0 ≤ r.
Proof.
  destruct f as [s|s| |[] m e]; cbn; try done.
  - intros _ [= <-]. lia.
  - intros _ [= <-]. destruct e as [|p|p].
    + rewrite Z.shiftl_0_r. lia.
    + apply Z.shiftl_nonneg. lia.
    + apply Z.shiftr_nonneg. lia.
Qed.

Lemma of_Z_nonneg (z : Z) : 0 ≤ z → not_negative (PyFloat.of_Z z).
Proof.
  intros Hz. destruct z as [|p|p]; [done| |lia].
  unfold PyFloat.of_Z, binary_normalize, binary_round.
  destruct (shl_align _ _ _) as [mz ez]. apply binary_round_aux_not_negative.
Qed.

Lemma to_float_nonneg (n : num) : nonneg n → not_negative (PyNum.to_float n).
Proof. destruct n; cbn; [apply of_Z_nonneg|done]. Qed.

Lemma of_Z_sign_clear (z : Z) : 0 < z → sign_clear (PyFloat.of_Z z).
Proof.
  intros Hz. destruct z as [|p|p]; [lia| |lia].
  unfold PyFloat.of_Z, binary_normalize, binary_round.
  destruct (shl_align _ _ _) as [mz ez].
  pose proof (binary_round_aux_sign false (Z.pos mz) ez loc_Exact) as H.
  destruct (binary_round_aux _ _ _ _ _ _) as [s|s| |s ? ?]; cbn; try done;
    by subst s.
Qed.

Lemma gt0_sign_clear (target : num) :
  PyNum.gt0 target = true → sign_clear (PyNum.to_float target).
Proof.
  destruct target as [z|f]; cbn.
  - intros Hz. apply of_Z_sign_clear. by apply Z.ltb_lt.
  - by destruct f as [[]|[]| |[] m e].
Qed.

Lemma int_truediv_not_negative (a b : Z) (q : PyFloat.float) :
  0 ≤ a → 0 < b → PyFloat.int_truediv a b = Ok q → not_negative q.
Proof.
  intros Ha Hb. destruct b as [|b|b]; [lia| |lia].
  destruct a as [|a|a]; [|    |lia]; unfold PyFloat.int_truediv.
  - by intros [= <-].
  - change (Z.pos a <? 0) with false. change (Z.pos b <? 0) with false.
    pose proof (truediv_not_negative
                  (S754_finite false (Z.to_pos (Z.abs (Z.pos a))) 0)
                  (S754_finite false (Z.to_pos (Z.abs (Z.pos b))) 0) I I) as H.
    destruct (PyFloat.truediv _ _); [|done|..]; by intros [= <-].
Qed.

(** The value [current / target * 100] is not below zero when [current] is
    not and [target > 0]. *)
Lemma ratio_not_negative (current target : num) (q : PyFloat.float) :
  nonneg current → PyNum.gt0 target = true →
  PyNum.truediv current target = Ok q →
  not_negative (PyNum.mul_int q 100).
Proof.
  intros Hc Ht Hq.
  assert (Hq' : not_negative q).
  { destruct current as [a|x], target as [b|y]; cbn [PyNum.truediv] in Hq.
    - apply (int_truediv_not_negative a b); [done|by apply Z.ltb_lt|done].
    - destruct (PyNum.to_float (NFloat y)) eqn:Hy; [done|..];
        injection Hq as <-; rewrite <- Hy;
        (apply truediv_not_negative; [by apply of_Z_nonneg|by apply gt0_sign_clear]).
    - destruct (PyNum.to_float (NInt b)) eqn:Hy; [done|..];
        injection Hq as <-; rewrite <- Hy;
        (apply truediv_not_negative; [done|by apply gt0_sign_clear]).
    - destruct (PyNum.to_float (NFloat y)) eqn:Hy; [done|..];
        injection Hq as <-; rewrite <- Hy;
        (apply truediv_not_negative; [done|by apply gt0_sign_clear]). }
  unfold PyNum.mul_int. by apply mul_not_negative.
Qed.

Lemma percent_zero_target (current target : num) :
  PyNum.gt0 target = false → Neet.percent current target = Ok 0.
Proof. intros Ht. unfold Neet.percent. by rewrite Ht. Qed.

Lemma percent_bounds (current target : num) (r : Z) :
  nonneg current → Neet.percent current target = Ok r → 0 ≤ r ≤ 100.
Proof.
  intros Hc. unfold Neet.percent.
  destruct (PyNum.gt0 target) eqn:Ht; cbn.
  - destruct (PyNum.truediv current target) as [q|e] eqn:Hq; cbn; [|done].
    destruct (PyFloat.to_int (PyNum.mul_int q 100)) as [n|e] eqn:Hn; cbn; [|done].
    intros [= <-].
    pose proof (to_int_not_negative _ _ (ratio_not_negative _ _ _ Hc Ht Hq) Hn).
    lia.
  - intros [= <-]. lia.
Qed.

Lemma progress_examples :
  Neet.progress (NInt 5) (NInt 5) target_10 = Ok (50, 50)
  ∧ Neet.progress (NInt 20) (NInt 20) target_10 = Ok (100, 100)
  ∧ Neet.progress (NInt 5) (NInt 5) target_0 = Ok (0, 0)
  ∧ Neet.progress (NFloat float_5) (NInt 5) target_10 = Ok (50, 50)
  ∧ Neet.progress (NFloat float_20) (NInt 20) target_10 = Ok (100, 100)
  ∧ Neet.progress (NFloat float_5) (NInt 5) target_0 = Ok (0, 0).
Proof. repeat split; vm_compute; reflexivity. Qed.

(** ** Subject balance *)

(** ** Rounding to binary64 *)







Lemma pow2_lt (a b : Z) : 0 ≤ a < b → 2 ^ a < 2 ^ b.
Proof. intros H. apply Z.pow_lt_mono_r; lia. Qed.






















(** *** The value of the rounded result *)

Section RoundingQ.

Local Open Scope Q_scope.











End RoundingQ.


Section Operations.

Local Open Scope Q_scope.






Lemma shiftl_nonneg (m s : Z) :
  (0 ≤ s)%Z →
  match s with
  | Zpos _ => Z.shiftl m s
  | Z0 => m
  | Zneg _ => 0%Z
  end = (m * 2 ^ s)%Z.
Proof.
  intros Hs. destruct s as [|p|p]; [|by rewrite Z.shiftl_mul_pow2|lia].
  change (2 ^ 0)%Z with 1%Z. lia.
Qed.


End Operations.


Section Integers.

Local Open Scope Q_scope.





End Integers.


Section Shares.

Local Open Scope Q_scope.









End Shares.


Section SubjectBalance.

Local Open Scope Q_scope.





End SubjectBalance.



(** A log whose durations are all zero has no percentages. *)
Lemma balance_of_no_hours :
  StudyAnalyzer._analyze_subject_balance plain_sum plain_sum no_hours = []
  ∧ Neet.subject_percentages plain_sum plain_sum no_hours = None.
Proof. split; vm_compute; reflexivity. Qed.

(** *** The percentage is computed on bounded inputs *)

Lemma digits2_pos_upper (p : positive) : Z.pos p < 2 ^ Z.pos (digits2_pos p).
Proof.
  induction p as [p IH|p IH|]; cbn [digits2_pos]; [| |done];
    rewrite Pos2Z.inj_succ, Z.pow_succ_r by lia; lia.
Qed.

(** One [shr_fexp] step keeps a mantissa of at least 1 above 0 and does not
    lower the exponent, as long as the exponent is in the binary64 range. *)
Lemma shr_fexp_pos (m e : Z) (l : location) :
  1 ≤ m → -1074 ≤ e →
  let '(mrs, e') := shr_fexp PyFloat.prec PyFloat.emax m e l in
  1 ≤ shr_m mrs ∧ e ≤ e'.
Proof.
  intros Hm He. unfold shr_fexp, shr. rewrite fexp_binary64.
  destruct (Z.max (Zdigits2 m + e - 53) (-1074) - e) as [|n|n] eqn:Hn;
    rewrite ?shr_record_of_loc_m; try (split; lia).
  rewrite iter_shr_1_m, shr_record_of_loc_m by (rewrite shr_record_of_loc_m; lia).
  split; [|lia].
  destruct m as [|p|p]; [lia| |lia]. cbn [Zdigits2] in Hn.
  pose proof (digits2_pos_lower p) as Hlow.
  assert (Hpow : 2 ^ Z.pos n ≤ 2 ^ (Z.pos (digits2_pos p) - 1))
    by (apply Z.pow_le_mono_r; lia).
  apply Z.div_le_lower_bound; lia.
Qed.

(** Rounding a mantissa below [2^(k - e)] gives zero or a finite float whose
    mantissa is below [2^(k + 1 - e')]. *)
Lemma binary_round_aux_bounded (s : bool) (m e k : Z) (l : location) :
  0 ≤ m → m < 2 ^ (k - e) → 0 ≤ k - e → -1021 ≤ k ≤ 1022 → e ≤ 970 →
  match binary_round_aux PyFloat.prec PyFloat.emax s m e l with
  | S754_zero _ => True
  | S754_finite _ m' e' => Z.pos m' < 2 ^ (k + 1 - e') ∧ 0 ≤ k + 1 - e'
  | _ => False
  end.
Proof.
  intros Hm Hlt Hke Hk He. unfold binary_round_aux.
  pose proof (shr_fexp_bound m e k l Hm Hlt Hke ltac:(lia)) as H1.
  destruct (shr_fexp PyFloat.prec PyFloat.emax m e l) as [mrs' e'].
  destruct H1 as (Hm' & Hlt' & Hke' & He').
  pose proof (round_nearest_even_bounds (shr_m mrs') (loc_of_shr_record mrs')) as Hr.
  set (m1 := round_nearest_even (shr_m mrs') (loc_of_shr_record mrs')) in *.
  assert (Hlt1 : m1 < 2 ^ (k + 1 - e')).
  { replace (k + 1 - e') with (Z.succ (k - e')) by lia. rewrite Z.pow_succ_r by lia. lia. }
  pose proof (shr_fexp_bound m1 e' (k + 1) loc_Exact ltac:(lia) Hlt1 ltac:(lia) ltac:(lia)) as H2.
  destruct (shr_fexp PyFloat.prec PyFloat.emax m1 e' loc_Exact) as [mrs'' e''].
  destruct H2 as (Hm'' & Hlt'' & Hke'' & He'').
  destruct (shr_m mrs'') as [|m''|m''] eqn:Hm2; [done| |lia].
  assert (Hle : (e'' <=? PyFloat.emax - PyFloat.prec) = true).
  { apply Z.leb_le. unfold PyFloat.emax, PyFloat.prec. lia. }
  rewrite Hle. split; [exact Hlt''|exact Hke''].
Qed.

Lemma SFdiv_core_bound (m1 m2 : positive) (e1 e2 : Z) :
  let k := Z.pos (digits2_pos m1) + e1 - e2 in
  let '(mz, ez, lz) :=
    SFdiv_core_binary PyFloat.prec PyFloat.emax (Z.pos m1) e1 (Z.pos m2) e2 in
  0 ≤ mz ∧ mz < 2 ^ (k - ez) ∧ 0 ≤ k - ez ∧ ez ≤ e1 - e2.
Proof.
  intros k. unfold SFdiv_core_binary. rewrite div_eucl_div_mod.
  set (E := Z.min _ (e1 - e2)).
  assert (HE : E ≤ e1 - e2) by (unfold E; lia).
  pose proof (digits2_pos_upper m1) as Hup.
  assert (Hquot : ∀ j, 0 ≤ j →
            0 ≤ Z.pos m1 * 2 ^ j / Z.pos m2
            ∧ Z.pos m1 * 2 ^ j / Z.pos m2 < 2 ^ (Z.pos (digits2_pos m1) + j)).
  { intros j Hj. assert (0 < 2 ^ j) by (apply Z.pow_pos_nonneg; lia).
    split; [apply Z.div_pos; lia|].
    apply Z.div_lt_upper_bound; [lia|].
    rewrite Z.pow_add_r by lia.
    assert (Z.pos m1 * 2 ^ j < 2 ^ Z.pos (digits2_pos m1) * 2 ^ j) by nia.
    assert (0 < 2 ^ Z.pos (digits2_pos m1)) by (apply Z.pow_pos_nonneg; lia).
    nia. }
  unfold k. destruct (e1 - e2 - E) as [|n|n] eqn:Hs; [| |lia].
  - destruct (Hquot 0 ltac:(lia)) as [H1 H2].
    rewrite Z.pow_0_r, Z.mul_1_r in H1, H2.
    replace (Z.pos (digits2_pos m1) + e1 - e2 - E) with (Z.pos (digits2_pos m1) + 0) by lia.
    repeat split; try done; lia.
  - rewrite Z.shiftl_mul_pow2 by lia.
    destruct (Hquot (Z.pos n) ltac:(lia)) as [H1 H2].
    replace (Z.pos (digits2_pos m1) + e1 - e2 - E)
      with (Z.pos (digits2_pos m1) + Z.pos n) by lia.
    repeat split; try done; lia.
Qed.

(** The float of a positive integer is positive: finite with an exponent of
    at least -52, or plus infinity. *)
Lemma of_Z_pos_shape (b : Z) :
  0 < b →
  match PyFloat.of_Z b with
  | S754_finite false _ e => -52 ≤ e
  | S754_infinity false => True
  | _ => False
  end.
Proof.
  intros Hb. destruct b as [|p|p]; [lia| |lia].
  unfold PyFloat.of_Z, binary_normalize, binary_round.
  assert (Halign : let '(mz, ez) := shl_align p 0 (fexp PyFloat.prec PyFloat.emax
                                      (Z.pos (digits2_pos p) + 0)) in -52 ≤ ez).
  { unfold shl_align. rewrite fexp_binary64.
    destruct (Z.max (Z.pos (digits2_pos p) + 0 - 53) (-1074) - 0) eqn:Hd; lia. }
  destruct (shl_align _ _ _) as [mz ez]. unfold binary_round_aux.
  pose proof (shr_fexp_pos (Z.pos mz) ez loc_Exact ltac:(lia) ltac:(lia)) as H1.
  destruct (shr_fexp PyFloat.prec PyFloat.emax (Z.pos mz) ez loc_Exact) as [mrs' e'].
  destruct H1 as [Hm' He'].
  pose proof (round_nearest_even_bounds (shr_m mrs') (loc_of_shr_record mrs')) as Hr.
  set (m1 := round_nearest_even _ _) in *.
  pose proof (shr_fexp_pos m1 e' loc_Exact ltac:(lia) ltac:(lia)) as H2.
  destruct (shr_fexp PyFloat.prec PyFloat.emax m1 e' loc_Exact) as [mrs'' e''].
  destruct H2 as [Hm'' He''].
  destruct (shr_m mrs''); [lia| |lia].
  destruct (e'' <=? _); [lia|done].
Qed.

Lemma truediv_finite_bounded (sx sy : bool) (m1 m2 : positive) (e1 e2 k : Z) :
  Z.pos (digits2_pos m1) + e1 - e2 ≤ k →
  -1021 ≤ k ≤ 1022 → e1 - e2 ≤ 970 →
  match PyFloat.truediv (S754_finite sx m1 e1) (S754_finite sy m2 e2) with
  | S754_zero _ => True
  | S754_finite _ m' e' => Z.pos m' < 2 ^ (k + 1 - e') ∧ 0 ≤ k + 1 - e'
  | _ => False
  end.
Proof.
  intros Hk0 Hk He. unfold PyFloat.truediv, SFdiv.
  pose proof (SFdiv_core_bound m1 m2 e1 e2) as Hcore. cbv zeta in Hcore.
  destruct (SFdiv_core_binary _ _ _ _ _ _) as [[mz ez] lz].
  destruct Hcore as (H1 & H2 & H3 & H4).
  assert (Hpow : 2 ^ (Z.pos (digits2_pos m1) + e1 - e2 - ez) ≤ 2 ^ (k - ez))
    by (apply Z.pow_le_mono_r; lia).
  apply binary_round_aux_bounded; lia.
Qed.

Lemma of_Z_100 : PyFloat.of_Z 100 = S754_finite false 7036874417766400 (-46).
Proof. reflexivity. Qed.

(** [int(q * 100)] returns for a quotient [q] that is zero or finite and
    of bounded magnitude. *)
Lemma to_int_mul_100 (q : PyFloat.float) (k : Z) :
  -1021 ≤ k ≤ 1000 →
  match q with
  | S754_zero _ => True
  | S754_finite _ m e => Z.pos m < 2 ^ (k - e) ∧ 0 ≤ k - e
  | _ => False
  end →
  ∃ n, PyFloat.to_int (PyNum.mul_int q 100) = Ok n.
Proof.
  intros Hk Hq. unfold PyNum.mul_int, PyFloat.mul. rewrite of_Z_100.
  destruct q as [s|s| |s m e]; try done; [by eexists|].
  destruct Hq as [Hm He]. unfold SFmul.
  pose proof (binary_round_aux_bounded (xorb s false)
                (Z.pos (m * 7036874417766400)) (e + -46) (k + 7) loc_Exact) as Hb.
  destruct (binary_round_aux _ _ _ _ _ _); [by eexists| | |by eexists]; exfalso; apply Hb;
    try lia; rewrite Pos2Z.inj_mul;
    (replace (k + 7 - (e + -46)) with ((k - e) + 53) by lia);
    rewrite Z.pow_add_r by lia;
    (assert (Z.pos 7036874417766400 < 2 ^ 53) by done);
    (assert (0 < 2 ^ (k - e)) by (apply Z.pow_pos_nonneg; lia)); nia.
Qed.

Lemma percent_returns (current : num) (b : Z) :
  nonneg current → bounded current →
  ∃ r, Neet.percent current (NInt b) = Ok r.
Proof.
  intros Hnn Hb. unfold Neet.percent.
  destruct (PyNum.gt0 (NInt b)) eqn:Hgt; [|by eexists].
  cbn in Hgt. apply Z.ltb_lt in Hgt.
  assert (Hq : ∃ q k, PyNum.truediv current (NInt b) = Ok q ∧ -1021 ≤ k ≤ 1000
             ∧ match q with
               | S754_zero _ => True
               | S754_finite _ m e => Z.pos m < 2 ^ (k - e) ∧ 0 ≤ k - e
               | _ => False
               end).
  { destruct current as [a|x].
    - cbn in Hnn, Hb. cbn [PyNum.truediv]. unfold PyFloat.int_truediv.
      destruct b as [|pb|pb]; [lia| |lia].
      destruct a as [|pa|pa]; [by exists (S754_zero false), 0| |lia].
      change (Z.to_pos (Z.abs (Z.pos pa))) with pa.
      change (Z.to_pos (Z.abs (Z.pos pb))) with pb.
      assert (Hd : Z.pos (digits2_pos pa) ≤ 64).
      { change (Z.pos (digits2_pos pa)) with (Zdigits2 (Z.pos pa)).
        apply Zdigits2_le; lia. }
      pose proof (truediv_finite_bounded (Z.pos pa <? 0) (Z.pos pb <? 0) pa pb 0 0 64
                    ltac:(lia) ltac:(lia) ltac:(lia)) as Hdiv.
      destruct (PyFloat.truediv _ _) as [s|s| |s m e]; try done.
      + by exists (S754_zero s), 0.
      + exists (S754_finite s m e), 65.
        split; [done|]. split; [lia|exact Hdiv].
    - cbn [PyNum.truediv PyNum.to_float].
      pose proof (of_Z_pos_shape b Hgt) as Hshape.
      destruct (PyFloat.of_Z b) as [|[]| |[] mb eb]; try done.
      + destruct x as [sx|sx| |sx mx ex]; try done; cbn.
        * by exists (S754_zero (xorb sx false)), 0.
        * by exists (S754_zero (xorb sx false)), 0.
      + destruct x as [sx|sx| |sx mx ex]; try done.
        * by exists (S754_zero (xorb sx false)), 0.
        * cbn in Hb.
          assert (Hd : 1 ≤ Z.pos (digits2_pos mx)) by lia.
          pose proof (truediv_finite_bounded sx false mx mb ex eb 116
                        ltac:(lia) ltac:(lia) ltac:(lia)) as Hdiv.
          destruct (PyFloat.truediv _ _) as [s|s| |s m e] eqn:Hdiv'; try done.
          -- by exists (S754_zero s), 0.
          -- exists (S754_finite s m e), 117.
             split; [done|]. split; [lia|exact Hdiv]. }
  destruct Hq as (q & k & -> & Hk & Hshape). cbn.
  destruct (to_int_mul_100 q k Hk Hshape) as [n ->]. by eexists.
Qed.

Lemma percent_upper (current target : num) (r : Z) :
  Neet.percent current target = Ok r → r ≤ 100.
Proof.
  unfold Neet.percent.
  destruct (PyNum.gt0 target); cbn.
  - destruct (PyNum.truediv current target) as [q|e]; cbn; [|done].
    destruct (PyFloat.to_int (PyNum.mul_int q 100)) as [n|e]; cbn; [|done].
    intros [= <-]. lia.
  - intros [= <-]. lia.
Qed.

(** C8 (amended): for current values that are not negative and of ordinary
    size, and integer targets, both percentages of a progress card are
    computed and lie in [0, 100]; a target of zero (or below) gives 0 and
    no error; the cap at 100 holds for every current value and target; and
    current 5 of target 10 gives 50, current 20 of target 10 gives 100,
    current 5 of target 0 gives 0, for the hours and for the questions
    percentage. *)
Theorem target_progress_clamped
    (current_hours current_questions : num) (hours_target questions_target : Z) :
  nonneg current_hours → nonneg current_questions →
  bounded current_hours → bounded current_questions →
  (∃ hours_percent questions_percent,
     Neet.progress current_hours current_questions
       (Neet.mk_target (NInt hours_target) (NInt questions_target))
     = Ok (hours_percent, questions_percent)
     ∧ 0 ≤ hours_percent ≤ 100 ∧ 0 ≤ questions_percent ≤ 100
     ∧ (hours_target ≤ 0 → hours_percent = 0)
     ∧ (questions_target ≤ 0 → questions_percent = 0))
  ∧ (∀ current target r, Neet.percent current target = Ok r → r ≤ 100)
  ∧ (∀ current target,
       PyNum.gt0 target = false → Neet.percent current target = Ok 0)
  ∧ Neet.progress (NInt 5) (NInt 5) target_10 = Ok (50, 50)
  ∧ Neet.progress (NFloat float_5) (NInt 5) target_10 = Ok (50, 50)
  ∧ Neet.progress (NInt 20) (NInt 20) target_10 = Ok (100, 100)
  ∧ Neet.progress (NFloat float_20) (NInt 20) target_10 = Ok (100, 100)
  ∧ Neet.progress (NInt 5) (NInt 5) target_0 = Ok (0, 0)
  ∧ Neet.progress (NFloat float_5) (NInt 5) target_0 = Ok (0, 0).
Proof.
  intros Hh Hq Hbh Hbq. split; [|split; [|split]].
  - destruct (percent_returns current_hours hours_target Hh Hbh) as [hp Hhp].
    destruct (percent_returns current_questions questions_target Hq Hbq) as [qp Hqp].
    exists hp, qp. unfold Neet.progress. cbn [Neet.hours Neet.questions].
    rewrite Hhp, Hqp. split; [reflexivity|].
    split; [by apply (percent_bounds current_hours (NInt hours_target))|].
    split; [by apply (percent_bounds current_questions (NInt questions_target))|].
    split.
    + intros Hz. rewrite percent_zero_target in Hhp by (by apply Z.ltb_ge).
      by injection Hhp.
    + intros Hz. rewrite percent_zero_target in Hqp by (by apply Z.ltb_ge).
      by injection Hqp.
  - apply percent_upper.
  - apply percent_zero_target.
  - destruct progress_examples as (H1 & H2 & H3 & H4 & H5 & H6). repeat split; done.
Qed.

(** Half of the weekly target, as hours (a float) and as questions. *)
Lemma target_progress_clamped_witness :
  nonneg (NFloat float_5) ∧ nonneg (NInt 5)
  ∧ bounded (NFloat float_5) ∧ bounded (NInt 5)
  ∧ ∃ hours_percent questions_percent,
      Neet.progress (NFloat float_5) (NInt 5) (Neet.mk_target (NInt 10) (NInt 10))
      = Ok (hours_percent, questions_percent)
      ∧ 0 ≤ hours_percent ≤ 100 ∧ 0 ≤ questions_percent ≤ 100.
Proof.
  assert (H1 : nonneg (NFloat float_5)) by exact I.
  assert (H2 : nonneg (NInt 5)) by (cbn; lia).
  assert (H3 : bounded (NFloat float_5)) by (vm_compute; discriminate).
  assert (H4 : bounded (NInt 5)) by (cbn; lia).
  destruct (target_progress_clamped (NFloat float_5) (NInt 5) 10 10 H1 H2 H3 H4)
    as ((hp & qp & Hrun & Hhp & Hqp & _) & _).
  split; [exact H1|]. split; [exact H2|]. split; [exact H3|]. split; [exact H4|].
  exists hp, qp. split; [exact Hrun|]. split; [exact Hhp|exact Hqp].
Defined.

(** C8, as stated, fails: the percentage is only capped above. A current
    value of -5 against a target of 10 gives -50, as an integer and as a
    float. *)
Lemma percent_of_negative_current :
  Neet.percent (NInt (-5)) (NInt 10) = Ok (-50)
  ∧ Neet.percent (NFloat (PyFloat.of_Z (-5))) (NInt 10) = Ok (-50)
  ∧ ¬ (0 ≤ -50 ≤ 100).
Proof. split; [vm_compute; reflexivity|]. split; [vm_compute; reflexivity|lia]. Qed.

(** *** Histories without a gap

    When every day between the oldest and the most recent studied day has an
    entry, the run from the oldest day and the current streak coincide: both
    walks return the number of days of the range. *)
Lemma streaks_agree_without_gap (data : list row) (oldest latest : Z) :
  data ≠ [] →
  is_oldest (study_days data) oldest → is_latest (study_days data) latest →
  (∀ d, oldest ≤ d ≤ latest → d ∈ study_days data) →
  StudyAnalyzer._calculate_streak data = latest - oldest + 1
  ∧ Neet.calculate_stats_streak data = latest - oldest + 1.
Proof.
  intros Hne [Hoin Hmin] [Hlin Hmax] Hfull.
  assert (Hle : oldest ≤ latest) by by apply Hmax.
  destruct (streak_by_days data (latest - oldest + 1) Hne) as [Hcur Hold].
  split.
  - apply Hold. exists oldest. split; [done|]. split; [done|]. split; [lia|]. split.
    + intros j Hj. apply Hfull. lia.
    + intros Hin. specialize (Hmax _ Hin). lia.
  - apply Hcur. exists latest. split; [done|]. split; [done|]. split; [lia|]. split.
    + intros j Hj. apply Hfull. lia.
    + intros Hin. specialize (Hmin _ Hin). lia.
Qed.

(** ** The statistics of the analyzer *)

Lemma lead_run_bounds rel (a : Z) (l : list Z) :
  1 ≤ lead_run rel (a :: l) ≤ Z.of_nat (length (a :: l)).
Proof.
  revert a. induction l as [|b l IH]; intros a; [cbn; lia|].
  rewrite lead_run_cons. specialize (IH b).
  destruct (rel a b); cbn [length] in *; lia.
Qed.

Lemma sorted_length (l : list Z) : length (sorted l) = length l.
Proof. unfold sorted. by rewrite merge_sort_Permutation. Qed.

Lemma streak_bounds (data : list row) :
  data ≠ [] →
  1 ≤ StudyAnalyzer._calculate_streak data ≤ nunique (Date <$> data)
  ∧ 1 ≤ Neet.calculate_stats_streak data ≤ nunique (Date <$> data).
Proof.
  intros Hne. pose proof (dates_nonempty data Hne) as Hnil.
  unfold StudyAnalyzer._calculate_streak, StudyAnalyzer.dates_of,
    Neet.calculate_stats_streak, nunique.
  destruct data as [|r0 data0] eqn:Hdata; [done|]. rewrite <- Hdata in *. clear Hdata.
  cbv zeta. rewrite forward_walk, backward_walk.
  rewrite <- (sorted_length (unique (Date <$> data))).
  set (dates := sorted (unique (Date <$> data))) in *.
  split.
  - destruct dates as [|a l]; [done|]. apply lead_run_bounds.
  - rewrite <- (length_reverse dates).
    destruct (reverse dates) as [|a l] eqn:Hr.
    + apply (f_equal reverse) in Hr. by rewrite reverse_involutive in Hr.
    + apply lead_run_bounds.
Qed.

(** The streak of [calculate_overall_stats] is at least one day and at
    most the number of distinct days it reports as [total_days]; so is the
    streak of the dashboard on the same log. *)
Theorem streak_within_total_days (data : list log_row) (stats : Analyzer.Overall.t) :
  Analyzer.calculate_overall_stats data = Some stats →
  1 ≤ Analyzer.Overall.current_streak stats ≤ Analyzer.Overall.total_days stats
  ∧ 1 ≤ Neet.calculate_stats_streak (base <$> data)
      ≤ Analyzer.Overall.total_days stats.
Proof.
  intros Hstats. unfold Analyzer.calculate_overall_stats in Hstats.
  destruct data as [|r0 data0] eqn:Hdata; [done|]. rewrite <- Hdata in *.
  injection Hstats as <-. cbn [Analyzer.Overall.current_streak Analyzer.Overall.total_days].
  unfold Analyzer.dates. rewrite list_fmap_compose.
  apply streak_bounds. by rewrite Hdata.
Qed.

Lemma streak_within_total_days_witness :
  ∃ stats,
    Analyzer.calculate_overall_stats log_of_march = Some stats
    ∧ 1 ≤ Analyzer.Overall.current_streak stats ≤ Analyzer.Overall.total_days stats
    ∧ 1 ≤ Neet.calculate_stats_streak (base <$> log_of_march)
        ≤ Analyzer.Overall.total_days stats.
Proof.
  eexists. split; [reflexivity|].
  apply (streak_within_total_days log_of_march). reflexivity.
Defined.

(** *** Subject statistics *)

Lemma rows_of_cons (s : string) (r : log_row) (data : list log_row) :
  Analyzer.rows_of s (r :: data)
  = if decide (Subject (base r) = s) then r :: Analyzer.rows_of s data
    else Analyzer.rows_of s data.
Proof. unfold Analyzer.rows_of. rewrite filter_cons. by destruct (decide _). Qed.

Lemma sum_int_cons (x : Z) (l : list Z) : sum_int (x :: l) = x + sum_int l.
Proof. reflexivity. Qed.

Lemma sum_int_plus {A} (f g : A → Z) (L : list A) :
  sum_int ((λ s, f s + g s) <$> L) = sum_int (f <$> L) + sum_int (g <$> L).
Proof.
  induction L as [|s L IH]; [done|].
  rewrite !fmap_cons, !sum_int_cons, IH. lia.
Qed.

Lemma sum_int_indicator (x : string) (v : Z) (L : list string) :
  NoDup L → x ∈ L →
  sum_int ((λ s, if decide (x = s) then v else 0) <$> L) = v.
Proof.
  induction L as [|s L IH]; intros Hnd Hin; [by apply elem_of_nil in Hin|].
  apply NoDup_cons in Hnd as [Hs Hnd].
  rewrite fmap_cons, sum_int_cons.
  destruct (decide (x = s)) as [->|Hneq].
  - assert (Hzero : sum_int ((λ s', if decide (s = s') then v else 0) <$> L) = 0).
    { clear IH Hin Hnd. induction L as [|s' L IH]; [done|].
      rewrite fmap_cons, sum_int_cons.
      apply not_elem_of_cons in Hs as [Hne Hs].
      destruct (decide (s = s')); [done|]. by rewrite IH. }
    lia.
  - apply elem_of_cons in Hin as [Hin|Hin]; [done|]. by rewrite IH.
Qed.

(** The sums of an integer column over the groups of a list of distinct
    subjects that covers the log add up to the sum of the column. *)
Lemma subject_sums_total (L : list string) (data : list log_row) :
  NoDup L → (∀ r, r ∈ data → Subject (base r) ∈ L) →
  sum_int ((λ s, sum_int (Analyzer.questions (Analyzer.rows_of s data))) <$> L)
  = sum_int (Analyzer.questions data).
Proof.
  intros Hnd. induction data as [|r data IH]; intros Hcover.
  - clear. induction L as [|s L IH]; [done|]. by rewrite fmap_cons, sum_int_cons, IH.
  - assert (Hin : Subject (base r) ∈ L) by (apply Hcover; left).
    assert (Hrest : ∀ r', r' ∈ data → Subject (base r') ∈ L) by (intros r' Hr'; apply Hcover; by right). specialize (IH Hrest).
    unfold Analyzer.questions at 2. rewrite fmap_cons, sum_int_cons.
    fold (Analyzer.questions data). rewrite <- IH.
    rewrite <- (sum_int_indicator (Subject (base r)) (Questions_Attempted r) L Hnd Hin) at 1.
    rewrite <- sum_int_plus. f_equal. apply list_fmap_ext. intros _ s _.
    rewrite rows_of_cons. destruct (decide (Subject (base r) = s)); [|lia].
    unfold Analyzer.questions at 1. by rewrite fmap_cons, sum_int_cons.
Qed.

Lemma nunique_subset {A} `{EqDecision A} (l k : list A) :
  (∀ x, x ∈ l → x ∈ k) → nunique l ≤ nunique k.
Proof.
  intros Hsub. unfold nunique. apply inj_le, submseteq_length, NoDup_submseteq.
  - apply NoDup_unique.
  - intros x. rewrite !elem_of_unique. apply Hsub.
Qed.

Lemma nunique_pos {A} `{EqDecision A} (x : A) (l : list A) : x ∈ l → 1 ≤ nunique l.
Proof.
  intros Hx. unfold nunique. apply elem_of_unique in Hx.
  destruct (unique l); [by apply elem_of_nil in Hx|]. cbn [length]. lia.
Qed.

(** [get_subject_stats] has one item per subject of the log, in the order
    of first appearance; the questions of the subjects add up to the
    [total_questions] of [calculate_overall_stats], and every subject has
    at least one study day and at most [total_days]. *)
Theorem subject_stats_within_overall (data : list log_row) (stats : Analyzer.Overall.t) :
  Analyzer.calculate_overall_stats data = Some stats →
  (Analyzer.get_subject_stats data).*1 = unique (Analyzer.subjects data)
  ∧ NoDup (Analyzer.get_subject_stats data).*1
  ∧ sum_int (Analyzer.BySubject.total_questions ∘ snd
               <$> Analyzer.get_subject_stats data)
    = Analyzer.Overall.total_questions stats
  ∧ Forall (λ item,
              1 ≤ Analyzer.BySubject.study_days item.2
                ≤ Analyzer.Overall.total_days stats)
      (Analyzer.get_subject_stats data).
Proof.
  intros Hstats. unfold Analyzer.calculate_overall_stats in Hstats.
  unfold Analyzer.get_subject_stats.
  destruct data as [|r0 data0] eqn:Hdata; [done|]. rewrite <- Hdata in *.
  injection Hstats as <-.
  cbn [Analyzer.Overall.total_questions Analyzer.Overall.total_days].
  assert (Hkeys :
    ((λ subject,
        (subject,
         Analyzer.BySubject.mk
           (sum_float (Analyzer.durations (Analyzer.rows_of subject data)))
           (sum_int (Analyzer.questions (Analyzer.rows_of subject data)))
           (mean (Analyzer.performances (Analyzer.rows_of subject data)))
           (mean (Analyzer.motivations (Analyzer.rows_of subject data)))
           (nunique (Analyzer.dates (Analyzer.rows_of subject data)))))
       <$> unique (Analyzer.subjects data)).*1 = unique (Analyzer.subjects data)).
  { rewrite <- list_fmap_compose. induction (unique (Analyzer.subjects data)) as [|s L IHL]; [done|]. rewrite fmap_cons. by f_equal. }
  split; [exact Hkeys|]. split; [rewrite Hkeys; apply NoDup_unique|]. split.
  - rewrite <- list_fmap_compose.
    apply (subject_sums_total (unique (Analyzer.subjects data)) data).
    + apply NoDup_unique.
    + intros r Hr. apply elem_of_unique. unfold Analyzer.subjects.
      apply list_elem_of_fmap. by exists r.
  - apply Forall_fmap, Forall_forall. intros s Hs. cbn.
    rewrite elem_of_unique in Hs. unfold Analyzer.subjects in Hs.
    apply list_elem_of_fmap in Hs as (r & -> & Hr). split.
    + apply (nunique_pos (Date (base r))). unfold Analyzer.dates.
      apply list_elem_of_fmap. exists r. split; [done|].
      unfold Analyzer.rows_of. by apply list_elem_of_filter.
    + apply nunique_subset. intros d. unfold Analyzer.dates.
      rewrite !list_elem_of_fmap. intros (r' & -> & Hr').
      exists r'. split; [done|]. unfold Analyzer.rows_of in Hr'.
      by apply list_elem_of_filter in Hr' as [_ Hr'].
Qed.

Lemma subject_stats_within_overall_witness :
  ∃ stats,
    Analyzer.calculate_overall_stats log_of_march = Some stats
    ∧ (Analyzer.get_subject_stats log_of_march).*1 = ["Physics"; "Chemistry"; "Botany"]%string
    ∧ sum_int (Analyzer.BySubject.total_questions ∘ snd
                 <$> Analyzer.get_subject_stats log_of_march)
      = Analyzer.Overall.total_questions stats.
Proof.
  eexists. split; [reflexivity|].
  destruct (subject_stats_within_overall log_of_march _ eq_refl) as (Hkeys & _ & Hsum & _).
  split; [|exact Hsum]. rewrite Hkeys. vm_compute. reflexivity.
Defined.

(** *** The week of a day *)

Lemma weekday_range (d : Z) : 0 ≤ weekday d ≤ 6.
Proof. unfold weekday. pose proof (Z.mod_pos_bound (d + 6) 7). lia. Qed.

Lemma week_start_is_monday (d : Z) : weekday (d - weekday d) = 0.
Proof.
  unfold weekday.
  replace (d - (d + 6) mod 7 + 6) with ((d + 6) - (d + 6) mod 7) by lia.
  rewrite Zminus_mod, Z.mod_mod, Z.sub_diag by lia. done.
Qed.

Lemma same_week (t1 t2 : Z) :
  t1 - weekday t1 ≤ t2 ≤ t1 - weekday t1 + 6 →
  t2 - weekday t2 = t1 - weekday t1.
Proof.
  intros Hin. pose proof (week_start_is_monday t1) as Hmon.
  pose proof (weekday_range t1) as H1. pose proof (weekday_range t2) as H2.
  set (m := t1 - weekday t1) in *.
  unfold weekday in Hmon, H2 |- *.
  assert (Hm : (m + 6) mod 7 = 0) by exact Hmon.
  apply Z.mod_divide in Hm as [q Hq]; [|lia].
  assert (Hk : (t2 + 6) mod 7 = t2 - m).
  { replace (t2 + 6) with ((t2 - m) + q * 7) by lia.
    rewrite Z.mod_add by lia. apply Z.mod_small. lia. }
  lia.
Qed.

Lemma unique_length_le {A} `{EqDecision A} (l : list A) :
  (length (unique l) ≤ length l)%nat.
Proof.
  apply submseteq_length, NoDup_submseteq; [apply NoDup_unique|].
  intros x. by rewrite elem_of_unique.
Qed.

Lemma week_data_spec (today : Z) (data : list log_row) (r : log_row) :
  r ∈ Analyzer.week_data today data
  ↔ r ∈ data ∧ today - weekday today ≤ Date (base r) ≤ today - weekday today + 6.
Proof. unfold Analyzer.week_data. cbv zeta. rewrite list_elem_of_filter. tauto. Qed.

(** The week of [get_weekly_summary] starts on a Monday, has seven days and
    contains [today]; the summary is computed from the rows of that week and
    is the same on every day of the week; it is empty exactly when the week
    has no row, and it never reports more than seven days studied. *)
Theorem weekly_summary_of_the_week (today : Z) (data : list log_row) :
  let monday := today - weekday today in
  weekday monday = 0
  ∧ monday ≤ today ≤ monday + 6
  ∧ (∀ r, r ∈ Analyzer.week_data today data
          ↔ r ∈ data ∧ monday ≤ Date (base r) ≤ monday + 6)
  ∧ (∀ other, monday ≤ other ≤ monday + 6 →
       Analyzer.get_weekly_summary other data
       = Analyzer.get_weekly_summary today data)
  ∧ (Analyzer.get_weekly_summary today data = None
     ↔ ∀ r, r ∈ data → ¬ monday ≤ Date (base r) ≤ monday + 6)
  ∧ (∀ summary, Analyzer.get_weekly_summary today data = Some summary →
       1 ≤ Analyzer.Weekly.days_studied summary ≤ 7
       ∧ 1 ≤ Analyzer.Weekly.subjects_studied summary
       ∧ Analyzer.Weekly.total_questions summary
         = sum_int (Analyzer.questions (Analyzer.week_data today data))).
Proof.
  intros monday. pose proof (weekday_range today) as Hwd.
  split; [apply week_start_is_monday|]. split; [unfold monday; lia|].
  split; [apply week_data_spec|]. split; [|split].
  - intros other Hother. unfold Analyzer.get_weekly_summary, Analyzer.week_data.
    cbv zeta. by rewrite (same_week today other Hother).
  - unfold Analyzer.get_weekly_summary. split.
    + intros Hnone r Hr Hin.
      assert (Hweek : r ∈ Analyzer.week_data today data) by (by apply week_data_spec).
      destruct data as [|r0 data0] eqn:Hdata; [by apply elem_of_nil in Hr|].
      rewrite <- Hdata in *.
      destruct (Analyzer.week_data today data); [by apply elem_of_nil in Hweek|done].
    + intros Hout. destruct data as [|r0 data0] eqn:Hdata; [done|].
      rewrite <- Hdata in *.
      destruct (Analyzer.week_data today data) as [|r week] eqn:Hweek; [done|].
      assert (Hr : r ∈ Analyzer.week_data today data) by (rewrite Hweek; left).
      apply week_data_spec in Hr as [Hr Hin]. by destruct (Hout r Hr).
  - intros summary Hsum. unfold Analyzer.get_weekly_summary in Hsum.
    destruct data as [|r0 data0] eqn:Hdata; [done|]. rewrite <- Hdata in *.
    destruct (Analyzer.week_data today data) as [|r week] eqn:Hweek; [done|].
    injection Hsum as <-.
    change (1 ≤ nunique (Analyzer.dates (r :: week)) ≤ 7
            ∧ 1 ≤ nunique (Analyzer.subjects (r :: week))
            ∧ sum_int (Analyzer.questions (r :: week))
              = sum_int (Analyzer.questions (r :: week))).
    split; [split|split; [|done]].
    + apply (nunique_pos (Date (base r))). unfold Analyzer.dates. left.
    + assert (Hsub : nunique (Analyzer.dates (r :: week)) ≤ nunique (seqZ monday 7)).
      { apply nunique_subset. intros d. unfold Analyzer.dates.
        rewrite list_elem_of_fmap. intros (r' & -> & Hr').
        rewrite <- Hweek in Hr'. apply week_data_spec in Hr' as [_ Hin].
        apply elem_of_seqZ. unfold compose. fold monday in Hin. lia. }
      pose proof (unique_length_le (seqZ monday 7)) as Hlen.
      rewrite length_seqZ in Hlen. unfold nunique in Hsub |- *. lia.
    + apply (nunique_pos (Subject (base r))). unfold Analyzer.subjects. left.
Qed.

(** *** The week of the progress cards *)

Lemma day_us_pos : 0 < NeetProgress.day_us.
Proof. reflexivity. Qed.

Lemma week_df_test (now d : Z) :
  let today := NeetProgress.day_of now in
  let monday := today - weekday today in
  let start_of_week := now - weekday today * NeetProgress.day_us in
  (start_of_week ≤ NeetProgress.midnight d
   ∧ NeetProgress.midnight d ≤ start_of_week + 6 * NeetProgress.day_us)
  ↔ (monday < d ≤ monday + 6
     ∨ (d = monday ∧ now mod NeetProgress.day_us = 0)).
Proof.
  intros today monday start_of_week.
  pose proof day_us_pos as HD.
  pose proof (Z.div_mod now NeetProgress.day_us ltac:(lia)) as Hnow.
  pose proof (Z.mod_pos_bound now NeetProgress.day_us HD) as Htod.
  fold (NeetProgress.day_of now) in Hnow. fold today in Hnow.
  unfold start_of_week, NeetProgress.midnight, monday.
  set (D := NeetProgress.day_us) in *. set (tod := now mod D) in *.
  set (wd := weekday today) in *. clearbody D tod wd today.
  subst now. split.
  - intros [Hlo Hhi].
    assert (today - wd ≤ d) by nia.
    assert (d ≤ today - wd + 6) by nia.
    destruct (decide (d = today - wd)) as [->|Hne]; [|left; lia].
    right. split; [done|]. nia.
  - intros [[Hlo Hhi]|[-> Hz]]; split; nia.
Qed.

(** The progress cards of [show_target_setting] take the rows from the
    Monday of the current week to the following Sunday, but they compare
    the midnights of the entry dates with a start of the week that keeps the
    time of day of [now]: unless [now] is a midnight, the entries dated on
    the Monday are left out, where the week of [get_weekly_summary] has
    them. *)
Theorem progress_week_leaves_out_monday (now : Z) (data : list log_row) :
  let today := NeetProgress.day_of now in
  let monday := today - weekday today in
  (∀ r, r ∈ NeetProgress.week_df now data
        ↔ r ∈ data
          ∧ (monday < Date (base r) ≤ monday + 6
             ∨ (Date (base r) = monday ∧ now mod NeetProgress.day_us = 0)))
  ∧ (now mod NeetProgress.day_us ≠ 0 →
     NeetProgress.week_df now data
     = filter (λ r, Date (base r) ≠ monday) (Analyzer.week_data today data))
  ∧ (now mod NeetProgress.day_us = 0 →
     NeetProgress.week_df now data = Analyzer.week_data today data).
Proof.
  intros today monday. split; [|split].
  - intros r. unfold NeetProgress.week_df. cbv zeta.
    rewrite list_elem_of_filter. fold today.
    pose proof (week_df_test now (Date (base r))) as Htest. cbv zeta in Htest.
    fold today in Htest. fold monday in Htest. tauto.
  - intros Htod. unfold NeetProgress.week_df, Analyzer.week_data. cbv zeta.
    fold today. fold monday. rewrite list_filter_filter.
    apply list_filter_iff. intros r.
    pose proof (week_df_test now (Date (base r))) as Htest. cbv zeta in Htest.
    fold today in Htest. fold monday in Htest. rewrite Htest. lia.
  - intros Htod. unfold NeetProgress.week_df, Analyzer.week_data. cbv zeta.
    fold today. fold monday.
    apply list_filter_iff. intros r.
    pose proof (week_df_test now (Date (base r))) as Htest. cbv zeta in Htest.
    fold today in Htest. fold monday in Htest. rewrite Htest. lia.
Qed.

Lemma progress_week_leaves_out_monday_witness :
  let now := NeetProgress.midnight (march_2025 5) + 37800 * 1000000 in
  Date ∘ base <$> NeetProgress.week_df now log_of_march
  = [march_2025 4; march_2025 4; march_2025 9]
  ∧ Date ∘ base <$> Analyzer.week_data (NeetProgress.day_of now) log_of_march
    = [march_2025 3; march_2025 4; march_2025 4; march_2025 9].
Proof.
  intros now.
  destruct (progress_week_leaves_out_monday now log_of_march) as (_ & Hdrop & _).
  rewrite Hdrop by (vm_compute; discriminate).
  split; vm_compute; reflexivity.
Defined.

(** ** The duration of an entry as a number *)

Lemma split_from_spaces (s : string) :
  Forall (λ c, PyStr.is_space c = true) (list_ascii_of_string s) →
  PyStr.split_from EmptyString s = [].
Proof.
  induction s as [|c s IH]; intros Hall; [done|].
  cbn [list_ascii_of_string] in Hall. apply Forall_cons in Hall as [Hc Hall].
  cbn [PyStr.split_from]. rewrite Hc. cbn. by apply IH.
Qed.

(** The conversion of the analyzer and the conversion of the dashboard
    agree on every value but the empty string, where the dashboard takes 0
    hours and the analyzer raises [IndexError]; on a string of white space
    both raise it. *)
Theorem duration_conversions_differ_on_empty :
  (∀ x, x ≠ VStr EmptyString → study_hours x = study_duration x)
  ∧ study_hours (VStr EmptyString) = Ok (NInt 0)
  ∧ study_duration (VStr EmptyString) = Raise IndexError
  ∧ (∀ c s, Forall (λ c, PyStr.is_space c = true) (c :: list_ascii_of_string s) →
       study_hours (VStr (String c s)) = Raise IndexError
       ∧ study_duration (VStr (String c s)) = Raise IndexError).
Proof.
  split; [|split; [reflexivity|split; [reflexivity|]]].
  - intros [| | | |[|c s]| |] Hne; try reflexivity. done.
  - intros c s Hall. unfold study_hours, study_duration, PyStr.split.
    rewrite (split_from_spaces (String c s)) by exact Hall. done.
Qed.

(** ** What the validator reads *)

Lemma strptime_ymd_valid (s : string) (y m d : Z) :
  PyStr.strptime_ymd s = Ok (y, m, d) → Calendar.valid_date y m d = true.
Proof.
  unfold PyStr.strptime_ymd. intros H.
  repeat (match type of H with
          | context [match ?x with _ => _ end] => destruct x eqn:?
          | context [if ?x then _ else _] => destruct x eqn:?
          end; try discriminate).
  by injection H as <- <- <-.
Qed.

(** An entry the validator accepts has a date that is a calendar date, one
    of the four subjects, and a duration that both conversions of the
    analytics turn into the same float, which is neither below 0 nor above
    24: an accepted entry never makes them raise. *)
Theorem validated_entry_converts (entry : gmap string pyval) :
  DataManager.validate_study_entry entry = Ok true →
  ∃ date subject duration y m d f,
    entry !! "Date"%string = Some (VStr date)
    ∧ PyStr.strptime_ymd date = Ok (y, m, d)
    ∧ Calendar.valid_date y m d = true
    ∧ entry !! "Subject"%string = Some (VStr subject)
    ∧ subject ∈ DataManager.valid_subjects
    ∧ entry !! "Study Duration"%string = Some (VStr duration)
    ∧ study_duration (VStr duration) = Ok (NFloat f)
    ∧ study_hours (VStr duration) = Ok (NFloat f)
    ∧ PyFloat.ltb f (PyFloat.of_Z 0) = false
    ∧ PyFloat.ltb (PyFloat.of_Z 24) f = false.
Proof.
  unfold DataManager.validate_study_entry, DataManager.duration_of,
    DataManager.getitem.
  cbn [forallb DataManager.required_fields]. rewrite !has_key_lookup.
  destruct (entry !! "Date"%string) as [vd|] eqn:Hd; [|done].
  destruct (entry !! "Subject"%string) as [vs|] eqn:Hs; [|done].
  destruct (entry !! "Study Duration"%string) as [vu|] eqn:Hu; [|done].
  cbn. destruct vd as [| | | |date| |]; cbn; try done.
  destruct (PyStr.strptime_ymd date) as [[[y m] d]|e] eqn:Hparse; cbn.
  2:{ by rewrite (strptime_ymd_raises _ _ Hparse). }
  destruct vs as [| | | |subject| |]; cbn; try done.
  destruct (bool_decide (subject ∈ DataManager.valid_subjects)) eqn:Hsub; cbn; [|done].
  apply bool_decide_eq_true_1 in Hsub.
  destruct vu as [| | | |duration| |]; cbn; try done.
  destruct (PyStr.split duration) as [|tok rest] eqn:Hsplit; cbn; [done|].
  destruct (PyStr.to_float tok) as [f|e] eqn:Hf; cbn.
  2:{ by rewrite (to_float_raises _ _ Hf). }
  destruct (PyFloat.ltb f _) eqn:Hlo; cbn; [done|].
  destruct (PyFloat.ltb _ f) eqn:Hhi; cbn; [done|]. intros _.
  exists date, subject, duration, y, m, d, f.
  split; [done|]. split; [done|].
  split; [by apply (strptime_ymd_valid date)|].
  split; [done|]. split; [done|]. split; [done|].
  assert (Hconv : study_duration (VStr duration) = Ok (NFloat f)).
  { unfold study_duration. rewrite Hsplit. cbn. by rewrite Hf. }
  split; [exact Hconv|]. split; [|done].
  rewrite <- Hconv. destruct duration as [|c s]; [done|]. reflexivity.
Qed.

Lemma validated_entry_converts_witness :
  ∃ f,
    study_duration (VStr "2 hr") = Ok (NFloat f)
    ∧ study_hours (VStr "2 hr") = Ok (NFloat f)
    ∧ PyFloat.ltb (PyFloat.of_Z 24) f = false.
Proof.
  destruct (validated_entry_converts entry_two_hours)
    as (date & subject & duration & y & m & d & f & _ & _ & _ & _ & _
        & Hdur & Hconv & Hhours & _ & Hhi).
  { vm_compute. reflexivity. }
  exists f. injection Hdur as <-. done.
Defined.

(** The validator reads the three required fields and nothing else: two
    entries that agree on them get the same verdict, or raise alike. *)
Theorem validate_reads_required_fields (entry1 entry2 : gmap string pyval) :
  (∀ field, field ∈ DataManager.required_fields →
     entry1 !! field = entry2 !! field) →
  DataManager.validate_study_entry entry1 = DataManager.validate_study_entry entry2.
Proof.
  intros Hsame.
  assert (Hd : entry1 !! "Date"%string = entry2 !! "Date"%string)
    by (apply Hsame; unfold DataManager.required_fields; set_solver).
  assert (Hs : entry1 !! "Subject"%string = entry2 !! "Subject"%string)
    by (apply Hsame; unfold DataManager.required_fields; set_solver).
  assert (Hu : entry1 !! "Study Duration"%string = entry2 !! "Study Duration"%string)
    by (apply Hsame; unfold DataManager.required_fields; set_solver).
  unfold DataManager.validate_study_entry, DataManager.duration_of,
    DataManager.getitem.
  cbn [forallb DataManager.required_fields]. rewrite !has_key_lookup.
  by rewrite Hd, Hs, Hu.
Qed.

(** The two-hour entry with the other fields of the form filled in. *)
Lemma validate_reads_required_fields_witness :
  DataManager.validate_study_entry
    (<["Remarks"%string := VStr "revise"]>
       (<["Performance"%string := VInt 11]> entry_two_hours))
  = Ok true.
Proof.
  rewrite (validate_reads_required_fields _ entry_two_hours);
    [vm_compute; reflexivity|].
  intros field Hfield. unfold DataManager.required_fields in Hfield.
  rewrite !elem_of_cons, elem_of_nil in Hfield.
  destruct Hfield as [->|[->|[->|[]]]]; by rewrite !lookup_insert_ne.
Defined.

(** Of the duration only the first token is read: what follows it, the
    unit included, has no influence on the verdict. *)
Theorem validate_ignores_unit (entry : gmap string pyval) (s1 s2 : string) :
  head (PyStr.split s1) = head (PyStr.split s2) →
  DataManager.validate_study_entry (<["Study Duration"%string := VStr s1]> entry)
  = DataManager.validate_study_entry (<["Study Duration"%string := VStr s2]> entry).
Proof.
  intros Hhead.
  unfold DataManager.validate_study_entry, DataManager.duration_of,
    DataManager.getitem.
  cbn [forallb DataManager.required_fields]. rewrite !has_key_lookup.
  rewrite !lookup_insert_eq, !lookup_insert_ne by done.
  destruct (entry !! "Date"%string) as [vd|]; [|done].
  destruct (entry !! "Subject"%string) as [vs|]; [|done].
  cbn. destruct (PyStr.split s1) as [|t1 r1], (PyStr.split s2) as [|t2 r2];
    cbn in Hhead; try discriminate; [done|].
  by injection Hhead as ->.
Qed.

(** Five minutes are accepted like five hours. *)
Lemma validate_ignores_unit_witness :
  DataManager.validate_study_entry
    (<["Study Duration"%string := VStr "5 minutes"]> entry_two_hours)
  = DataManager.validate_study_entry
      (<["Study Duration"%string := VStr "5 hr"]> entry_two_hours)
  ∧ DataManager.validate_study_entry
      (<["Study Duration"%string := VStr "5 minutes"]> entry_two_hours)
    = Ok true.
Proof.
  split; [|vm_compute; reflexivity].
  apply validate_ignores_unit. vm_compute. reflexivity.
Defined.

(** ** The date of a new entry *)

Lemma digit_of_digit_char (k : Z) :
  0 ≤ k ≤ 9 → PyStr.digit_of (digit_char k) = Some k.
Proof.
  intros Hk.
  assert (k = 0 ∨ k = 1 ∨ k = 2 ∨ k = 3 ∨ k = 4 ∨ k = 5 ∨ k = 6 ∨ k = 7
          ∨ k = 8 ∨ k = 9) as Hcases by lia.
  repeat (destruct Hcases as [->|Hcases]; [reflexivity|]). by subst.
Qed.

Lemma match_month_two_digits (m : Z) (rest : string) :
  1 ≤ m ≤ 12 → PyStr.match_month (two_digits m +:+ rest) = Some (m, rest).
Proof.
  intros Hm.
  assert (m = 1 ∨ m = 2 ∨ m = 3 ∨ m = 4 ∨ m = 5 ∨ m = 6 ∨ m = 7 ∨ m = 8
          ∨ m = 9 ∨ m = 10 ∨ m = 11 ∨ m = 12) as Hcases by lia.
  repeat (destruct Hcases as [->|Hcases]; [reflexivity|]). by subst.
Qed.

Lemma match_day_two_digits (d : Z) :
  1 ≤ d ≤ 31 → PyStr.match_day (two_digits d) = Some (d, EmptyString).
Proof.
  intros Hd.
  assert (Hcases : ∃ q r, d = 10 * q + r ∧ 0 ≤ q ≤ 3 ∧ 0 ≤ r ≤ 9).
  { exists (d / 10), (d mod 10). pose proof (Z.div_mod d 10 ltac:(lia)).
    pose proof (Z.mod_pos_bound d 10 ltac:(lia)).
    assert (0 ≤ d / 10) by (apply Z.div_pos; lia).
    assert (d / 10 < 4) by (apply Z.div_lt_upper_bound; lia). lia. }
  destruct Hcases as (q & r & -> & Hq & Hr).
  assert (q = 0 ∨ q = 1 ∨ q = 2 ∨ q = 3) as Hqs by lia.
  assert (r = 0 ∨ r = 1 ∨ r = 2 ∨ r = 3 ∨ r = 4 ∨ r = 5 ∨ r = 6 ∨ r = 7
          ∨ r = 8 ∨ r = 9) as Hrs by lia.
  destruct Hqs as [-> | [-> | [-> | ->]]];
    repeat (destruct Hrs as [->|Hrs]; [first [reflexivity|lia]|]);
    subst; first [reflexivity|lia].
Qed.

Lemma days_in_month_le_31 (y m : Z) : Calendar.days_in_month y m ≤ 31.
Proof.
  unfold Calendar.days_in_month.
  destruct ((m =? 2) && Calendar.is_leap y); [lia|].
  destruct (Z.to_nat m) as [|[|[|[|[|[|[|[|[|[|[|[|[|n]]]]]]]]]]]]]; cbn; try lia.
  destruct n; cbn; lia.
Qed.

(** The date string the entry form writes is read back by the validator
    as the same date: for every calendar date with a year of four digits,
    [strptime] of its [strftime] returns the date. *)
Theorem strptime_reads_strftime (y m d : Z) :
  Calendar.valid_date y m d = true → 1000 ≤ y →
  PyStr.strptime_ymd (strftime_ymd y m d) = Ok (y, m, d).
Proof.
  intros Hvalid Hy. pose proof Hvalid as Hv.
  unfold Calendar.valid_date in Hv.
  repeat (apply andb_true_iff in Hv as [Hv ?]).
  repeat match goal with H : (_ <=? _) = true |- _ => apply Z.leb_le in H end.
  pose proof (days_in_month_le_31 y m) as H31.
  unfold strftime_ymd, four_digits.
  change (PyStr.strptime_ymd
            (String (digit_char (y / 1000))
               (String (digit_char (y / 100 mod 10))
                  (String (digit_char (y / 10 mod 10))
                     (String (digit_char (y mod 10))
                        (String "-" (two_digits m +:+ "-" +:+ two_digits d))))))
          = Ok (y, m, d)).
  cbn [PyStr.strptime_ymd].
  assert (0 ≤ y / 1000 ≤ 9).
  { split; [apply Z.div_pos; lia|]. assert (y / 1000 < 10); [|lia].
    apply Z.div_lt_upper_bound; lia. }
  pose proof (Z.mod_pos_bound (y / 100) 10 ltac:(lia)).
  pose proof (Z.mod_pos_bound (y / 10) 10 ltac:(lia)).
  pose proof (Z.mod_pos_bound y 10 ltac:(lia)).
  rewrite !digit_of_digit_char by lia.
  assert (Hyear : 1000 * (y / 1000) + 100 * (y / 100 mod 10)
                  + 10 * (y / 10 mod 10) + y mod 10 = y).
  { assert (H100 : y / 100 = y / 10 / 10) by (by rewrite Z.div_div by lia).
    assert (H1000 : y / 1000 = y / 10 / 10 / 10) by (by rewrite !Z.div_div by lia).
    rewrite H1000, H100.
    pose proof (Z.div_mod y 10 ltac:(lia)).
    pose proof (Z.div_mod (y / 10) 10 ltac:(lia)).
    pose proof (Z.div_mod (y / 10 / 10) 10 ltac:(lia)).
    lia. }
  cbv zeta. rewrite Hyear.
  rewrite match_month_two_digits by lia.
  change ("-" +:+ two_digits d) with (String "-" (two_digits d)). cbv iota beta.
  rewrite match_day_two_digits by lia.
  by rewrite Hvalid.
Qed.

(** 29 February 2024. *)
Lemma strptime_reads_strftime_witness :
  strftime_ymd 2024 2 29 = "2024-02-29"%string
  ∧ PyStr.strptime_ymd (strftime_ymd 2024 2 29) = Ok (2024, 2, 29).
Proof.
  split; [reflexivity|]. apply strptime_reads_strftime; [reflexivity|lia].
Defined.

(** ** More on the persistence store *)

Section StoreProperties.

Import DataManager.

Context {record : Type}.
Variable json_dump : list record → string.
Variable json_load : string → res (list record).

(** What a failed [save_data] leaves when there was no file to back up. *)
Lemma save_data_failure_fresh (w : world) (data_dir filename : string)
    (data : list record) (fault : write_fault) :
  let file_path := _get_file_path data_dir filename in
  let backup_path := backup_path_of file_path in
  fault ≠ NoFault →
  files w !! file_path = None →
  ∃ w',
    save_data json_dump fault data_dir filename data w = (w', Ok false)
    ∧ files w' =
        match files w !! backup_path, fault with
        | Some stale, _ => <[file_path := stale]> (delete backup_path (files w))
        | None, FailPartial written => <[file_path := written]> (files w)
        | None, _ => files w
        end.
Proof.
  intros file_path backup_path Hfault Hfile.
  pose proof (backup_path_ne file_path) as Hne. fold backup_path in Hne.
  unfold save_data, save_data_try, save_data_except, mbind, io_bind, mret, io_ret,
    path_exists, os_replace, os_remove, write_text, log, stored.
  fold file_path backup_path. cbn.
  rewrite !is_Some_lookup_bool, Hfile. cbn.
  destruct fault as [| |written]; [done| |]; cbn; rewrite !is_Some_lookup_bool.
  - destruct (files w !! backup_path) as [stale|] eqn:Hb; cbn; [rewrite Hb|];
      (eexists; split; [reflexivity|done]).
  - rewrite lookup_insert_ne by done.
    destruct (files w !! backup_path) as [stale|] eqn:Hb; cbn.
    + rewrite lookup_insert_ne, Hb by done.
      eexists. split; [reflexivity|]. cbn.
      apply map_eq. intros p.
      destruct (decide (p = file_path)) as [->|Hp]; [by rewrite !lookup_insert_eq|].
      rewrite !lookup_insert_ne by done.
      destruct (decide (p = backup_path)) as [->|Hpb]; [by rewrite !lookup_delete_eq|].
      by rewrite !lookup_delete_ne, lookup_insert_ne by done.
    + eexists. split; [reflexivity|done].
Qed.

(** [save_data] touches the file of the collection and its backup, and no
    other path, whether the write completes or not. *)
Theorem save_data_leaves_other_files (w : world) (data_dir filename : string)
    (data : list record) (fault : write_fault) (path : string) :
  let file_path := _get_file_path data_dir filename in
  let backup_path := backup_path_of file_path in
  path ≠ file_path → path ≠ backup_path →
  files (save_data json_dump fault data_dir filename data w).1 !! path
  = files w !! path.
Proof.
  intros file_path backup_path Hp Hpb.
  assert (Hcases : fault = NoFault ∨ fault ≠ NoFault)
    by (destruct fault; [by left|by right..]).
  destruct Hcases as [->|Hfault].
  - destruct (save_data_success json_dump w data_dir filename data)
      as (w' & Hrun & Hfiles & _).
    rewrite Hrun. cbn [fst]. rewrite Hfiles. fold file_path backup_path.
    by rewrite lookup_insert_ne, lookup_delete_ne.
  - destruct (files w !! file_path) as [old|] eqn:Hfile.
    + destruct (save_data_failure json_dump w data_dir filename data fault Hfault)
        as (w' & Hrun & Hrestore).
      destruct (Hrestore old Hfile) as [Hfiles _].
      assert (Hrun' : save_data json_dump fault data_dir filename data w = (w', Ok false))
        by exact Hrun.
      rewrite Hrun'. cbn [fst]. rewrite Hfiles. fold file_path backup_path.
      by rewrite lookup_insert_ne, lookup_delete_ne.
    + destruct (save_data_failure_fresh w data_dir filename data fault Hfault Hfile)
        as (w' & Hrun & Hfiles).
      assert (Hrun' : save_data json_dump fault data_dir filename data w = (w', Ok false))
        by exact Hrun.
      rewrite Hrun'. cbn [fst]. rewrite Hfiles. fold file_path backup_path.
      destruct (files w !! backup_path), fault;
        by rewrite ?lookup_insert_ne, ?lookup_delete_ne.
Qed.

(** A failed save of a collection that was never stored does not restore
    an absence: what a failed write left of the file stays, and a backup
    left over from an earlier crash becomes the file. What [load_data]
    returns afterwards is read from that text. *)
Theorem failed_first_save (w : world) (data_dir filename : string)
    (data : list record) (fault : write_fault) :
  let file_path := _get_file_path data_dir filename in
  let backup_path := backup_path_of file_path in
  fault ≠ NoFault →
  files w !! file_path = None →
  ∃ w',
    save_data json_dump fault data_dir filename data w = (w', Ok false)
    ∧ files w' !! backup_path = None
    ∧ files w' !! file_path =
        match files w !! backup_path, fault with
        | Some stale, _ => Some stale
        | None, FailPartial written => Some written
        | None, _ => None
        end
    ∧ load_data json_load data_dir filename w' =
        match files w !! backup_path, fault with
        | Some text, _ | None, FailPartial text =>
            match json_load text with Ok old => old | Raise _ => [] end
        | None, _ => []
        end.
Proof.
  intros file_path backup_path Hfault Hfile.
  pose proof (backup_path_ne file_path) as Hne. fold backup_path in Hne.
  destruct (save_data_failure_fresh w data_dir filename data fault Hfault Hfile)
    as (w' & Hrun & Hfiles).
  exists w'. split; [exact Hrun|]. fold file_path backup_path in Hfiles.
  unfold load_data. fold file_path. rewrite Hfiles.
  destruct (files w !! backup_path) as [stale|] eqn:Hb.
  - rewrite lookup_insert_ne, lookup_delete_eq, lookup_insert_eq by done. done.
  - destruct fault as [| |written]; [done|by rewrite Hb, Hfile|].
    rewrite lookup_insert_ne, Hb, lookup_insert_eq by done. done.
Qed.

(** Two saves in a row. When both writes complete, the directory is the
    one the second save alone would have left; when the second write fails,
    it is the one the first save left. *)
Theorem save_data_twice (w : world) (data_dir filename : string)
    (first second : list record) (fault : write_fault) :
  let saved_first := (save_data json_dump NoFault data_dir filename first w).1 in
  files (save_data json_dump fault data_dir filename second saved_first).1
  = match fault with
    | NoFault => files (save_data json_dump NoFault data_dir filename second w).1
    | _ => files saved_first
    end.
Proof.
  intros saved_first.
  set (file_path := _get_file_path data_dir filename).
  set (backup_path := backup_path_of file_path).
  pose proof (backup_path_ne file_path) as Hne. fold backup_path in Hne.
  destruct (save_data_success json_dump w data_dir filename first)
    as (w1 & Hrun1 & Hfiles1 & _).
  fold file_path backup_path in Hfiles1.
  assert (Hw1 : saved_first = w1) by (unfold saved_first; by rewrite Hrun1).
  rewrite Hw1.
  assert (Hcases : fault = NoFault ∨ fault ≠ NoFault)
    by (destruct fault; [by left|by right..]).
  destruct Hcases as [->|Hfault].
  - destruct (save_data_success json_dump w1 data_dir filename second)
      as (w2 & Hrun2 & Hfiles2 & _).
    destruct (save_data_success json_dump w data_dir filename second)
      as (w2' & Hrun2' & Hfiles2' & _).
    rewrite Hrun2, Hrun2'. cbn [fst]. rewrite Hfiles2, Hfiles2', Hfiles1.
    fold file_path backup_path.
    apply map_eq. intros p.
    destruct (decide (p = file_path)) as [->|Hp]; [by rewrite !lookup_insert_eq|].
    rewrite !lookup_insert_ne by done.
    destruct (decide (p = backup_path)) as [->|Hpb]; [by rewrite !lookup_delete_eq|].
    by rewrite !lookup_delete_ne, lookup_insert_ne, lookup_delete_ne by done.
  - destruct (save_data_failure json_dump w1 data_dir filename second fault Hfault)
      as (w2 & Hrun2 & Hrestore).
    fold file_path backup_path in Hrestore.
    destruct (Hrestore (json_dump first)) as [Hfiles2 _].
    { rewrite Hfiles1. apply lookup_insert_eq. }
    assert (Hrun2' : save_data json_dump fault data_dir filename second w1 = (w2, Ok false))
      by exact Hrun2.
    rewrite Hrun2'. cbn [fst]. rewrite Hfiles2, Hfiles1.
    assert (Hgoal : <[file_path:=json_dump first]>
                      (delete backup_path
                         (<[file_path:=json_dump first]> (delete backup_path (files w))))
                    = <[file_path:=json_dump first]> (delete backup_path (files w))).
    { apply map_eq. intros p.
      destruct (decide (p = file_path)) as [->|Hp]; [by rewrite !lookup_insert_eq|].
      rewrite !lookup_insert_ne by done.
      destruct (decide (p = backup_path)) as [->|Hpb]; [by rewrite !lookup_delete_eq|].
      by rewrite !lookup_delete_ne, lookup_insert_ne, lookup_delete_ne by done. }
    destruct fault; [done|exact Hgoal..].
Qed.

End StoreProperties.

(** The study log of the sample directory survives a failed save of
    another log, and the targets beside it are not touched. *)
Lemma save_data_leaves_other_files_witness :
  DataManager.files
    (DataManager.save_data FlatJson.dump (DataManager.FailPartial "[")
       "data" "neet_study_data.json" sample_log sample_world_with_targets).1
    !! "data/weekly_targets.json"%string
  = Some "{}"%string.
Proof.
  rewrite (save_data_leaves_other_files FlatJson.dump sample_world_with_targets
             "data" "neet_study_data.json" sample_log (DataManager.FailPartial "[")
             "data/weekly_targets.json"); [reflexivity|..];
    vm_compute; discriminate.
Defined.

(** A first save into an empty directory that fails after the opening
    bracket leaves that bracket as the file, and the next load is empty. *)
Lemma failed_first_save_witness :
  ∃ w',
    DataManager.save_data FlatJson.dump (DataManager.FailPartial "[")
      "data" "neet_study_data.json" sample_log empty_world
    = (w', Ok false)
    ∧ DataManager.files w' !! "data/neet_study_data.json"%string = Some "["%string
    ∧ DataManager.load_data FlatJson.load "data" "neet_study_data.json" w' = [].
Proof.
  destruct (failed_first_save FlatJson.dump FlatJson.load empty_world
              "data" "neet_study_data.json" sample_log (DataManager.FailPartial "["))
    as (w' & Hrun & _ & Hfile & Hload); [done|reflexivity|].
  exists w'. split; [exact Hrun|]. split; [exact Hfile|exact Hload].
Defined.

(** ** The study log on one line *)

Section CompactJsonProperties.

Import FlatJson.

Lemma compact_member (fuel : nat) (kv : string * string) (rest : string) :
  members (S fuel) (NeetStore.dump_member kv +:+ rest)
  = match skip_ws rest with
    | String "," s4 =>
        match members fuel s4 with
        | Some (r, rest') => Some (kv :: r, rest')
        | None => None
        end
    | String "}" s4 => Some ([kv], s4)
    | _ => None
    end.
Proof.
  destruct kv as [k v]. unfold NeetStore.dump_member. cbn [fst snd members].
  rewrite !string_app_assoc.
  change (skip_ws (quote k +:+ ?s)) with (quote k +:+ s).
  rewrite string_literal_quote.
  change (skip_ws (": " +:+ quote v +:+ rest)) with (String ":" (" " +:+ quote v +:+ rest)).
  cbv iota beta.
  change (skip_ws (" " +:+ quote v +:+ rest)) with (quote v +:+ rest).
  by rewrite string_literal_quote.
Qed.

Lemma compact_members (r : record) (kv : string * string) (fuel : nat) (rest : string) :
  (length r < fuel)%nat →
  members fuel (join ", " (NeetStore.dump_member <$> kv :: r) +:+ "}" +:+ rest)
  = Some (kv :: r, rest).
Proof.
  revert kv fuel. induction r as [|kv' r IH]; intros kv fuel Hfuel.
  - destruct fuel as [|fuel]; [cbn in Hfuel; lia|].
    cbn [fmap list_fmap join]. by rewrite compact_member.
  - destruct fuel as [|fuel]; [cbn in Hfuel; lia|].
    change (join ", " (NeetStore.dump_member <$> kv :: kv' :: r))
      with (NeetStore.dump_member kv +:+ ", "
            +:+ join ", " (NeetStore.dump_member <$> kv' :: r)).
    rewrite !string_app_assoc. rewrite compact_member.
    change (skip_ws (", " +:+ ?s)) with (String "," (" " +:+ s)).
    cbv iota beta.
    assert (Hskip : ∀ s, members fuel (" " +:+ s) = members fuel s).
    { intros s. destruct fuel; reflexivity. }
    rewrite Hskip. rewrite IH by (cbn in Hfuel |- *; lia). done.
Qed.

Lemma compact_member_length (kv : string * string) :
  (0 < String.length (NeetStore.dump_member kv))%nat.
Proof.
  unfold NeetStore.dump_member, quote.
  change (0 < String.length (String dquote ((escape kv.1 +:+ String dquote EmptyString) +:+ ": " +:+ String dquote (escape kv.2 +:+ String dquote EmptyString))))%nat.
  cbn [String.length]. lia.
Qed.

Lemma compact_object (r : record) (rest : string) :
  object (NeetStore.dump_record r +:+ rest) = Some (r, rest).
Proof.
  destruct r as [|kv r]; [reflexivity|].
  unfold NeetStore.dump_record, object. rewrite !string_app_assoc.
  change (skip_ws ("{" +:+ ?s)) with (String "{" s).
  cbv iota beta.
  set (body := join ", " (NeetStore.dump_member <$> kv :: r)).
  assert (Hbody : ∃ s, body = String dquote s).
  { unfold body. cbn [fmap list_fmap]. destruct (NeetStore.dump_member <$> r).
    - eexists. reflexivity.
    - unfold join; fold join. unfold NeetStore.dump_member at 1.
      rewrite !string_app_assoc. eexists. reflexivity. }
  destruct Hbody as [s Hs]. rewrite Hs at 1.
  change (skip_ws (String dquote s +:+ ?t)) with (String dquote (s +:+ t)).
  cbv iota beta. unfold body.
  apply compact_members.
  rewrite !string_app_length.
  pose proof (join_length ", " (NeetStore.dump_member <$> kv :: r)) as Hlen.
  rewrite length_fmap in Hlen. cbn [length] in Hlen.
  assert (S (length r) ≤ String.length (join ", " (NeetStore.dump_member <$> kv :: r)))%nat.
  { apply Hlen. intros p (kv' & -> & _)%list_elem_of_fmap. apply compact_member_length. }
  lia.
Qed.

Lemma compact_record_length (r : record) :
  (0 < String.length (NeetStore.dump_record r))%nat.
Proof.
  unfold NeetStore.dump_record.
  change (0 < String.length (String "{" (join ", " (NeetStore.dump_member <$> r) +:+ "}")))%nat.
  cbn [String.length]. lia.
Qed.

Lemma compact_elements (data : list record) (r : record) (fuel : nat) (rest : string) :
  (length data < fuel)%nat →
  elements fuel (join ", " (NeetStore.dump_record <$> r :: data) +:+ "]" +:+ rest)
  = Some (r :: data, rest).
Proof.
  revert r fuel. induction data as [|r' data IH]; intros r fuel Hfuel.
  - destruct fuel as [|fuel]; [cbn in Hfuel; lia|].
    cbn [fmap list_fmap join elements]. by rewrite compact_object.
  - destruct fuel as [|fuel]; [cbn in Hfuel; lia|].
    change (join ", " (NeetStore.dump_record <$> r :: r' :: data))
      with (NeetStore.dump_record r +:+ ", "
            +:+ join ", " (NeetStore.dump_record <$> r' :: data)).
    rewrite !string_app_assoc. cbn [elements]. rewrite compact_object.
    change (skip_ws (", " +:+ ?s)) with (String "," (" " +:+ s)).
    cbv iota beta.
    assert (Hskip : ∀ s, elements fuel (" " +:+ s) = elements fuel s).
    { intros s. destruct fuel; reflexivity. }
    rewrite Hskip. rewrite IH by (cbn in Hfuel |- *; lia). done.
Qed.

(** [json.load] reads back what [json.dump] without indentation wrote. *)
Lemma load_compact_dump (data : list record) :
  load (NeetStore.dump data) = Ok data.
Proof.
  destruct data as [|r data]; [reflexivity|].
  unfold NeetStore.dump, load.
  change (skip_ws ("[" +:+ ?s)) with (String "[" s).
  cbv iota beta zeta.
  set (body := join ", " (NeetStore.dump_record <$> r :: data)).
  assert (Hbody : ∃ s, body = String "{" s).
  { unfold body. cbn [fmap list_fmap]. destruct (NeetStore.dump_record <$> data).
    - eexists. reflexivity.
    - unfold join; fold join. unfold NeetStore.dump_record at 1.
      rewrite ?string_app_assoc. eexists. reflexivity. }
  destruct Hbody as [s Hs].
  rewrite Hs at 1.
  change (skip_ws (String "{" s +:+ ?t)) with (String "{" (s +:+ t)).
  cbv iota beta.
  replace (body +:+ "]") with (body +:+ "]" +:+ EmptyString) by reflexivity.
  unfold body. rewrite compact_elements; [reflexivity|].
  rewrite !string_app_length.
  pose proof (join_length ", " (NeetStore.dump_record <$> r :: data)) as Hlen.
  rewrite length_fmap in Hlen. cbn [length] in Hlen.
  assert (S (length data)
          ≤ String.length (join ", " (NeetStore.dump_record <$> r :: data)))%nat.
  { apply Hlen. intros p (r' & -> & _)%list_elem_of_fmap. apply compact_record_length. }
  lia.
Qed.

End CompactJsonProperties.

(** The save button of the entry form: the entries are appended to the log
    of the session, the whole log is written, and the next session starts
    with it; no other file is touched, and without entries nothing is
    written. The application keeps no backup: when the write fails, the
    exception is raised with the session already extended, and what the
    write left replaces the log that was stored. *)
Theorem session_log_survives_restart (w : DataManager.world)
    (session entries : list FlatJson.record) :
  entries ≠ [] →
  (∃ w',
     NeetStore.save_study_entry DataManager.NoFault session entries w
     = (w', session ++ entries, Ok ())
     ∧ NeetStore.load_session w' = Ok (session ++ entries)
     ∧ ∀ path, path ≠ NeetStore.data_file →
         DataManager.files w' !! path = DataManager.files w !! path)
  ∧ (∀ fault, NeetStore.save_study_entry fault session [] w = (w, session, Ok ()))
  ∧ (∀ written, ∃ w',
       NeetStore.save_study_entry (DataManager.FailPartial written) session entries w
       = (w', session ++ entries, Raise OSError)
       ∧ DataManager.files w' !! NeetStore.data_file = Some written
       ∧ NeetStore.load_session w' = FlatJson.load written).
Proof.
  intros Hentries. split; [|split; [done|]].
  - unfold NeetStore.save_study_entry.
    destruct entries as [|e rest] eqn:He; [done|]. rewrite <- He.
    unfold NeetStore.save_data, DataManager.write_text. cbn.
    eexists. split; [reflexivity|]. unfold NeetStore.load_session. cbn.
    rewrite lookup_insert_eq. split; [apply load_compact_dump|].
    intros path Hpath. by rewrite lookup_insert_ne.
  - intros written. unfold NeetStore.save_study_entry.
    destruct entries as [|e rest] eqn:He; [done|]. rewrite <- He.
    unfold NeetStore.save_data, DataManager.write_text. cbn.
    eexists. split; [reflexivity|]. unfold NeetStore.load_session. cbn.
    by rewrite lookup_insert_eq.
Qed.

(** The sample log appended to a session that holds the sample record. *)
Lemma session_log_survives_restart_witness :
  ∃ w',
    NeetStore.save_study_entry DataManager.NoFault [sample_record] sample_log
      empty_world
    = (w', sample_record :: sample_log, Ok ())
    ∧ NeetStore.load_session w' = Ok (sample_record :: sample_log).
Proof.
  destruct (session_log_survives_restart empty_world [sample_record] sample_log)
    as ((w' & Hrun & Hload & _) & _); [done|].
  exists w'. split; [exact Hrun|exact Hload].
Defined.

(** ** The backup of the data directory *)

Lemma copy_each_spec (data_dir backup_dir timestamp : string) (listing : list string) :
  Backup.copy_each data_dir backup_dir timestamp listing
  = if existsb (λ filename, Backup.endswith filename ".json") listing
    then Raise AttributeError else Ok ().
Proof.
  induction listing as [|filename rest IH]; [done|].
  cbn [Backup.copy_each existsb].
  destruct (Backup.endswith filename ".json"); [done|]. exact IH.
Qed.

(** [backup_data] never copies a file: it returns true only when the data
    directory lists no name that ends in [.json], and false as soon as
    there is one, having at most created the directory of the backups. *)
Theorem backup_data_copies_nothing (data_dir timestamp : string)
    (backup_dir_exists : bool) (listing : list string) :
  Backup.backup_data data_dir timestamp backup_dir_exists (Ok ()) (Ok listing)
  = (if backup_dir_exists then []
     else [DataManager.os_path_join data_dir "backups"],
     negb (existsb (λ filename, Backup.endswith filename ".json") listing))
  ∧ (∀ filename,
       filename ∈ listing → Backup.endswith filename ".json" = true →
       (Backup.backup_data data_dir timestamp backup_dir_exists (Ok ()) (Ok listing)).2
       = false).
Proof.
  assert (Hrun :
    Backup.backup_data data_dir timestamp backup_dir_exists (Ok ()) (Ok listing)
    = (if backup_dir_exists then []
       else [DataManager.os_path_join data_dir "backups"],
       negb (existsb (λ filename, Backup.endswith filename ".json") listing))).
  { unfold Backup.backup_data. cbn. rewrite copy_each_spec.
    by destruct backup_dir_exists, (existsb _ listing). }
  split; [exact Hrun|]. intros filename Hin Hjson. rewrite Hrun. cbn [snd].
  apply negb_false_iff, existsb_exists. exists filename.
  split; [by apply list_elem_of_In|done].
Qed.

(** A data directory that holds the study log and the backups. *)
Lemma backup_data_copies_nothing_witness :
  Backup.backup_data "data" "20250305_103000" true (Ok ())
    (Ok ["backups"; "neet_study_data.json"]%string)
  = ([], false).
Proof.
  destruct (backup_data_copies_nothing "data" "20250305_103000" true
              ["backups"; "neet_study_data.json"]%string) as [Hrun _].
  rewrite Hrun. reflexivity.
Defined.

(** ** The management of the accounts *)

Section AccountProperties.

Import AuthManager.

Variable _hash_password : string → string.

(** A new account authenticates with its password from the moment it is
    in the account map, also when [_save_users] failed and [create_user]
    reported the failure; another password is refused, and the name cannot
    be created a second time. *)
Theorem created_user_authenticates (now : Z) (saved : bool)
    (users : gmap string user) (username pw mail : string) :
  users !! username = None →
  let account := mk_user (_hash_password pw) mail now None 0 None in
  let users' := <[username := account]> users in
  Accounts.create_user _hash_password now saved users username pw mail
  = (users', if saved then (true, "User created successfully"%string)
             else (false, "Error saving user data"%string))
  ∧ (∀ later,
       authenticate_user _hash_password later users' username pw
       = (<[username := set_last_login (Some later) account]> users',
          (true, msg_success, Some (mk_token username (later + days 1)))))
  ∧ (∀ later other,
       _hash_password other ≠ _hash_password pw →
       authenticate_user _hash_password later users' username other
       = (<[username := set_failed_attempts 1 account]> users',
          (false, msg_invalid, None)))
  ∧ (∀ now' saved' pw' mail',
       Accounts.create_user _hash_password now' saved' users' username pw' mail'
       = (users', (false, "Username already exists"%string))).
Proof.
  intros Hfresh account users'. split; [|split; [|split]].
  - unfold Accounts.create_user. by rewrite Hfresh.
  - intros later.
    by rewrite (authenticate_success _ later users' username account)
      by (try apply lookup_insert_eq; done).
  - intros later other Hother.
    by rewrite (authenticate_failure_counted _ later users' username account)
      by (try apply lookup_insert_eq; done).
  - intros now' saved' pw' mail'. unfold Accounts.create_user, users'.
    by rewrite lookup_insert_eq.
Qed.

(** The end of a lock does not reset the count of failed attempts: on an
    account whose lock has run out, the first wrong password locks it
    again for 30 minutes, while the right password succeeds and resets the
    count. *)
Theorem expired_lock_relocks (now t : Z) (users : gmap string user)
    (username pw : string) (a : user) :
  users !! username = Some a →
  locked_until a = Some t → t ≤ now →
  4 ≤ failed_attempts a →
  authenticate_user _hash_password now users username pw
  = if String.eqb (password a) (_hash_password pw) then
      (<[username := set_last_login (Some now) (set_failed_attempts 0 a)]> users,
       (true, msg_success, Some (mk_token username (now + days 1))))
    else
      (<[username := set_locked_until (Some (now + minutes 30))
                       (set_failed_attempts (failed_attempts a + 1) a)]> users,
       (false, msg_locked_now, None)).
Proof.
  intros Hu Hlock Ht Hfa.
  assert (Hl : is_locked a now = false).
  { unfold is_locked. rewrite Hlock. apply Z.ltb_ge. lia. }
  destruct (String.eqb_spec (password a) (_hash_password pw)) as [Heq|Hne].
  - by apply authenticate_success.
  - apply authenticate_failure_locks; [done|done|congruence|lia].
Qed.

Lemma authenticate_all_locked (users : gmap string user) (username : string)
    (a : user) (calls : list (Z * string)) :
  users !! username = Some a →
  Forall (λ call, is_locked a call.1 = true) calls →
  authenticate_all _hash_password users username calls
  = (users, (λ _, (false, msg_locked, None)) <$> calls).
Proof.
  intros Hu. induction calls as [|[now pw] calls IH]; intros Hall; [done|].
  apply Forall_cons in Hall as [Hnow Hall]. cbn [authenticate_all].
  rewrite (authenticate_locked _ now users username a pw Hu Hnow).
  by rewrite (IH Hall).
Qed.

Lemma authenticate_all_unknown (users : gmap string user) (username : string)
    (calls : list (Z * string)) :
  users !! username = None →
  authenticate_all _hash_password users username calls
  = (users, (λ _, (false, msg_invalid, None)) <$> calls).
Proof.
  intros Hu. induction calls as [|[now pw] calls IH]; [done|].
  cbn [authenticate_all]. unfold authenticate_user at 1. rewrite Hu.
  by rewrite IH.
Qed.

(** Calls on a locked account, and calls for a name that has no account,
    change nothing, however many they are and whatever the passwords: the
    attempts made during a lock are not counted and do not extend it. *)
Theorem refused_calls_change_nothing (users : gmap string user)
    (username : string) (calls : list (Z * string)) :
  (∀ a, users !! username = Some a →
        Forall (λ call, is_locked a call.1 = true) calls →
        authenticate_all _hash_password users username calls
        = (users, (λ _, (false, msg_locked, None)) <$> calls))
  ∧ (users !! username = None →
     authenticate_all _hash_password users username calls
     = (users, (λ _, (false, msg_invalid, None)) <$> calls)).
Proof.
  split.
  - intros a. apply authenticate_all_locked.
  - apply authenticate_all_unknown.
Qed.

(** [authenticate_user] neither adds nor removes an account, leaves the
    other accounts as they are, and never changes the password hash, the
    e-mail address or the creation time of the account it is called for. *)
Theorem authenticate_preserves_accounts (now : Z) (users : gmap string user)
    (username pw : string) :
  let users' := (authenticate_user _hash_password now users username pw).1 in
  dom users' = dom users
  ∧ (∀ other, other ≠ username → users' !! other = users !! other)
  ∧ (∀ a, users !! username = Some a →
       ∃ a', users' !! username = Some a'
             ∧ password a' = password a ∧ email a' = email a
             ∧ created_at a' = created_at a).
Proof.
  intros users'. unfold users', authenticate_user.
  destruct (users !! username) as [a|] eqn:Hu; [|done].
  assert (Hdom : ∀ a', dom (<[username := a']> users) = dom users).
  { intros a'. rewrite dom_insert_L.
    assert (Hin : username ∈ dom users) by (apply elem_of_dom; by eexists).
    apply set_eq. intros x. rewrite elem_of_union, elem_of_singleton.
    split; [intros [-> | Hx]; done|intros Hx; by right]. }
  destruct (is_locked a now).
  { split; [done|]. split; [done|]. intros ? [= <-]. by exists a. }
  destruct (negb (password a =? _hash_password pw)%string).
  - cbv zeta. destruct (5 <=? _); cbn [fst];
      (split; [apply Hdom|]);
      (split; [intros other Ho; by rewrite lookup_insert_ne|]);
      intros ? [= <-]; eexists; (split; [apply lookup_insert_eq|done]).
  - cbn [fst]. split; [apply Hdom|].
    split; [intros other Ho; by rewrite lookup_insert_ne|].
    intros ? [= <-]. eexists. split; [apply lookup_insert_eq|done].
Qed.

(** [change_password] asks for the current password and changes nothing
    without it. With it, the hash is replaced and nothing else: the lock
    and the count of failed attempts stay, so the password of a locked
    account can be changed but the account stays locked. Afterwards the new
    password authenticates whenever the account is not locked, and the old
    one no longer does. *)
Theorem change_password_keeps_lock (saved : bool) (users : gmap string user)
    (username old_password new_password : string) (a : user) :
  users !! username = Some a →
  let changed := Accounts.set_password (_hash_password new_password) a in
  let users' := <[username := changed]> users in
  (_hash_password old_password ≠ password a →
   Accounts.change_password _hash_password saved users username
     old_password new_password
   = (users, (false, "Invalid current password"%string)))
  ∧ (_hash_password old_password = password a →
     Accounts.change_password _hash_password saved users username
       old_password new_password
     = (users', if saved then (true, "Password changed successfully"%string)
                else (false, "Error saving password"%string))
     ∧ failed_attempts changed = failed_attempts a
     ∧ locked_until changed = locked_until a
     ∧ (∀ now, is_locked a now = true →
          authenticate_user _hash_password now users' username new_password
          = (users', (false, msg_locked, None)))
     ∧ (∀ now, is_locked a now = false →
          authenticate_user _hash_password now users' username new_password
          = (<[username := set_last_login (Some now) (set_failed_attempts 0 changed)]>
               users',
             (true, msg_success, Some (mk_token username (now + days 1)))))
     ∧ (∀ now, _hash_password old_password ≠ _hash_password new_password →
          (authenticate_user _hash_password now users' username old_password).2.1.1
          = false)).
Proof.
  intros Hu changed users'. split.
  - intros Hold. unfold Accounts.change_password. rewrite Hu.
    assert ((password a =? _hash_password old_password)%string = false) as ->
      by (apply String.eqb_neq; congruence).
    reflexivity.
  - intros Hold.
    assert (Hu' : users' !! username = Some changed) by apply lookup_insert_eq.
    split; [|split; [done|split; [done|split; [|split]]]].
    + unfold Accounts.change_password. rewrite Hu.
      assert ((password a =? _hash_password old_password)%string = true) as ->
        by (apply String.eqb_eq; congruence).
      reflexivity.
    + intros now Hl. by apply (authenticate_locked _ now users' username changed).
    + intros now Hl. by apply authenticate_success.
    + intros now Hne.
      destruct (is_locked changed now) eqn:Hl.
      * by rewrite (authenticate_locked _ now users' username changed).
      * rewrite (authenticate_wrong_password _ now users' username changed)
          by (try done; cbn; congruence).
        by destruct (5 <=? _).
Qed.

(** [reset_password] asks for the e-mail address of the account and
    changes nothing without it. With it, the password becomes the
    temporary one, which is returned when the map was saved; the lock and
    the count of failed attempts stay, so a reset does not unlock. As
    [update_user_profile] sets the address without asking for a password, a
    reset with an address set that way goes through. *)
Theorem reset_password_keeps_lock (saved : bool) (temp_password : string)
    (users : gmap string user) (username mail : string) (a : user) :
  users !! username = Some a →
  let reset := Accounts.set_password (_hash_password temp_password) a in
  let users' := <[username := reset]> users in
  (mail ≠ email a →
   Accounts.reset_password _hash_password saved temp_password users username mail
   = (users, (false, "Invalid email address"%string)))
  ∧ (mail = email a →
     Accounts.reset_password _hash_password saved temp_password users username mail
     = (users', if saved then (true, temp_password)
                else (false, "Error resetting password"%string))
     ∧ (∀ now, is_locked a now = true →
          authenticate_user _hash_password now users' username temp_password
          = (users', (false, msg_locked, None)))
     ∧ (∀ now, is_locked a now = false →
          (authenticate_user _hash_password now users' username temp_password).2
          = (true, msg_success, Some (mk_token username (now + days 1)))))
  ∧ (∀ saved' address,
       let updated := (Accounts.update_user_profile saved' users username address).1 in
       updated = <[username := Accounts.set_email address a]> users
       ∧ (Accounts.reset_password _hash_password true temp_password
            updated username address).2
         = (true, temp_password)).
Proof.
  intros Hu reset users'. split; [|split].
  - intros Hmail. unfold Accounts.reset_password. rewrite Hu.
    assert ((email a =? mail)%string = false) as ->
      by (apply String.eqb_neq; congruence).
    reflexivity.
  - intros Hmail.
    assert (Hu' : users' !! username = Some reset) by apply lookup_insert_eq.
    split; [|split].
    + unfold Accounts.reset_password. rewrite Hu.
      assert ((email a =? mail)%string = true) as ->
        by (apply String.eqb_eq; congruence).
      reflexivity.
    + intros now Hl. by apply (authenticate_locked _ now users' username reset).
    + intros now Hl.
      by rewrite (authenticate_success _ now users' username reset).
  - intros saved' address updated.
    assert (Hupdated : updated = <[username := Accounts.set_email address a]> users).
    { unfold updated, Accounts.update_user_profile. by rewrite Hu. }
    split; [exact Hupdated|]. rewrite Hupdated.
    unfold Accounts.reset_password. rewrite lookup_insert_eq. cbn [email Accounts.set_email].
    by rewrite String.eqb_refl.
Qed.

(** A deleted account is gone: authentication is refused with the message
    for an unknown name, [get_user_info] finds nothing, the name can be
    created again, and the other accounts are as before. *)
Theorem deleted_user_is_unknown (saved : bool) (users : gmap string user)
    (username : string) (a : user) :
  users !! username = Some a →
  let users' := delete username users in
  Accounts.delete_user saved users username
  = (users', if saved then (true, "User deleted successfully"%string)
             else (false, "Error deleting user"%string))
  ∧ (∀ now pw,
       authenticate_user _hash_password now users' username pw
       = (users', (false, msg_invalid, None)))
  ∧ Accounts.get_user_info users' username = None
  ∧ (∀ now pw mail,
       (Accounts.create_user _hash_password now true users' username pw mail).2
       = (true, "User created successfully"%string))
  ∧ (∀ other, other ≠ username →
       Accounts.get_user_info users' other = Accounts.get_user_info users other)
  ∧ (∀ saved', Accounts.delete_user saved' users' username
               = (users', (false, "User not found"%string))).
Proof.
  intros Hu users'.
  assert (Hgone : users' !! username = None) by apply lookup_delete_eq.
  split; [|split; [|split; [|split; [|split]]]].
  - unfold Accounts.delete_user. by rewrite Hu.
  - intros now pw. unfold authenticate_user. by rewrite Hgone.
  - unfold Accounts.get_user_info. by rewrite Hgone.
  - intros now pw mail. unfold Accounts.create_user. by rewrite Hgone.
  - intros other Hother. unfold Accounts.get_user_info, users'.
    by rewrite lookup_delete_ne.
  - intros saved'. unfold Accounts.delete_user. by rewrite Hgone.
Qed.

End AccountProperties.

(** A second account is created while the file cannot be written, and
    logs in. *)
Lemma created_user_authenticates_witness :
  (Accounts.create_user sample_hash 2000 false sample_users
     "ravi" "tiger" "ravi@example.org").2
  = (false, "Error saving user data"%string)
  ∧ (AuthManager.authenticate_user sample_hash 3000
       (Accounts.create_user sample_hash 2000 false sample_users
          "ravi" "tiger" "ravi@example.org").1
       "ravi" "tiger").2.1
    = (true, AuthManager.msg_success).
Proof.
  destruct (created_user_authenticates sample_hash 2000 false sample_users
              "ravi" "tiger" "ravi@example.org" eq_refl) as (Hrun & Hlogin & _).
  rewrite Hrun. cbn [fst snd]. split; [reflexivity|].
  by rewrite Hlogin.
Defined.

(** One wrong password after the lock has run out. *)
Lemma expired_lock_relocks_witness :
  (AuthManager.authenticate_user sample_hash 6000 locked_users "asha" "guess").2
  = (false, AuthManager.msg_locked_now, None)
  ∧ (AuthManager.authenticate_user sample_hash 6000 locked_users "asha" "guess").1
    !! "asha"%string
    = Some (AuthManager.set_locked_until (Some (6000 + AuthManager.minutes 30))
              (AuthManager.set_failed_attempts 6 locked_account)).
Proof.
  rewrite (expired_lock_relocks sample_hash 6000 5000 locked_users "asha" "guess"
             locked_account eq_refl eq_refl); [|lia|cbn; lia].
  split; [reflexivity|]. cbn [fst String.eqb]. vm_compute. reflexivity.
Defined.

(** Three calls while the sample account is locked, the last with the
    right password. *)
Lemma refused_calls_change_nothing_witness :
  AuthManager.authenticate_all sample_hash locked_users "asha"
    [(1000, "guess"); (2000, "guess again"); (4999, "correct horse")]%string
  = (locked_users,
     [(false, AuthManager.msg_locked, None); (false, AuthManager.msg_locked, None);
      (false, AuthManager.msg_locked, None)]).
Proof.
  destruct (refused_calls_change_nothing sample_hash locked_users "asha"
              [(1000, "guess"); (2000, "guess again"); (4999, "correct horse")]%string)
    as [Hlocked _].
  rewrite (Hlocked locked_account eq_refl); [reflexivity|].
  repeat constructor.
Defined.

(** The password of the locked sample account is changed; the account is
    still locked. *)
Lemma change_password_keeps_lock_witness :
  (Accounts.change_password sample_hash true locked_users "asha"
     "correct horse" "battery staple").2
  = (true, "Password changed successfully"%string)
  ∧ AuthManager.authenticate_user sample_hash 4000
      (Accounts.change_password sample_hash true locked_users "asha"
         "correct horse" "battery staple").1
      "asha" "battery staple"
    = ((Accounts.change_password sample_hash true locked_users "asha"
          "correct horse" "battery staple").1,
       (false, AuthManager.msg_locked, None)).
Proof.
  destruct (change_password_keeps_lock sample_hash true locked_users "asha"
              "correct horse" "battery staple" locked_account eq_refl)
    as [_ Hright].
  destruct (Hright eq_refl) as (Hrun & _ & _ & Hlocked & _).
  rewrite Hrun. cbn [fst snd]. split; [reflexivity|].
  apply Hlocked. reflexivity.
Defined.

(** A reset of the sample account with its address. *)
Lemma reset_password_keeps_lock_witness :
  (Accounts.reset_password sample_hash true "Zk3-temp" sample_users
     "asha" "asha@example.org").2
  = (true, "Zk3-temp"%string)
  ∧ (Accounts.reset_password sample_hash true "Zk3-temp" sample_users
       "asha" "someone@example.org")
    = (sample_users, (false, "Invalid email address"%string)).
Proof.
  destruct (reset_password_keeps_lock sample_hash true "Zk3-temp" sample_users
              "asha" "asha@example.org" sample_account eq_refl)
    as (_ & Hright & _).
  destruct (Hright eq_refl) as (Hrun & _).
  rewrite Hrun. split; [reflexivity|].
  destruct (reset_password_keeps_lock sample_hash true "Zk3-temp" sample_users
              "asha" "someone@example.org" sample_account eq_refl)
    as (Hwrong & _).
  apply Hwrong. discriminate.
Defined.

(** The sample account is deleted. *)
Lemma deleted_user_is_unknown_witness :
  Accounts.delete_user true sample_users "asha"
  = (delete "asha"%string sample_users, (true, "User deleted successfully"%string))
  ∧ AuthManager.authenticate_user sample_hash 2000
      (delete "asha"%string sample_users) "asha" "correct horse"
    = (delete "asha"%string sample_users, (false, AuthManager.msg_invalid, None)).
Proof.
  destruct (deleted_user_is_unknown sample_hash true sample_users "asha"
              sample_account eq_refl) as (Hrun & Hlogin & _).
  split; [exact Hrun|apply Hlogin].
Defined.

(** ** The weekly timetable *)












(** ** Scheduled notifications *)

Section Notifications.

Import NotificationManager.

Lemma list_remove_app (x : notification) (kept rest : list notification) :
  Forall (λ y, y ≠ x) kept →
  list_remove x (kept ++ x :: rest) = Ok (kept ++ rest).
Proof.
  induction kept as [|y kept IH]; intros Hall.
  - cbn. by rewrite decide_True.
  - apply Forall_cons in Hall as [Hy Hall]. cbn [app list_remove].
    rewrite decide_False by done. by rewrite (IH Hall).
Qed.

Lemma process_each_spec (current_time : Z) (copy kept sent : list notification) :
  Forall (λ n, current_time < scheduled_time n) kept →
  process_each current_time copy (kept ++ copy) sent
  = Ok (kept ++ filter (λ n, current_time < scheduled_time n) copy,
        sent ++ filter (λ n, scheduled_time n ≤ current_time) copy).
Proof.
  revert kept sent. induction copy as [|n copy IH]; intros kept sent Hkept.
  - cbn. by rewrite !app_nil_r.
  - cbn [process_each]. rewrite !filter_cons.
    destruct (Z.leb_spec (scheduled_time n) current_time) as [Hdue|Hlater].
    + rewrite list_remove_app.
      2:{ eapply Forall_impl; [exact Hkept|]. intros y Hy ->. lia. }
      cbn. rewrite (IH kept (sent ++ [n]) Hkept).
      rewrite decide_False by lia. rewrite decide_True by lia.
      by rewrite <- app_assoc.
    + replace (kept ++ n :: copy) with ((kept ++ [n]) ++ copy)
        by (by rewrite <- app_assoc).
      rewrite (IH (kept ++ [n]) sent).
      2:{ apply Forall_app. split; [exact Hkept|]. by constructor. }
      rewrite decide_True by lia. rewrite decide_False by lia.
      by rewrite <- app_assoc.
Qed.

(** A pass over the queue never raises: it hands the notifications that
    are due to [_send_notification], in the order of the queue, and keeps
    the others in their order. A notification is removed whether it was
    sent or not, and equal notifications are each sent. *)
Theorem process_queue_sends_what_is_due (current_time : Z)
    (queue : list notification) :
  _process_notification_queue current_time queue
  = Ok (filter (λ n, current_time < scheduled_time n) queue,
        filter (λ n, scheduled_time n ≤ current_time) queue).
Proof.
  unfold _process_notification_queue.
  apply (process_each_spec current_time queue [] []). constructor.
Qed.

End Notifications.

Lemma process_queue_sends_what_is_due_witness :
  NotificationManager._process_notification_queue 500 sample_queue
  = Ok (filter (λ n, 500 < NotificationManager.scheduled_time n) sample_queue,
        filter (λ n, NotificationManager.scheduled_time n ≤ 500) sample_queue)
  ∧ length (filter (λ n, NotificationManager.scheduled_time n ≤ 500) sample_queue)
    = 2%nat.
Proof.
  split; [apply process_queue_sends_what_is_due|reflexivity].
Defined.

Section Reminders.

Import NotificationManager.

Lemma day_of_add (t k : Z) :
  NeetProgress.day_of (t + k * NeetProgress.day_us) = NeetProgress.day_of t + k.
Proof. unfold NeetProgress.day_of. apply Z.div_add. pose proof day_us_pos. lia. Qed.



(** The weekly summary is queued for the Sunday of the current week at
    20:00, today when today is a Sunday. That time is not always ahead: on
    a Sunday from 20:00 on it has passed, and the summary is due at once. *)
Theorem weekly_summary_is_sunday_evening (now : Z) (queue : list notification)
    (user_email message : string) :
  ∃ t,
    schedule_weekly_summary now queue user_email (Ok message)
    = (queue ++ [mk_notification user_email "Weekly Study Summary" message t],
       true)
    ∧ weekday (NeetProgress.day_of t) = 6
    ∧ t mod NeetProgress.day_us = 20 * 3600 * 1000000
    ∧ NeetProgress.day_of now ≤ NeetProgress.day_of t ≤ NeetProgress.day_of now + 6
    ∧ (t ≤ now ↔ weekday (NeetProgress.day_of now) = 6
                 ∧ 20 * 3600 * 1000000 ≤ now mod NeetProgress.day_us).
Proof.
  pose proof day_us_pos as HD.
  pose proof (Z.mod_pos_bound now NeetProgress.day_us HD) as Htod.
  pose proof (Z.div_mod now NeetProgress.day_us ltac:(lia)) as Hnow.
  fold (NeetProgress.day_of now) in Hnow.
  pose proof (weekday_range (NeetProgress.day_of now)) as Hwd.
  set (today := NeetProgress.day_of now) in *.
  assert (Hk : (6 - weekday today) mod 7 = 6 - weekday today)
    by (apply Z.mod_small; lia).
  unfold schedule_weekly_summary. fold today. rewrite Hk.
  unfold replace_time. cbn [andb Z.leb Z.compare]. rewrite day_of_add. fold today.
  cbn.
  set (t := (today + (6 - weekday today)) * NeetProgress.day_us + 72000000000).
  assert (Ht : t = 72000000000 + (today + (6 - weekday today)) * NeetProgress.day_us)
    by (unfold t; lia).
  assert (Hday : NeetProgress.day_of t = today + (6 - weekday today)).
  { unfold NeetProgress.day_of. rewrite Ht, Z.div_add by lia.
    rewrite Z.div_small by (unfold NeetProgress.day_us; lia). lia. }
  exists t. split; [done|]. split; [|split; [|split]].
  - rewrite Hday. unfold weekday at 1.
    assert (Hw : ∃ q, today + 6 = 7 * q + weekday today).
    { exists ((today + 6) / 7). unfold weekday. apply Z.div_mod. lia. }
    destruct Hw as [q Hq].
    replace (today + (6 - weekday today) + 6) with (6 + q * 7) by lia.
    by rewrite Z.mod_add by lia.
  - rewrite Ht, Z.mod_add by lia. apply Z.mod_small. unfold NeetProgress.day_us. lia.
  - rewrite Hday. lia.
  - unfold t. unfold NeetProgress.day_us in *. split.
    + intros Hle. assert (weekday today = 6) by nia. split; [done|]. nia.
    + intros [Hsun Hlate]. rewrite Hsun. nia.
Qed.

End Reminders.


(** ** The settings *)

Section Settings.

Import SettingsManager.

Lemma split_from_nonempty (sep : ascii) (cur s : string) :
  PyText.split_from sep cur s ≠ [].
Proof.
  revert cur. induction s as [|c s IH]; intros cur; [done|].
  cbn [PyText.split_from]. destruct (Ascii.eqb c sep); [done|apply IH].
Qed.

Lemma dict_get_set (d : list (string * json)) (key : string) (value : json) :
  dict_get (dict_set d key value) key = Some value.
Proof.
  induction d as [|[k v] d IH]; cbn.
  - by rewrite String.eqb_refl.
  - destruct (String.eqb k key) eqn:Hk; cbn; by rewrite Hk.
Qed.

Lemma dict_get_set_ne (d : list (string * json)) (key other : string) (value : json) :
  other ≠ key → dict_get (dict_set d key value) other = dict_get d other.
Proof.
  intros Hne. induction d as [|[k v] d IH]; cbn.
  - by destruct (String.eqb_spec key other) as [->|].
  - destruct (String.eqb_spec k key) as [->|Hk]; cbn.
    + by destruct (String.eqb_spec key other) as [->|].
    + by rewrite IH.
Qed.

Lemma get_in_app (keys1 keys2 : list string) (value : json) :
  get_in (keys1 ++ keys2) value = (v ← get_in keys1 value; get_in keys2 v).
Proof.
  revert value. induction keys1 as [|k keys1 IH]; intros value; [done|].
  cbn [app get_in]. destruct (getitem value k); cbn; [apply IH|done].
Qed.

Lemma get_in_set_in (init : list string) (last : string) (value current updated : json) :
  set_in init last value current = Ok updated →
  get_in (init ++ [last]) updated = Ok value.
Proof.
  revert current updated. induction init as [|key init IH]; intros current updated Hset.
  - destruct current; try discriminate. injection Hset as <-.
    cbn. by rewrite dict_get_set.
  - cbn [set_in] in Hset. destruct current as [| | | | | |d]; try discriminate.
    cbv zeta in Hset.
    destruct (set_in init last value _) as [child'|e] eqn:Hchild; [|discriminate].
    injection Hset as <-. cbn [app get_in getitem]. rewrite dict_get_set. cbn.
    by apply (IH _ _ Hchild).
Qed.

Lemma getitem_set_in_ne (init : list string) (last other : string)
    (value current updated : json) :
  set_in init last value current = Ok updated →
  head (init ++ [last]) ≠ Some other →
  getitem updated other = getitem current other.
Proof.
  intros Hset Hne. destruct init as [|key init].
  - destruct current; try discriminate. injection Hset as <-.
    cbn. rewrite dict_get_set_ne; [done|]. intros ->. by apply Hne.
  - cbn [set_in] in Hset. destruct current as [| | | | | |d]; try discriminate.
    cbv zeta in Hset.
    destruct (set_in init last value _) as [child'|e]; [|discriminate].
    injection Hset as <-. cbn. rewrite dict_get_set_ne; [done|].
    intros ->. by apply Hne.
Qed.

Lemma get_setting_returns (settings : json) (key_path : string) :
  ∃ v, get_setting settings key_path = Ok v.
Proof.
  unfold get_setting.
  assert (Hraise : ∀ keys v e, get_in keys v = Raise e → e = KeyError ∨ e = TypeError).
  { induction keys as [|k keys IH]; intros v e; [done|]. cbn [get_in].
    unfold getitem. destruct v as [| | | | | |d]; cbn;
      try (intros [= <-]; by right).
    destruct (dict_get d k) as [c|]; cbn; [apply IH|intros [= <-]; by left]. }
  destruct (get_in (PyText.split "." key_path) settings) as [v|e] eqn:Hget;
    [by eexists|].
  destruct (Hraise _ _ _ Hget) as [-> | ->]; by eexists.
Qed.

End Settings.

(** ** The performance filter of the study log *)

(** Every entry of the form is listed under exactly one of the three
    performance filters: for each performance of the slider, from 1 to 10,
    "Good" keeps the entry from 7 on, "Average" from 4 to 6 and "Poor" up
    to 3, and "Good" keeps it exactly when the form stored the result
    GOOD. An entry without a performance is listed under none of the
    three. *)
Theorem performance_filters_partition (performance : Z) :
  1 ≤ performance ≤ 10 →
  let x := StudyLog.performance_field performance in
  StudyLog.keeps "Good (7-10)" x = Ok (7 <=? performance)
  ∧ StudyLog.keeps "Average (4-6)" x
    = Ok ((4 <=? performance) && (performance <=? 6))
  ∧ StudyLog.keeps "Poor (1-3)" x = Ok (performance <=? 3)
  ∧ StudyLog.keeps "All" x = Ok true
  ∧ (StudyLog.result_field performance = "GOOD"%string
     ↔ StudyLog.keeps "Good (7-10)" x = Ok true)
  ∧ Forall (λ selected, StudyLog.keeps selected EmptyString = Ok false)
      ["Good (7-10)"; "Average (4-6)"; "Poor (1-3)"]%string.
Proof.
  intros Hp x.
  assert (Hcases : performance = 1 ∨ performance = 2 ∨ performance = 3
                   ∨ performance = 4 ∨ performance = 5 ∨ performance = 6
                   ∨ performance = 7 ∨ performance = 8 ∨ performance = 9
                   ∨ performance = 10) by lia.
  assert (Hempty : Forall (λ selected, StudyLog.keeps selected EmptyString = Ok false)
                     ["Good (7-10)"; "Average (4-6)"; "Poor (1-3)"]%string)
    by (repeat constructor).
  unfold x.
  repeat (destruct Hcases as [->|Hcases];
          [repeat split; try exact Hempty; try (vm_compute; reflexivity);
           vm_compute; congruence|]).
  subst. repeat split; try exact Hempty; try (vm_compute; reflexivity);
    vm_compute; congruence.
Qed.

Lemma performance_filters_partition_witness :
  StudyLog.performance_field 6 = "6"%string
  ∧ StudyLog.keeps "Average (4-6)" "6" = Ok true
  ∧ StudyLog.keeps "Good (7-10)" "6" = Ok false
  ∧ StudyLog.keeps "Poor (1-3)" "6" = Ok false.
Proof.
  destruct (performance_filters_partition 6) as (Hgood & Havg & Hpoor & _); [lia|].
  split; [reflexivity|]. split; [exact Havg|]. split; [exact Hgood|exact Hpoor].
Defined.

(** ** Writing and reading a setting *)

Section SettingsWalk.

Import SettingsManager.

Lemma get_in_empty_dict (walked : list string) (v : json) :
  get_in walked (JDict []) = Ok v → walked = [] ∧ v = JDict [].
Proof. destruct walked as [|k walked]; cbn; [by intros [= <-]|done]. Qed.

Lemma set_in_raises (init : list string) (last : string) (value current : json)
    (e : exn) :
  set_in init last value current = Raise e → meets_non_dict init current.
Proof.
  revert current. induction init as [|key init IH]; intros current Hset.
  - exists [], current. split; [done|]. split; [done|].
    by destruct current.
  - destruct current as [| | | | | |d];
      try (lazymatch goal with
           | |- meets_non_dict _ ?c =>
               exists [], c; split; [apply prefix_nil|]; split; reflexivity
           end).
    cbn [set_in] in Hset. cbv zeta in Hset.
    destruct (set_in init last value _) as [child'|e'] eqn:Hchild; [done|].
    cbn in Hset. injection Hset as ->.
    apply IH in Hchild as (walked & v & Hpre & Hget & Hv).
    destruct (dict_get d key) as [c|] eqn:Hkey.
    + exists (key :: walked), v. split; [by apply prefix_cons|].
      split; [|done]. cbn [get_in getitem]. by rewrite Hkey.
    + apply get_in_empty_dict in Hget as [_ ->]. done.
Qed.

Lemma set_in_returns (init : list string) (last : string)
    (value current updated : json) :
  set_in init last value current = Ok updated → ¬ meets_non_dict init current.
Proof.
  revert current updated. induction init as [|key init IH];
    intros current updated Hset (walked & v & Hpre & Hget & Hv).
  - apply prefix_nil_inv in Hpre as ->. injection Hget as <-.
    by destruct current.
  - destruct current as [| | | | | |d]; try discriminate.
    cbn [set_in] in Hset. cbv zeta in Hset.
    destruct (set_in init last value _) as [child'|e'] eqn:Hchild; [|done].
    destruct walked as [|k walked]; [by injection Hget as <-|].
    apply prefix_cons_inv_1 in Hpre as Hk. subst k.
    apply prefix_cons_inv_2 in Hpre.
    cbn [get_in getitem] in Hget.
    destruct (dict_get d key) as [c|]; [|done]. cbn in Hget.
    apply (IH _ _ Hchild). by exists walked, v.
Qed.

(** [set_setting] fails exactly when the walk over the keys before the last
    meets a value that is not a dictionary: it then returns false and the
    settings in memory are as they were. Otherwise the settings it leaves
    in memory give the new value back under the same key path, whatever
    [save_settings] returned, which is the result of the call, and every
    key path that starts with another key reads as before. [get_setting]
    never raises. *)
Theorem setting_is_read_back (saved : bool) (settings : json)
    (key_path : string) (value : json) :
  let init := removelast (PyText.split "." key_path) in
  (meets_non_dict init settings ∨ ¬ meets_non_dict init settings)
  ∧ (meets_non_dict init settings →
     set_setting saved settings key_path value = (settings, false))
  ∧ (¬ meets_non_dict init settings →
     ∃ settings',
       set_setting saved settings key_path value = (settings', saved)
       ∧ get_setting settings' key_path = Ok value
       ∧ ∀ other,
           head (PyText.split "." other) ≠ head (PyText.split "." key_path) →
           get_setting settings' other = get_setting settings other)
  ∧ ∃ v, get_setting settings key_path = Ok v.
Proof.
  intros init. subst init.
  pose proof (split_from_nonempty "." EmptyString key_path) as Hkeys.
  fold (PyText.split "." key_path) in Hkeys.
  assert (Hrun : set_setting saved settings key_path value
                 = match set_in (removelast (PyText.split "." key_path))
                           (List.last (PyText.split "." key_path) EmptyString)
                           value settings with
                   | Ok settings' => (settings', saved)
                   | Raise _ => (settings, false)
                   end) by done.
  set (keys := PyText.split "." key_path) in *.
  destruct (set_in (removelast keys) (List.last keys EmptyString) value settings)
    as [settings'|e] eqn:Hset.
  - pose proof (set_in_returns _ _ _ _ _ Hset) as Hfree.
    split; [by right|]. split; [done|]. split.
    + intros _. exists settings'. split; [done|].
      pose proof (app_removelast_last EmptyString Hkeys) as Hparts.
      split.
      * unfold get_setting. fold keys. rewrite Hparts.
        by rewrite (get_in_set_in _ _ _ _ _ Hset).
      * intros other Hother. unfold get_setting.
        pose proof (split_from_nonempty "." EmptyString other) as Hothers.
        fold (PyText.split "." other) in Hothers.
        destruct (PyText.split "." other) as [|k rest]; [done|].
        cbn [get_in].
        rewrite (getitem_set_in_ne _ _ k _ _ _ Hset); [done|].
        rewrite <- Hparts. intros Heq. apply Hother. by rewrite Heq.
    + apply get_setting_returns.
  - pose proof (set_in_raises _ _ _ _ _ Hset) as Hmeets.
    split; [by left|]. split; [done|]. split; [done|].
    apply get_setting_returns.
Qed.

End SettingsWalk.

(** The daily goal of the first settings is raised to 8 hours while the
    file cannot be written; a key below the theme, which is a string,
    cannot be set. *)
Lemma setting_is_read_back_witness :
  SettingsManager.get_setting
    (SettingsManager.set_setting false SettingsManager.default_settings
       "study_goals.daily_hours" (SettingsManager.JInt 8)).1
    "study_goals.daily_hours"
  = Ok (SettingsManager.JInt 8)
  ∧ SettingsManager.meets_non_dict ["preferences"; "theme"]%string
      SettingsManager.default_settings
  ∧ SettingsManager.set_setting true SettingsManager.default_settings
      "preferences.theme.dark" (SettingsManager.JBool true)
    = (SettingsManager.default_settings, false).
Proof.
  assert (Hmeets : SettingsManager.meets_non_dict ["preferences"; "theme"]%string
                     SettingsManager.default_settings).
  { exists ["preferences"; "theme"]%string, (SettingsManager.JStr "light").
    split; [done|]. split; reflexivity. }
  split; [|split; [exact Hmeets|]].
  - destruct (setting_is_read_back false SettingsManager.default_settings
                "study_goals.daily_hours" (SettingsManager.JInt 8))
      as ([Hm|Hfree] & Hblocked & Hwritten & _).
    + specialize (Hblocked Hm). revert Hblocked. vm_compute. discriminate.
    + destruct (Hwritten Hfree) as (settings' & Hrun & Hget & _).
      rewrite Hrun. exact Hget.
  - destruct (setting_is_read_back true SettingsManager.default_settings
                "preferences.theme.dark" (SettingsManager.JBool true))
      as (_ & Hblocked & _).
    apply Hblocked. exact Hmeets.
Defined.

(** ** The streak of the dashboard on the stored log *)






(** ** The progress page on the stored log *)

Lemma column_without_key (name : string) (data : list FlatJson.record) :
  Forall (λ r, NeetStats.get r name = None) data →
  NeetStats.column name data = Raise KeyError.
Proof.
  intros Hnone. unfold NeetStats.column. cbv zeta.
  assert (Hex : existsb NeetStats.present ((λ r, NeetStats.get r name) <$> data)
                = false).
  { induction Hnone as [|r data Hr _ IH]; [done|].
    cbn [fmap list_fmap existsb]. rewrite Hr. cbn. exact IH. }
  by rewrite Hex.
Qed.

(** The progress page never reaches its analysis on a log without a key
    ['Study Hours']: with at least one entry it ends in the error message
    of its [except], whatever pandas makes of the dates and whatever the
    tabs would do, and the exception is the [KeyError] of line 391 when the
    dates are read. No entry of the form has that key, so the page fails on
    every log the form has written. *)
Theorem progress_page_fails_on_stored_log
    (to_datetime : list (option string) → res (list Z))
    (show_tabs : list FlatJson.record → res unit)
    (data : list FlatJson.record) :
  data ≠ [] →
  Forall (λ r, NeetStats.get r "Study Hours" = None) data →
  (∃ e, NeetStats.show_progress_analysis to_datetime show_tabs data
        = NeetStats.Failed e)
  ∧ (∀ days,
       (dates ← NeetStats.column "Date" data; to_datetime dates) = Ok days →
       NeetStats.show_progress_analysis to_datetime show_tabs data
       = NeetStats.Failed KeyError)
  ∧ (∀ date day subject topics goal duration questions doubts motivation
       reflection next_focus performance result test_name test_result remarks,
       NeetStats.get
         (NeetStats.form_entry date day subject topics goal duration questions
            doubts motivation reflection next_focus performance result
            test_name test_result remarks) "Study Hours" = None).
Proof.
  intros Hne Hnone.
  pose proof (column_without_key "Study Hours" data Hnone) as Hcol.
  unfold NeetStats.show_progress_analysis.
  destruct data as [|r0 data0] eqn:Hdata; [done|]. rewrite <- Hdata in *.
  split; [|split].
  - destruct (NeetStats.column "Date" data) as [dates|e1]; cbn; [|by eexists].
    destruct (to_datetime dates) as [days|e2]; cbn; [|by eexists].
    rewrite Hcol. by eexists.
  - intros days Hdays.
    destruct (NeetStats.column "Date" data) as [dates|e1]; cbn in *; [|done].
    destruct (to_datetime dates) as [days'|e2]; cbn in *; [|done].
    by rewrite Hcol.
  - intros. reflexivity.
Qed.

(** Three entries of the form, with dates that are read and tabs that
    would not raise. *)
Lemma progress_page_fails_on_stored_log_witness :
  NeetStats.show_progress_analysis read_ymd (λ _, Ok ()) log_with_gap
  = NeetStats.Failed KeyError
  ∧ NeetStats.calculate_stats_streak read_ymd log_with_gap = 1.
Proof.
  split; [|reflexivity].
  assert (Hne : log_with_gap ≠ []) by done.
  assert (Hnone : Forall (λ r, NeetStats.get r "Study Hours" = None) log_with_gap)
    by (repeat constructor).
  destruct (progress_page_fails_on_stored_log read_ymd (λ _, Ok ()) log_with_gap
              Hne Hnone) as (_ & Hkey & _).
  apply (Hkey [march_2025 1; march_2025 2; march_2025 4]). reflexivity.
Defined.
